(** * Learning-progress dashboard: record mapper, date normaliser and analytics

    A shallow embedding of the data pipeline of the dashboard:

    - [lib/notion.ts]: the record mapper ([asPlainText], [progressFromStatus],
      [deriveOverallStatus], [toISODate], [mapPage]) and the paginated
      ingestion ([getProgressData]);
    - [app/api/notion/progress/route.ts]: the [GET] handler;
    - [components/ProgressDashboard.tsx]: [parseUTC], [isDoneDay], the UTC
      bucket keys, the date-range filter, the KPIs with the streak loop, the
      weekly velocity with its moving average, the cumulative burn-up and
      [avgPct].

    Conventions of the embedding.

    - A JavaScript string is a [string]: a sequence of code units below 256
      (the Latin-1 range); case mapping and white space are the ECMAScript
      ones restricted to that range.
    - A time value is an integer number of milliseconds since the epoch, or
      [NaN] (an invalid [Date]).  The +-8.64e15 ms range limit of [Date] is
      not modelled.
    - What the engine or the environment decides (the current time, the
      implementation-defined part of [Date.parse], local-time calendar
      operations, the remote data source) is a field of [Host] or [World].
    - Counts are [nat]; means are exact rationals ([Q]).  The completion
      percentage of the KPIs, which is rounded to an integer, is computed
      as the code computes it, in doubles ([JsNumber]).
    - [undefined] and [null] results are [None] where the code does not
      tell them apart. *)

From Stdlib Require Import ZArith QArith Qround Qpower String Ascii List Lia Permutation Sorted.
From Stdlib Require Import DecimalString.
From stdpp Require Import gmap strings list.

Local Open Scope string_scope.
Local Open Scope list_scope.
Local Open Scope Z_scope.

(* ===================================================================== *)
(** ** JavaScript strings (Latin-1 code units) *)
(* ===================================================================== *)

Module JsString.

Definition code (c : ascii) : Z := Z.of_N (N_of_ascii c).
Definition ofCode (n : Z) : ascii := ascii_of_N (Z.to_N n).

Definition between (lo hi : Z) (c : ascii) : bool :=
  (lo <=? code c) && (code c <=? hi).

(** [\d] *)
Definition isDigit (c : ascii) : bool := between 48 57 c.

(** [[A-Za-z]] *)
Definition isAlpha (c : ascii) : bool := between 65 90 c || between 97 122 c.

(** WhiteSpace and LineTerminator code units below 256: TAB, LF, VT, FF,
    CR, SP and NBSP.  This is both what [trim] strips and what [\s]
    matches. *)
Definition isWhiteSpace (c : ascii) : bool :=
  between 9 13 c || (code c =? 32) || (code c =? 160).

(** [String.prototype.toLowerCase] on one code unit: A-Z, and the Latin-1
    capitals U+00C0..U+00DE except the multiplication sign U+00D7. *)
Definition lowerChar (c : ascii) : ascii :=
  if between 65 90 c then ofCode (code c + 32)
  else if between 192 222 c && negb (code c =? 215) then ofCode (code c + 32)
  else c.

Fixpoint toLowerCase (s : string) : string :=
  match s with
  | EmptyString => EmptyString
  | String c s' => String (lowerChar c) (toLowerCase s')
  end.

Fixpoint trimStart (s : string) : string :=
  match s with
  | EmptyString => EmptyString
  | String c s' => if isWhiteSpace c then trimStart s' else s
  end.

Fixpoint trimEnd (s : string) : string :=
  match s with
  | EmptyString => EmptyString
  | String c s' =>
      match trimEnd s' with
      | EmptyString => if isWhiteSpace c then EmptyString else String c EmptyString
      | r => String c r
      end
  end.

(** [String.prototype.trim] *)
Definition trim (s : string) : string := trimEnd (trimStart s).

(** Truthiness of a string: only the empty string is falsy. *)
Definition truthy (s : string) : bool := negb (String.eqb s "").

(** Truthiness of [string | undefined] / [string | null]. *)
Definition truthyOpt (s : option string) : bool :=
  match s with
  | Some s => truthy s
  | None => false
  end.

(** [Array.prototype.join] on strings. *)
Fixpoint join (sep : string) (l : list string) : string :=
  match l with
  | [] => ""
  | [x] => x
  | x :: rest => x +:+ sep +:+ join sep rest
  end.

(** Decimal digits. *)
Definition digitVal (c : ascii) : Z := code c - 48.
Definition digitChar (n : Z) : ascii := ofCode (48 + n mod 10).

(** [String(n)] for an integer-valued number. *)
Definition ofInt (n : Z) : string := NilZero.string_of_int (Z.to_int n).

(** Zero-padded decimal fields, as [toISOString] prints them. *)
Definition pad2 (n : Z) : string :=
  String (digitChar (n / 10)) (String (digitChar n) "").
Definition pad3 (n : Z) : string :=
  String (digitChar (n / 100)) (pad2 n).
Definition pad4 (n : Z) : string :=
  String (digitChar (n / 1000)) (pad3 n).
Definition pad6 (n : Z) : string :=
  String (digitChar (n / 100000)) (String (digitChar (n / 10000)) (pad4 n)).

End JsString.

(* ===================================================================== *)
(** ** Time values and the [Date] built-ins *)
(* ===================================================================== *)

(** The result of [getTime()]: a finite integer number of milliseconds, or
    [NaN].  A [Date] object is its time value. *)
Inductive timeValue : Type :=
  | TV (t : Z)
  | NaN.

Definition Date : Type := timeValue.

Global Instance timeValue_eq_dec : EqDecision timeValue.
Proof. solve_decision. Defined.

Definition isNaN (v : timeValue) : bool :=
  match v with
  | TV _ => false
  | NaN => true
  end.

Module JsDate.
Import JsString.

Definition msPerDay : Z := 86400000.

(** [Day(t)] and [TimeWithinDay(t)] of ECMA-262. *)
Definition Day (t : Z) : Z := t / msPerDay.
Definition TimeWithinDay (t : Z) : Z := t mod msPerDay.

Definition isLeap (y : Z) : bool :=
  (y mod 4 =? 0) && (negb (y mod 100 =? 0) || (y mod 400 =? 0)).

Definition daysInMonth (y m : Z) : Z :=
  if m =? 2 then (if isLeap y then 29 else 28)
  else if (m =? 4) || (m =? 6) || (m =? 9) || (m =? 11) then 30
  else 31.

(** Day of the 400-year era of a date given by its March-based year of
    era [yoe], month [m] (1..12) and day of month [d]. *)
Definition dayOfEra (yoe m d : Z) : Z :=
  yoe * 365 + yoe / 4 - yoe / 100
  + (153 * (if 2 <? m then m - 3 else m + 9) + 2) / 5 + d - 1.

(** Day number (days since 1970-01-01) of the proleptic Gregorian date
    [y]-[m]-[d], [m] in 1..12. *)
Definition daysFromCivil (y m d : Z) : Z :=
  let y' := if m <=? 2 then y - 1 else y in
  (y' / 400) * 146097 + dayOfEra (y' mod 400) m d - 719468.

(** The date of a day of the era: March-based year of era, month, day. *)
Definition civilOfEraDay (doe : Z) : Z * Z * Z :=
  let yoe := (doe - doe / 1460 + doe / 36524 - doe / 146096) / 365 in
  let doy := doe - (365 * yoe + yoe / 4 - yoe / 100) in
  let mp := (5 * doy + 2) / 153 in
  let d := doy - (153 * mp + 2) / 5 + 1 in
  let m := if mp <? 10 then mp + 3 else mp - 9 in
  (yoe, m, d).

(** Calendar date (year, month 1..12, day) of a day number. *)
Definition civilFromDays (n : Z) : Z * Z * Z :=
  let z := n + 719468 in
  let '(yoe, m, d) := civilOfEraDay (z mod 146097) in
  (yoe + (z / 146097) * 400 + (if m <=? 2 then 1 else 0), m, d).

(** [MakeDay(year, month, date)], [month] zero-based and carried into the
    year as ECMA-262 does. *)
Definition MakeDay (year month date : Z) : Z :=
  daysFromCivil (year + month / 12) (month mod 12 + 1) 1 + date - 1.

Definition MakeTime (hour min sec ms : Z) : Z :=
  ((hour * 60 + min) * 60 + sec) * 1000 + ms.

Definition MakeDate (day time : Z) : Z := day * msPerDay + time.

Definition YearFromTime (t : Z) : Z :=
  let '(y, _, _) := civilFromDays (Day t) in y.
(** zero-based, as [getUTCMonth] returns it *)
Definition MonthFromTime (t : Z) : Z :=
  let '(_, m, _) := civilFromDays (Day t) in m - 1.
Definition DateFromTime (t : Z) : Z :=
  let '(_, _, d) := civilFromDays (Day t) in d.
(** 0 is Sunday; the epoch was a Thursday. *)
Definition WeekDay (t : Z) : Z := (Day t + 4) mod 7.

(** [Date.UTC(year, month, date)]: years 0..99 mean 1900..1999. *)
Definition Date_UTC (year month date : Z) : Z :=
  let yr := if (0 <=? year) && (year <=? 99) then 1900 + year else year in
  MakeDate (MakeDay yr month date) 0.

(** *** The Date Time String Format

    [Date.parse] must recognise the format [YYYY-MM-DDTHH:mm:ss.sssZ] of
    ECMA-262; everything else is up to the engine.  The recogniser below
    covers the date-only form [YYYY-MM-DD] (which is UTC) and the forms
    with a time [THH:mm:ss] or [THH:mm:ss.sss] and an offset ([Z] or a
    sign and [HH:mm]), with every field in range; whatever it does not
    cover is left to the engine ([legacyDateParse] of the host). *)

Definition num2 (a b : ascii) : Z := 10 * digitVal a + digitVal b.
Definition num3 (a b c : ascii) : Z := 10 * num2 a b + digitVal c.
Definition num4 (a b c d : ascii) : Z := 10 * num3 a b c + digitVal d.

Definition isChar (c : ascii) (lit : string) : bool :=
  String.eqb (String c "") lit.

(** The offset: [Z], or a sign and [HH:mm]; in milliseconds east of UTC. *)
Definition parseIsoZone (s : string) : option Z :=
  match s with
  | String z EmptyString => if isChar z "Z" then Some 0 else None
  | String sign (String h1 (String h2 (String c (String m1 (String m2 EmptyString))))) =>
      if (isChar sign "+" || isChar sign "-") && isDigit h1 && isDigit h2
         && isChar c ":" && isDigit m1 && isDigit m2
         && (num2 h1 h2 <=? 23) && (num2 m1 m2 <=? 59)
      then
        let offset := MakeTime (num2 h1 h2) (num2 m1 m2) 0 0 in
        Some (if isChar sign "+" then offset else - offset)
      else None
  | _ => None
  end.

(** The time [HH:mm:ss] or [HH:mm:ss.sss] with its offset: the
    milliseconds to add to UTC midnight of the date.  A time without an
    offset is a local time, and is left to the engine. *)
Definition parseIsoTime (s : string) : option Z :=
  match s with
  | String h1 (String h2 (String c1 (String m1 (String m2 (String c2
      (String s1 (String s2 rest))))))) =>
      if isDigit h1 && isDigit h2 && isChar c1 ":" && isDigit m1 && isDigit m2
         && isChar c2 ":" && isDigit s1 && isDigit s2
         && (num2 h1 h2 <=? 23) && (num2 m1 m2 <=? 59) && (num2 s1 s2 <=? 59)
      then
        match rest with
        | String dot (String f1 (String f2 (String f3 zone))) =>
            if isChar dot "." then
              if isDigit f1 && isDigit f2 && isDigit f3 then
                match parseIsoZone zone with
                | Some offset =>
                    Some (MakeTime (num2 h1 h2) (num2 m1 m2) (num2 s1 s2)
                                   (num3 f1 f2 f3) - offset)
                | None => None
                end
              else None
            else
              match parseIsoZone rest with
              | Some offset =>
                  Some (MakeTime (num2 h1 h2) (num2 m1 m2) (num2 s1 s2) 0 - offset)
              | None => None
              end
        | _ =>
            match parseIsoZone rest with
            | Some offset =>
                Some (MakeTime (num2 h1 h2) (num2 m1 m2) (num2 s1 s2) 0 - offset)
            | None => None
            end
        end
      else None
  | _ => None
  end.

Definition parseIsoDateTime (s : string) : option Z :=
  match s with
  | String y1 (String y2 (String y3 (String y4 (String c1 (String m1 (String m2
      (String c2 (String d1 (String d2 rest))))))))) =>
      if isDigit y1 && isDigit y2 && isDigit y3 && isDigit y4 && isChar c1 "-"
         && isDigit m1 && isDigit m2 && isChar c2 "-" && isDigit d1 && isDigit d2
      then
        let y := num4 y1 y2 y3 y4 in
        let m := num2 m1 m2 in
        let d := num2 d1 d2 in
        if (1 <=? m) && (m <=? 12) && (1 <=? d) && (d <=? daysInMonth y m)
        then
          match rest with
          | EmptyString => Some (MakeDate (MakeDay y (m - 1) d) 0)
          | String t time =>
              if isChar t "T"
              then
                match parseIsoTime time with
                | Some tm => Some (MakeDate (MakeDay y (m - 1) d) tm)
                | None => None
                end
              else None
          end
        else None
      else None
  | _ => None
  end.

(** [Date.prototype.toISOString] of a valid time value. *)
Definition toISOString (t : Z) : string :=
  let '(y, m, d) := civilFromDays (Day t) in
  let tm := TimeWithinDay t in
  let year :=
    if (0 <=? y) && (y <=? 9999) then pad4 y
    else if y <? 0 then "-" +:+ pad6 (- y)
    else "+" +:+ pad6 y in
  year +:+ "-" +:+ pad2 m +:+ "-" +:+ pad2 d +:+ "T"
    +:+ pad2 (tm / 3600000) +:+ ":" +:+ pad2 (tm / 60000 mod 60) +:+ ":"
    +:+ pad2 (tm / 1000 mod 60) +:+ "." +:+ pad3 (tm mod 1000) +:+ "Z".

End JsDate.

(* ===================================================================== *)
(** ** The host: what the engine and the environment decide *)
(* ===================================================================== *)

Record Host : Type := {
  (** [Date.now()], the time value of [new Date()] *)
  now : Z;
  (** the implementation-defined part of [Date.parse]: what the engine makes
      of a string outside the Date Time String Format (it also carries the
      local time zone, in which such strings are read) *)
  legacyDateParse : string -> timeValue;
  (** [d3.timeWeek.floor] and [d3.timeWeek.offset]: Sunday-based weeks of
      the local calendar *)
  timeWeek_floor : Z -> Z;
  timeWeek_offset : Z -> Z -> Z;
  (** [new Date(d.getFullYear(), 0, 1)]: the start of the local year *)
  localYearStart : Z -> Z
}.

(** [Date.parse(s)], also the time value of [new Date(s)]. *)
Definition Date_parse (h : Host) (s : string) : timeValue :=
  match JsDate.parseIsoDateTime s with
  | Some t => TV t
  | None => legacyDateParse h s
  end.

(** [d.getUTCFullYear()] of a valid date. *)
Definition getUTCFullYear (t : Z) : Z := JsDate.YearFromTime t.
Definition getUTCMonth (t : Z) : Z := JsDate.MonthFromTime t.
Definition getUTCDate (t : Z) : Z := JsDate.DateFromTime t.

(** [a - b] on time values, as the sort comparators compute it. *)
Definition tvSub (a b : timeValue) : timeValue :=
  match a, b with
  | TV x, TV y => TV (x - y)
  | _, _ => NaN
  end.

(** [a >= b] on time values; a comparison with [NaN] is false. *)
Definition tvGe (a b : timeValue) : bool :=
  match a, b with
  | TV x, TV y => y <=? x
  | _, _ => false
  end.

(* ===================================================================== *)
(** ** Arrays *)
(* ===================================================================== *)

Module JsArray.

Section Sort.
Context {A : Type}.
(** the comparator [(a, b) => ...], a number or [NaN] *)
Variable cmp : A -> A -> timeValue.

(** [x] goes after [y] when the comparator is positive; a [NaN] or zero
    comparison keeps the original order. *)
Definition after (x y : A) : bool :=
  match cmp x y with
  | TV v => 0 <? v
  | NaN => false
  end.

Fixpoint insert (x : A) (l : list A) : list A :=
  match l with
  | [] => [x]
  | y :: l' => if after x y then y :: insert x l' else x :: y :: l'
  end.

(** [Array.prototype.sort(cmp)]: a stable sort.  With a consistent
    comparator every conforming engine computes this list; with an
    inconsistent one (a [NaN] among the keys) the order is up to the
    engine. *)
Definition sort (l : list A) : list A := fold_right insert [] l.
End Sort.

(** [arr.slice(start, end)] for [0 <= start]. *)
Definition slice {A} (start stop : Z) (l : list A) : list A :=
  take (Z.to_nat (stop - start)) (drop (Z.to_nat start) l).

(** [arr[arr.length - 1]] *)
Definition lastOf {A} (l : list A) : option A := last l.

End JsArray.

(* ===================================================================== *)
(** ** The d3 functions the dashboard uses *)
(* ===================================================================== *)

Module D3.
Import JsDate.

(** [d3.utcDay.floor]: midnight UTC at or before the date. *)
Definition utcDay_floor (d : Date) : Date :=
  match d with
  | TV t => TV (Day t * msPerDay)
  | NaN => NaN
  end.

(** [d3.utcDay.offset(d, step)] *)
Definition utcDay_offset (d : Date) (step : Z) : Date :=
  match d with
  | TV t => TV (t + step * msPerDay)
  | NaN => NaN
  end.

(** [d3.utcMonday.floor]: midnight UTC of the Monday at or before the
    date. *)
Definition utcMonday_floor (d : Date) : Date :=
  match d with
  | TV t => TV ((Day t - (WeekDay t + 7 - 1) mod 7) * msPerDay)
  | NaN => NaN
  end.

Section Group.
Context {A K : Type} `{EqDecision K}.

(** One step of [d3.group]: push the value on the group of its key, or
    open a new group after the existing ones. *)
Fixpoint upsert (k : K) (x : A) (groups : list (K * list A))
  : list (K * list A) :=
  match groups with
  | [] => [(k, [x])]
  | (k', xs) :: rest =>
      if decide (k' = k) then (k', xs ++ [x]) :: rest
      else (k', xs) :: upsert k x rest
  end.

(** [d3.group(values, key)]: the groups in the order in which their keys
    first occur. *)
Definition group (values : list A) (key : A -> K) : list (K * list A) :=
  fold_left (fun groups x => upsert (key x) x groups) values [].

(** [d3.rollups(values, reduce, key)] *)
Definition rollups {V} (values : list A) (reduce : list A -> V) (key : A -> K)
  : list (K * V) :=
  map (fun g => (fst g, reduce (snd g))) (group values key).

(** [Array.from(d3.rollup(values, reduce, key).keys())] *)
Definition rollup_keys (values : list A) (key : A -> K) : list K :=
  map fst (group values key).
End Group.

Definition sumQ (l : list Q) : Q := fold_right Qplus 0%Q l.

(** [d3.mean(values)]: [undefined] on no value. *)
Definition mean (values : list Q) : option Q :=
  match values with
  | [] => None
  | _ => Some (sumQ values / inject_Z (Z.of_nat (length values)))%Q
  end.

End D3.

(** [Math.round]: the integer nearest to the argument, halves going up. *)
Definition Math_round (q : Q) : Z := Qfloor (q + (1 # 2))%Q.

(* ===================================================================== *)
(** ** Numbers (IEEE 754 doubles) *)
(* ===================================================================== *)

Module JsNumber.

(** A finite double is the rational it stands for.  The result of an
    operation is its exact result rounded to a significand of 53 bits,
    to the nearest and to the even one of two nearest.  The range of the
    exponent is not modelled: no operation here comes near an overflow
    or an underflow. *)

Definition pow2 (e : Z) : Q := Qpower 2 e.

(** The exponent [e] of a positive [q]: [2^e <= q < 2^(e+1)]. *)
Definition exponentOf (q : Q) : Z :=
  let e0 := Z.log2 (Qnum q) - Z.log2 (Zpos (Qden q)) in
  if Qle_bool (pow2 e0) q then e0 else e0 - 1.

Definition roundTiesToEven (q : Q) : Z :=
  let f := Qfloor q in
  match Qcompare (q - inject_Z f) (1 # 2) with
  | Lt => f
  | Gt => f + 1
  | Eq => if Z.even f then f else f + 1
  end.

Definition toDoublePos (q : Q) : Q :=
  let ulp := pow2 (exponentOf q - 52) in
  (inject_Z (roundTiesToEven (q / ulp)) * ulp)%Q.

(** The double nearest to [q]. *)
Definition toDouble (q : Q) : Q :=
  match Qcompare q 0 with
  | Eq => 0%Q
  | Gt => toDoublePos q
  | Lt => (- toDoublePos (- q))%Q
  end.

(** [a / b] for [b] other than 0, and [a * b]. *)
Definition div (a b : Q) : Q := toDouble (a / b).
Definition mul (a b : Q) : Q := toDouble (a * b).

(** A count (an array length, below 2^32) as a double: itself. *)
Definition ofNat (n : nat) : Q := inject_Z (Z.of_nat n).

End JsNumber.

(* ===================================================================== *)
(** ** lib/notion.ts: record mapper and ingestion *)
(* ===================================================================== *)

(** A result or a thrown error. *)
Inductive outcome (A : Type) : Type :=
  | Returns (a : A)
  | Throws (message : string).
Arguments Returns {A} a.
Arguments Throws {A} message.

Module Notion.
Import JsString.

(** *** Property values of a page, as the data source sends them *)

Record RichTextItem : Type := { plain_text : option string }.
Record SelectOption : Type := { name : string }.
Record DateValue : Type := { start : string }.

(** A number payload, given by the text that [String] prints for it:
    printing is all the code does with a number. *)
Record NumberValue : Type := { printed : string }.

Inductive FormulaValue : Type :=
  | FString (s : option string)
  | FNumber (n : option NumberValue)
  | FBoolean (b : option bool)
  | FDate (d : option DateValue)
  | FOther.

(** One constructor per [type] tag that [asPlainText] knows, and one for
    every other tag. *)
Inductive PropertyValue : Type :=
  | PFormula (formula : option FormulaValue)
  | PTitle (title : list RichTextItem)
  | PRichText (rich_text : list RichTextItem)
  | PSelect (select : option SelectOption)
  | PStatus (status : option SelectOption)
  | PNumber (number : option NumberValue)
  | PDate (date : option DateValue)
  | PMultiSelect (multi_select : list SelectOption)
  | POther (type : string).

Record Page : Type := { properties : option (gmap string PropertyValue) }.

Inductive Status : Type := Done | InProgress | Skipped | NotStarted.

(** The string the status is in the code. *)
Definition statusLabel (s : Status) : string :=
  match s with
  | Done => "Done"
  | InProgress => "In Progress"
  | Skipped => "Skipped"
  | NotStarted => "Not Started"
  end.

(** The normalised row [mapPage] returns. *)
Record ProgressRecord : Type := {
  date : option string;
  status : Status;
  hours : Z;
  pythonTopic : option string;
  llmTopic : option string;
  pythonPct : Z;
  llmPct : Z;
  overallPct : Z
}.

(** [FIELD] *)
Definition FIELD_dateCandidates : list string := ["Day"; "Date"].
Definition FIELD_pythonStatus : string := "Python Status".
Definition FIELD_llmStatus : string := "LLM Status".
Definition FIELD_pythonTopic : string := "Python Topic".
Definition FIELD_llmTopic : string := "LLM Topic".

Fixpoint getFirstExistingProp (props : gmap string PropertyValue)
    (candidates : list string) : option PropertyValue :=
  match candidates with
  | [] => None
  | c :: rest =>
      match props !! c with
      | Some p => Some p
      | None => getFirstExistingProp props rest
      end
  end.

Definition runsText (runs : list RichTextItem) : string :=
  join "" (map (fun t => default "" (plain_text t)) runs).

Definition stringOfBool (b : bool) : string := if b then "true" else "false".

Definition asPlainText (prop : option PropertyValue) : option string :=
  match prop with
  | None => None
  | Some (PFormula None) => None
  | Some (PFormula (Some f)) =>
      match f with
      | FString s => s
      | FNumber n => option_map printed n
      | FBoolean b => option_map stringOfBool b
      | FDate d => option_map start d
      | FOther => None
      end
  | Some (PTitle runs) | Some (PRichText runs) =>
      let parts := runsText runs in
      if truthy parts then Some parts else None
  | Some (PSelect o) | Some (PStatus o) => option_map name o
  | Some (PNumber n) => option_map printed n
  | Some (PDate d) => option_map start d
  | Some (PMultiSelect l) => Some (join ", " (map name l))
  | Some (POther _) => None
  end.

Definition toISODate (h : Host) (s : option string) : option string :=
  match s with
  | None => None
  | Some s =>
      if negb (truthy s) then None
      else
        match Date_parse h s with
        | NaN => None
        | TV t => Some (JsDate.toISOString t)
        end
  end.

(** Compute 0/100 from a status. *)
Definition progressFromStatus (status : option string) : Z :=
  let s := toLowerCase (trim (default "" status)) in
  if String.eqb s "completed" then 100 else 0.

(** Derived overall dashboard status. *)
Definition deriveOverallStatus (py llm : option string) : Status :=
  let sPy := toLowerCase (default "" py) in
  let sLlm := toLowerCase (default "" llm) in
  let isPyDone := String.eqb sPy "completed" in
  let isLlmDone := String.eqb sLlm "completed" in
  let anyInProg := String.eqb sPy "in progress" || String.eqb sLlm "in progress" in
  let anySkipped :=
    (String.eqb sPy "skipped" || String.eqb sLlm "skipped")
    && negb isPyDone && negb isLlmDone in
  if isPyDone && isLlmDone then Done
  else if anyInProg then InProgress
  else if anySkipped then Skipped
  else NotStarted.

(** Map one page to the normalised row. *)
Definition mapPage (h : Host) (page : Page) : ProgressRecord :=
  let props := default ∅ (properties page) in
  let dayProp := getFirstExistingProp props FIELD_dateCandidates in
  let dateISO := toISODate h (asPlainText dayProp) in
  let pythonStatus := asPlainText (props !! FIELD_pythonStatus) in
  let llmStatus := asPlainText (props !! FIELD_llmStatus) in
  let pythonTopic := asPlainText (props !! FIELD_pythonTopic) in
  let llmTopic := asPlainText (props !! FIELD_llmTopic) in
  let pythonPct := progressFromStatus pythonStatus in
  let llmPct := progressFromStatus llmStatus in
  let overallPct := if (pythonPct =? 100) && (llmPct =? 100) then 100 else 0 in
  let status := deriveOverallStatus pythonStatus llmStatus in
  {| date := dateISO;
     status := status;
     hours := 0;
     pythonTopic := pythonTopic;
     llmTopic := llmTopic;
     pythonPct := pythonPct;
     llmPct := llmPct;
     overallPct := overallPct |}.

(** *** Ingestion *)

(** The answers of the data source to the successive queries of one run:
    the query fails, or it returns a page of results that is the last one
    ([has_more] false or no [next_cursor]) or that is followed by more. *)
Inductive Source : Type :=
  | QueryFails (message : string)
  | LastPage (results : list Page)
  | MorePages (results : list Page) (rest : Source).

Record World : Type := {
  env_NOTION_API_KEY : option string;
  env_NOTION_DATABASE_ID : option string;
  (** the source behind an API key and a database id *)
  notion : string -> string -> Source;
  server : Host
}.

(** [z.string().min(1)] on an environment variable *)
Definition nonEmptyString (v : option string) : option string :=
  match v with
  | Some s => if (1 <=? Z.of_nat (String.length s)) then Some s else None
  | None => None
  end.

Definition parseEnv (w : World) : outcome (string * string) :=
  match nonEmptyString (env_NOTION_API_KEY w),
        nonEmptyString (env_NOTION_DATABASE_ID w) with
  | Some key, Some db => Returns (key, db)
  | None, Some _ => Throws "Missing env vars: NOTION_API_KEY"
  | Some _, None => Throws "Missing env vars: NOTION_DATABASE_ID"
  | None, None => Throws "Missing env vars: NOTION_API_KEY, NOTION_DATABASE_ID"
  end.

(** The [while (true)] loop over the pages: all rows, or the failure of a
    query. *)
Fixpoint fetchAll (src : Source) (rows : list Page) : outcome (list Page) :=
  match src with
  | QueryFails msg => Throws msg
  | LastPage results => Returns (rows ++ results)
  | MorePages results rest => fetchAll rest (rows ++ results)
  end.

Definition getProgressData (w : World) (databaseIdOverride : option string)
  : outcome (list ProgressRecord) :=
  match parseEnv w with
  | Throws msg => Throws msg
  | Returns (NOTION_API_KEY, NOTION_DATABASE_ID) =>
      let database_id := default NOTION_DATABASE_ID databaseIdOverride in
      match fetchAll (notion w NOTION_API_KEY database_id) [] with
      | Throws msg => Throws msg
      | Returns rows =>
          (* [.filter(Boolean)] keeps every row: [mapPage] returns objects *)
          Returns (map (mapPage (server w)) rows)
      end
  end.

End Notion.

(* ===================================================================== *)
(** ** app/api/notion/progress/route.ts *)
(* ===================================================================== *)

Module Route.
Import Notion.

(** The values a query field can have. *)
Inductive JsValue : Type :=
  | VUndefined
  | VNull
  | VString (s : string)
  | VOther.

(** [z.string()] *)
Definition z_string (v : JsValue) : option string :=
  match v with
  | VString s => Some s
  | _ => None
  end.

(** [schema.optional()] *)
Definition z_optional {A} (schema : JsValue -> option A) (v : JsValue)
  : option (option A) :=
  match v with
  | VUndefined => Some None
  | _ => option_map Some (schema v)
  end.

(** [QuerySchema.safeParse({ db })]: the parsed [db], or no success. *)
Definition QuerySchema_safeParse (db : JsValue) : option (option string) :=
  z_optional z_string db.

Inductive Body : Type :=
  | Success (data : list ProgressRecord)
  | Failure (code message : string).

Record Response : Type := { body : Body; httpStatus : Z }.

(** [searchParams.get("db") ?? undefined] *)
Definition dbParam (db : option string) : JsValue :=
  match db with
  | Some s => VString s
  | None => VUndefined
  end.

(** The handler, on the value of [searchParams.get("db")] of a request
    whose URL parses. *)
Definition GET (w : World) (db : option string) : Response :=
  match QuerySchema_safeParse (dbParam db) with
  | None =>
      {| body := Failure "BAD_QUERY" "Invalid query params"; httpStatus := 400 |}
  | Some dbOverride =>
      match getProgressData w dbOverride with
      | Returns data => {| body := Success data; httpStatus := 200 |}
      | Throws _ =>
          {| body := Failure "SERVER_ERROR" "Failed to fetch Notion data";
             httpStatus := 500 |}
      end
  end.

End Route.

(* ===================================================================== *)
(** ** components/ProgressDashboard.tsx *)
(* ===================================================================== *)

(** Time values as keys of [Map] and [Set] (same-value-zero: [NaN] is one
    key). *)
Global Instance timeValue_countable : Countable timeValue.
Proof.
  refine (inj_countable'
            (fun v => match v with TV t => Some t | NaN => None end)
            (fun o => match o with Some t => TV t | None => NaN end) _).
  intros []; reflexivity.
Defined.

Module Dashboard.
Import JsString JsDate.

(** [number | null | undefined]; the numbers are integers. *)
Inductive optNumber : Type :=
  | Num (n : Z)
  | Null
  | Undefined.

Record Item : Type := {
  date : option string;
  status : option string;
  hours : optNumber;
  pythonTopic : option string;
  llmTopic : option string;
  pythonPct : optNumber;
  llmPct : optNumber;
  overallPct : optNumber
}.

(** [x ?? 0] *)
Definition orZero (x : optNumber) : Z :=
  match x with
  | Num n => n
  | Null | Undefined => 0
  end.

(** A day counts as done if overall is 100 or either topic is 100. *)
Definition isDoneDay (d : Item) : bool :=
  (100 <=? orZero (overallPct d)) || (100 <=? orZero (pythonPct d))
  || (100 <=? orZero (llmPct d)).

(** [/^\d{4}-\d{2}-\d{2}$/.test(s)] *)
Definition isoDayPattern (s : string) : bool :=
  match s with
  | String y1 (String y2 (String y3 (String y4 (String c1 (String m1 (String m2
      (String c2 (String d1 (String d2 EmptyString))))))))) =>
      isDigit y1 && isDigit y2 && isDigit y3 && isDigit y4 && isChar c1 "-"
      && isDigit m1 && isDigit m2 && isChar c2 "-" && isDigit d1 && isDigit d2
  | _ => false
  end.

(** [[A-Za-z]{3}] at the head of the string: the three letters and what
    follows them. *)
Definition threeLetters (s : string) : option (string * string) :=
  match s with
  | String a (String b (String c rest)) =>
      if isAlpha a && isAlpha b && isAlpha c
      then Some (String a (String b (String c "")), rest)
      else None
  | _ => None
  end.

(** [\s*] *)
Fixpoint skipSpaces (s : string) : string :=
  match s with
  | EmptyString => EmptyString
  | String c s' => if isWhiteSpace c then skipSpaces s' else s
  end.

(** [([A-Za-z]{3})\s+(\d{1,2})$]: the two captures. *)
Definition monthDayCore (s : string) : option (string * string) :=
  match threeLetters s with
  | Some (mon, String c rest) =>
      if isWhiteSpace c then
        match skipSpaces rest with
        | String d1 EmptyString =>
            if isDigit d1 then Some (mon, String d1 "") else None
        | String d1 (String d2 EmptyString) =>
            if isDigit d1 && isDigit d2 then Some (mon, String d1 (String d2 ""))
            else None
        | _ => None
        end
      else None
  | _ => None
  end.

(** The match of the year-less pattern: an optional prefix of three
    letters, a comma and any white space, then [([A-Za-z]{3})\s+(\d{1,2})$];
    the captures are [mon] and [day].  The optional prefix is tried first,
    then the pattern without it. *)
Definition monthDayPattern (s : string) : option (string * string) :=
  let withPrefix :=
    match threeLetters s with
    | Some (_, String comma rest) =>
        if isChar comma "," then monthDayCore (skipSpaces rest) else None
    | _ => None
    end in
  match withPrefix with
  | Some m => Some m
  | None => monthDayCore s
  end.

(** Parse date strings as UTC midnight, fixing year-less strings like
    "Mon, Jan 01". *)
Definition parseUTC (h : Host) (s : option string) : option Date :=
  match s with
  | None => None
  | Some s =>
      if negb (truthy s) then None
      else if isoDayPattern s then Some (Date_parse h (s +:+ "T00:00:00Z"))
      else
        let native := Date_parse h s in
        let sensible :=
          match native with
          | TV t => 2015 <? getUTCFullYear t
          | NaN => false
          end in
        if sensible then Some native
        else
          match monthDayPattern s with
          | Some (mon, day) =>
              let y := getUTCFullYear (now h) in
              Some (Date_parse h (mon +:+ " " +:+ day +:+ ", " +:+ ofInt y +:+ " UTC"))
          | None =>
              Some (TV (Date_UTC (getUTCFullYear (now h)) (getUTCMonth (now h))
                                 (getUTCDate (now h))))
          end
  end.

(** UTC keys *)
Definition utcDayKey (d : Date) : timeValue := D3.utcDay_floor d.
Definition utcWeekKey (d : Date) : timeValue := D3.utcMonday_floor d.

(** [r.date] as a condition *)
Definition hasDate (r : Item) : bool := truthyOpt (date r).

(** [parseUTC(r.date!)!] where a date is used: the assertion is erased, and
    [null] would be read as the number 0. *)
Definition dateOf (h : Host) (r : Item) : Date :=
  default (TV 0) (parseUTC h (date r)).

(** *** The date-range filter *)

Definition rangeStart (h : Host) (dateRange : string) : option Z :=
  if String.eqb dateRange "all" then None
  else if String.eqb dateRange "4w"
  then Some (timeWeek_offset h (timeWeek_floor h (now h)) (-4))
  else if String.eqb dateRange "12w"
  then Some (timeWeek_offset h (timeWeek_floor h (now h)) (-12))
  else if String.eqb dateRange "ytd" then Some (localYearStart h (now h))
  else None.

Definition filtered (h : Host) (dateRange : string) (data : list Item)
  : list Item :=
  match data with
  | [] => data
  | _ =>
      match rangeStart h dateRange with
      | None => data
      | Some start =>
          List.filter
            (fun d => if hasDate d then tvGe (dateOf h d) (TV start) else false)
            data
      end
  end.

(** *** KPIs, with the streak *)

Record KPIs : Type := {
  total : nat;
  done : nat;
  open : nat;
  completion : Z;
  streak : nat
}.

(** [total ? Math.round((done / total) * 100) : 0] *)
Definition completionOf (total done : nat) : Z :=
  if (total =? 0)%nat then 0
  else Math_round
         (JsNumber.mul (JsNumber.div (JsNumber.ofNat done) (JsNumber.ofNat total))
                       100).

(** The sorted distinct UTC day keys of the done rows that have a date. *)
Definition doneDayKeys (h : Host) (doneRows : list Item) : list timeValue :=
  JsArray.sort tvSub
    (D3.rollup_keys (List.filter hasDate doneRows)
                    (fun r => utcDayKey (dateOf h r))).

(** The [while] loop of the streak.  [None]: the loop is still running
    when the fuel is used up. *)
Fixpoint streakLoop (fuel : nat) (doneSet : gset timeValue) (cursor : Date)
    (streak : nat) : option nat :=
  match fuel with
  | O => None
  | S fuel' =>
      if bool_decide (utcDayKey cursor ∈ doneSet)
      then streakLoop fuel' doneSet (D3.utcDay_offset cursor (-1)) (S streak)
      else Some streak
  end.

(** The streak from the sorted keys.  The fuel is one more than the number
    of keys: the loop leaves on a day that is no key, and passes through
    more days than there are keys only when its cursor is an invalid date,
    and then it never leaves. *)
Definition streakOf (keys : list timeValue) : option nat :=
  match JsArray.lastOf keys with
  | None => Some O
  | Some latest =>
      streakLoop (S (length keys)) (list_to_set keys) latest O
  end.

Definition kpis (h : Host) (filtered : list Item) : option KPIs :=
  let total := length filtered in
  let doneRows := List.filter isDoneDay filtered in
  let done := length doneRows in
  let open := (total - done)%nat in
  let completion := completionOf total done in
  match streakOf (doneDayKeys h doneRows) with
  | Some streak =>
      Some {| total := total; done := done; open := open;
              completion := completion; streak := streak |}
  | None => None
  end.

(** *** Weekly velocity *)

(** The points [{week, count}] of [weekly] and [{week, avg}] of [ma]. *)
Record WeekPoint : Type := { week : Date; count : nat }.
Record AvgPoint : Type := { avgWeek : Date; avg : Q }.

Definition weekly (h : Host) (data : list Item) : list WeekPoint :=
  JsArray.sort (fun a b => tvSub (week a) (week b))
    (map (fun kv => {| week := fst kv; count := snd kv |})
         (D3.rollups (List.filter (fun r => hasDate r && isDoneDay r) data)
                     (fun v => length v)
                     (fun d => utcWeekKey (dateOf h d)))).

Definition countQ (x : WeekPoint) : Q := inject_Z (Z.of_nat (count x)).

(** 3-week moving average *)
Definition ma (weekly : list WeekPoint) : list AvgPoint :=
  imap (fun i d =>
          let start := Z.max 0 (Z.of_nat i - 2) in
          let slice := JsArray.slice start (Z.of_nat i + 1) weekly in
          {| avgWeek := week d;
             avg := default 0%Q (D3.mean (map countQ slice)) |})
       weekly.

(** *** Cumulative burn-up *)

(** The points [{day, added, done}] of [daily] and [{day, total, done}] of
    [series]; the fields of the latter are named after the running sums
    [cumTotal] and [cumDone] they hold. *)
Record DayPoint : Type := { day : Date; added : nat; doneThatDay : nat }.
Record BurnPoint : Type := { burnDay : Date; cumTotal : nat; cumDone : nat }.

Definition daily (h : Host) (data : list Item) : list DayPoint :=
  JsArray.sort (fun a b => tvSub (day a) (day b))
    (map (fun kv => {| day := fst kv; added := fst (snd kv);
                       doneThatDay := snd (snd kv) |})
         (D3.rollups (List.filter hasDate data)
                     (fun v => (length v, length (List.filter isDoneDay v)))
                     (fun d => utcDayKey (dateOf h d)))).

(** [daily.map] with the two running sums it updates. *)
Fixpoint seriesFrom (cumTotal cumDone : nat) (daily : list DayPoint)
  : list BurnPoint :=
  match daily with
  | [] => []
  | d :: rest =>
      let cumTotal := (cumTotal + added d)%nat in
      let cumDone := (cumDone + doneThatDay d)%nat in
      {| burnDay := day d; cumTotal := cumTotal; cumDone := cumDone |}
        :: seriesFrom cumTotal cumDone rest
  end.

Definition series (h : Host) (data : list Item) : list BurnPoint :=
  seriesFrom 0 0 (daily h data).

(** *** Topic averages *)

(** [Number(x)]: [null] is 0 and [undefined] is [NaN] ([None]). *)
Definition Number_ (x : optNumber) : option Z :=
  match x with
  | Num n => Some n
  | Null => Some 0
  | Undefined => None
  end.

(** [arr.map(Number).filter((v) => Number.isFinite(v))] *)
Definition finiteValues (arr : list optNumber) : list Z :=
  omap Number_ arr.

Definition avgPct (arr : list optNumber) : Q :=
  let vals := finiteValues arr in
  match vals with
  | [] => 0%Q
  | _ => default 0%Q (D3.mean (map inject_Z vals))
  end.

(** The rows of the topic-wise bars. *)
Definition topicRows (data : list Item) (topicFocus : string)
  : list (string * Q) :=
  if String.eqb topicFocus "both" then
    [ ("Python", avgPct (map pythonPct data));
      ("LLM", avgPct (map llmPct data));
      ("Overall", avgPct (map overallPct data)) ]
  else if String.eqb topicFocus "python" then
    [ ("Python", avgPct (map pythonPct data)) ]
  else
    [ ("LLM", avgPct (map llmPct data)) ].

(** *** From the response of the route to the items of the dashboard *)

(** [JSON.stringify] on the server and [res.json()] in the browser: an
    [undefined] field is dropped, the others keep their values. *)
Definition itemOfRecord (r : Notion.ProgressRecord) : Item :=
  {| date := Notion.date r;
     status := Some (Notion.statusLabel (Notion.status r));
     hours := Num (Notion.hours r);
     pythonTopic := Notion.pythonTopic r;
     llmTopic := Notion.llmTopic r;
     pythonPct := Num (Notion.pythonPct r);
     llmPct := Num (Notion.llmPct r);
     overallPct := Num (Notion.overallPct r) |}.

End Dashboard.

(* ===================================================================== *)
(** ** components/ProgressDashboard.tsx: week details and status breakdown *)
(* ===================================================================== *)

Module DashboardViews.
Import JsString JsDate Dashboard.

(** [a < b] on time values; a comparison with [NaN] is false. *)
Definition tvLt (a b : timeValue) : bool :=
  match a, b with
  | TV x, TV y => x <? y
  | _, _ => false
  end.

(** [d3.utcMonday.offset(d, step)]: [step] weeks later. *)
Definition utcMonday_offset (d : Date) (step : Z) : Date :=
  match d with
  | TV t => TV (t + step * 7 * msPerDay)
  | NaN => NaN
  end.

(** The rows [handleSelectWeek] puts in the dialog: the rows of the week
    that starts at [WEEK.floor(weekStartUTC)], in the order of their
    dates. *)
Definition handleSelectWeek (h : Host) (filtered : list Item)
    (weekStartUTC : Date) : list Item :=
  let start := D3.utcMonday_floor weekStartUTC in
  let stop := utcMonday_offset start 1 in
  let rows :=
    List.filter
      (fun r =>
         if negb (hasDate r) then false
         else
           match parseUTC h (date r) with
           | None => false
           | Some dt => tvGe dt start && tvLt dt stop
           end)
      filtered in
  JsArray.sort (fun a b => tvSub (dateOf h a) (dateOf h b)) rows.

(** The slices of the status donut: [d3.rollups(data, v => v.length,
    d => d.status ?? "Unknown")]. *)
Definition statuses (data : list Item) : list (string * nat) :=
  D3.rollups data (fun v => length v) (fun d => default "Unknown" (status d)).

(** *** The topic timeline *)

(** The rows [{date, python, llm}] of [TopicTimeline] and the points
    [{date, topic, value}] it draws. *)
Record TimelineRow : Type := {
  rowDate : Date;
  rowPython : option string;
  rowLlm : option string
}.
Record TimelinePoint : Type := {
  pointDate : Date;
  topic : string;
  value : string
}.

(** [data.map(...).filter((r) => !!r.date)]: the rows whose date
    [parseUTC] does not answer with [null]. *)
Definition timelineRows (h : Host) (data : list Item) : list TimelineRow :=
  omap (fun d =>
          match parseUTC h (date d) with
          | Some dt =>
              Some {| rowDate := dt; rowPython := pythonTopic d; rowLlm := llmTopic d |}
          | None => None
          end)
       data.

Definition meltedAll (h : Host) (data : list Item) : list TimelinePoint :=
  let rows := timelineRows h data in
  map (fun r => {| pointDate := rowDate r; topic := "Python";
                   value := default "" (rowPython r) |})
      (List.filter (fun r => truthyOpt (rowPython r)) rows)
  ++ map (fun r => {| pointDate := rowDate r; topic := "LLM";
                      value := default "" (rowLlm r) |})
         (List.filter (fun r => truthyOpt (rowLlm r)) rows).

(** The points of the focus, in the order of their dates. *)
Definition melted (h : Host) (data : list Item) (topicFocus : string)
  : list TimelinePoint :=
  let points :=
    if String.eqb topicFocus "both" then meltedAll h data
    else if String.eqb topicFocus "python"
    then List.filter (fun d => String.eqb (topic d) "Python") (meltedAll h data)
    else List.filter (fun d => String.eqb (topic d) "LLM") (meltedAll h data) in
  JsArray.sort (fun a b => tvSub (pointDate a) (pointDate b)) points.

(** [String.prototype.toUpperCase] on a string of ASCII code units; the
    code units from 128 on are not modelled, and a string that has one
    gives [None]. *)
Definition upperAscii (c : ascii) : option ascii :=
  if code c <? 128
  then Some (if between 97 122 c then ofCode (code c - 32) else c)
  else None.

Fixpoint toUpperCaseAscii (s : string) : option string :=
  match s with
  | EmptyString => Some EmptyString
  | String c s' =>
      match upperAscii c, toUpperCaseAscii s' with
      | Some u, Some r => Some (String u r)
      | _, _ => None
      end
  end.

(** The domain of the band scale of the timeline: the topics of its
    axis. *)
Definition timelineTopics (topicFocus : string) : option (list string) :=
  if String.eqb topicFocus "both" then Some ["Python"; "LLM"]
  else option_map (fun u => [u]) (toUpperCaseAscii topicFocus).

End DashboardViews.

(* ===================================================================== *)
(** ** app/api/notion/debug/route.ts *)
(* ===================================================================== *)

Module DebugRoute.
Import JsString.

(** What the handler reads of a thrown value [e]: [String(e)], and
    [e?.message] when there is one. *)
Record Thrown : Type := { errString : string; errMessage : option string }.

(** The answer of a single call: the payload, which the handler passes on
    as it is, or a thrown value. *)
Inductive answer (A : Type) : Type :=
  | Answers (a : A)
  | Fails (e : Thrown).
Arguments Answers {A} a.
Arguments Fails {A} e.

(** A database object of the search results: its [id], and its [title]
    runs when it has them. *)
Record DatabaseObject : Type := {
  id : string;
  title : option (list Notion.RichTextItem)
}.

(** The answers of [notion.search] to the successive queries. *)
Inductive SearchSource : Type :=
  | SearchFails (e : Thrown)
  | LastResults (results : list DatabaseObject)
  | MoreResults (results : list DatabaseObject) (rest : SearchSource).

Section Payloads.
(** the payloads of [users.me] and [databases.retrieve] *)
Variables User Database : Type.

Record World : Type := {
  env_NOTION_API_KEY : option string;
  env_NOTION_DATABASE_ID : option string;
  (** behind a token: *)
  users_me : string -> answer User;
  search : string -> SearchSource;
  databases_retrieve : string -> string -> answer Database
}.

(** [user]: the payload, or [{ error: String(e) }]. *)
Inductive UserField : Type :=
  | UserIs (u : User)
  | UserError (error : string).

(** [probeResult]: [null], the payload, or [{ error }]. *)
Inductive ProbeField : Type :=
  | NoProbe
  | ProbeIs (d : Database)
  | ProbeError (error : string).

Inductive Body : Type :=
  | EnvMissing
  | Report (user : UserField) (databasesFound : list (string * string))
           (probeDatabaseId : option string) (probeResult : ProbeField)
  | Crashed (error : string).

Record Response : Type := { body : Body; httpStatus : Z }.

(** The [for] loop over at most [i] pages of search results. *)
Fixpoint searchLoop (i : nat) (src : SearchSource)
    (searchResults : list DatabaseObject) : answer (list DatabaseObject) :=
  match i with
  | O => Answers searchResults
  | S i' =>
      match src with
      | SearchFails e => Fails e
      | LastResults results => Answers (searchResults ++ results)
      | MoreResults results rest => searchLoop i' rest (searchResults ++ results)
      end
  end.

(** [(r.title?.[0]?.plain_text) ?? "(untitled)"] *)
Definition titleOf (r : DatabaseObject) : string :=
  match title r with
  | Some (t :: _) => default "(untitled)" (Notion.plain_text t)
  | _ => "(untitled)"
  end.

Definition GET (w : World) : Response :=
  match env_NOTION_API_KEY w with
  | None => {| body := EnvMissing; httpStatus := 400 |}
  | Some token =>
      if negb (truthy token) then {| body := EnvMissing; httpStatus := 400 |}
      else
        let user :=
          match users_me w token with
          | Answers u => UserIs u
          | Fails e => UserError (errString e)
          end in
        match searchLoop 5 (search w token) [] with
        | Fails e => {| body := Crashed (errString e); httpStatus := 500 |}
        | Answers searchResults =>
            let dbId := env_NOTION_DATABASE_ID w in
            let dbProbe :=
              match dbId with
              | None => NoProbe
              | Some db =>
                  if truthy db then
                    match databases_retrieve w token db with
                    | Answers d => ProbeIs d
                    | Fails e => ProbeError (default (errString e) (errMessage e))
                    end
                  else NoProbe
              end in
            {| body := Report user
                              (map (fun r => (id r, titleOf r)) searchResults)
                              dbId dbProbe;
               httpStatus := 200 |}
        end
  end.
End Payloads.

Arguments env_NOTION_API_KEY {User Database} w.
Arguments env_NOTION_DATABASE_ID {User Database} w.
Arguments users_me {User Database} w token.
Arguments search {User Database} w token.
Arguments databases_retrieve {User Database} w token db.
Arguments UserIs {User} u.
Arguments UserError {User} error.
Arguments NoProbe {Database}.
Arguments ProbeIs {Database} d.
Arguments ProbeError {Database} error.
Arguments EnvMissing {User Database}.
Arguments Report {User Database} user databasesFound probeDatabaseId probeResult.
Arguments Crashed {User Database} error.
Arguments body {User Database} r.
Arguments httpStatus {User Database} r.
Arguments GET {User Database} w.

End DebugRoute.

(* ===================================================================== *)
(** ** Sample hosts, worlds and data *)
(* ===================================================================== *)

Module Samples.
Import Notion Dashboard.

(** A host on 2025-11-02, 13:00 UTC, whose engine rejects every string
    outside the Date Time String Format, in the UTC time zone. *)
Definition strictHost : Host :=
  {| now := 1762088400000;
     legacyDateParse := fun _ => NaN;
     timeWeek_floor :=
       fun t => (JsDate.Day t - JsDate.WeekDay t) * JsDate.msPerDay;
     timeWeek_offset := fun t k => t + k * 7 * JsDate.msPerDay;
     localYearStart :=
       fun t => JsDate.Date_UTC (getUTCFullYear t) 0 1 |}.

(** A world whose source knows the configured database only, and fails on
    every other database id. *)
Definition oneDatabaseWorld : World :=
  {| env_NOTION_API_KEY := Some "secret";
     env_NOTION_DATABASE_ID := Some "progress-db";
     notion := fun _ id =>
                 if String.eqb id "progress-db" then LastPage []
                 else QueryFails "Could not find database";
     server := strictHost |}.

(** A page with a status-typed "Python Status", a select-typed "LLM
    Status" and, when [day] is given, a date-typed "Day". *)
Definition samplePage (day : option string) (py llm : string) : Page :=
  {| properties :=
       Some (list_to_map
               ([ ("Python Status", PStatus (Some {| name := py |}));
                  ("LLM Status", PSelect (Some {| name := llm |})) ]
                ++ match day with
                   | Some d => [ ("Day", PDate (Some {| start := d |})) ]
                   | None => []
                   end)) |}.

(** Ten rows: two completed in both topics, three in progress, one without
    a date, the rest not started. *)
Definition tenPages : list Page :=
  [ samplePage (Some "2025-10-20") "Completed" "Completed";
    samplePage (Some "2025-10-21") "Completed" "Completed";
    samplePage (Some "2025-10-22") "In progress" "In progress";
    samplePage (Some "2025-10-23") "In progress" "Not started";
    samplePage (Some "2025-10-24") "Not started" "In progress";
    samplePage None "Not started" "Not started";
    samplePage (Some "2025-10-25") "Not started" "Not started";
    samplePage (Some "2025-10-26") "Not started" "Not started";
    samplePage (Some "2025-10-27") "Not started" "Not started";
    samplePage (Some "2025-10-28") "Not started" "Not started" ].

Definition tenPagesWorld : World :=
  {| env_NOTION_API_KEY := Some "secret";
     env_NOTION_DATABASE_ID := Some "progress-db";
     notion := fun _ _ => MorePages (take 4 tenPages) (LastPage (drop 4 tenPages));
     server := strictHost |}.

(** [json.data ?? []] of the response of the route. *)
Definition itemsOfResponse (r : Route.Response) : list Item :=
  match Route.body r with
  | Route.Success data => map itemOfRecord data
  | Route.Failure _ _ => []
  end.

Definition tenItems : list Item :=
  itemsOfResponse (Route.GET tenPagesWorld None).

(** A dashboard row with a date and the two topic percentages. *)
Definition row (d : option string) (py llm : Z) : Item :=
  {| date := d; status := None; hours := Num 0;
     pythonTopic := None; llmTopic := None;
     pythonPct := Num py; llmPct := Num llm;
     overallPct := Num (if (py =? 100) && (llm =? 100) then 100 else 0) |}.

(** Done rows on 2024-03-05 (twice), 2024-03-04 and 2024-03-02, a row that
    is not done on 2024-03-03, and a done row without a date. *)
Definition marchRows : list Item :=
  [ row (Some "2024-03-05") 100 0;
    row (Some "2024-03-02") 100 100;
    row (Some "2024-03-05") 100 100;
    row None 100 100;
    row (Some "2024-03-04") 0 100;
    row (Some "2024-03-03") 0 0 ].

(** Done rows at two times of 2024-03-05, late on 2024-03-04 and at the
    beginning of 2024-03-02, a row that is not done on 2024-03-03, and a
    done row without a date. *)
Definition marchTimes : list Item :=
  [ row (Some "2024-03-05T08:15:00Z") 100 0;
    row (Some "2024-03-02T00:00:00Z") 100 100;
    row (Some "2024-03-05T21:30:00Z") 100 100;
    row None 100 100;
    row (Some "2024-03-04T23:59:59Z") 0 100;
    row (Some "2024-03-03T12:00:00Z") 0 0 ].

End Samples.

(* ===================================================================== *)
(** ** Vocabulary of the statements *)
(* ===================================================================== *)

(** [a <= b] on finite time values. *)
Definition tvLe (a b : timeValue) : Prop :=
  match a, b with
  | TV x, TV y => x <= y
  | _, _ => False
  end.

Definition finite (v : timeValue) : Prop := isNaN v = false.

(** The UTC midnight [D] is a done day of the rows: a row that is done and
    has a date falls on that day. *)
Definition doneOnDay (h : Host) (rows : list Dashboard.Item) (D : Z) : Prop :=
  exists r, r ∈ rows /\ Dashboard.isDoneDay r = true
            /\ Dashboard.hasDate r = true
            /\ Dashboard.utcDayKey (Dashboard.dateOf h r) = TV D.

(** The same in terms of the times of the rows alone: [D] is the beginning
    of a UTC day, a multiple of the length of a day, and a done row has a
    date that is a time of that day. *)
Definition doneOnUtcDay (h : Host) (rows : list Dashboard.Item) (D : Z) : Prop :=
  exists r t, r ∈ rows /\ Dashboard.isDoneDay r = true
              /\ Dashboard.hasDate r = true
              /\ Dashboard.dateOf h r = TV t
              /\ D mod JsDate.msPerDay = 0
              /\ D <= t < D + JsDate.msPerDay.

(** Every done row that has a date has one that parses to a valid date. *)
Definition doneDatesValid (h : Host) (rows : list Dashboard.Item) : bool :=
  forallb (fun r => negb (Dashboard.hasDate r && Dashboard.isDoneDay r)
                    || negb (isNaN (Dashboard.dateOf h r)))
          rows.

(** UTC midnight of the day of a time value. *)
Definition utcMidnight (t : Z) : Z := JsDate.Day t * JsDate.msPerDay.

(** The text [YYYY-MM-DD] of a date. *)
Definition isoDayText (y m d : Z) : string :=
  JsString.pad4 y +:+ "-" +:+ JsString.pad2 m +:+ "-" +:+ JsString.pad2 d.

(** No reading of the text as a date succeeds: it is not of the form
    [YYYY-MM-DD], [Date.parse] gives [NaN], and it is not of the year-less
    month-and-day form. *)
Definition unparseable (h : Host) (s : string) : Prop :=
  Dashboard.isoDayPattern s = false
  /\ Date_parse h s = NaN
  /\ Dashboard.monthDayPattern s = None.

(** January and February belong to the March-based year before theirs. *)
Definition marchShift (m : Z) : Z := if m <=? 2 then 1 else 0.

(** *** More vocabulary *)

(** The rows of all the pages the source returns, in order. *)
Fixpoint sourceRows (src : Notion.Source) : list Notion.Page :=
  match src with
  | Notion.QueryFails _ => []
  | Notion.LastPage results => results
  | Notion.MorePages results rest => results ++ sourceRows rest
  end.

(** The message of the query that fails, if one does. *)
Fixpoint sourceFailure (src : Notion.Source) : option string :=
  match src with
  | Notion.QueryFails msg => Some msg
  | Notion.LastPage _ => None
  | Notion.MorePages _ rest => sourceFailure rest
  end.

(** The sum of a list of counts. *)
Definition sumNat (l : list nat) : nat := fold_right Nat.add O l.

(** The values of a group, from a list of groups. *)
Fixpoint groupOf {A K : Type} `{EqDecision K} (k : K) (groups : list (K * list A))
  : list A :=
  match groups with
  | [] => []
  | (k', xs) :: rest => if decide (k' = k) then xs else groupOf k rest
  end.

(** The values with a given key. *)
Definition withKey {A K : Type} `{EqDecision K} (key : A -> K) (k : K)
    (values : list A) : list A :=
  List.filter (fun x => bool_decide (key x = k)) values.

(** Every row that has a date has one that parses to a valid date. *)
Definition datesValid (h : Host) (rows : list Dashboard.Item) : bool :=
  forallb (fun r => negb (Dashboard.hasDate r) || negb (isNaN (Dashboard.dateOf h r)))
          rows.

(** A Monday at 00:00 UTC. *)
Definition mondayMidnight (w : Z) : Prop :=
  JsDate.TimeWithinDay w = 0 /\ JsDate.WeekDay w = 1.

(** Strictly ascending finite time values. *)
Definition tvLtP (a b : timeValue) : Prop :=
  match a, b with
  | TV x, TV y => x < y
  | _, _ => False
  end.

(** The text [toISOString] prints for a time in the years 0 to 9999. *)
Definition fourDigitYearText (s : string) : Prop :=
  exists t, s = JsDate.toISOString t /\ 0 <= JsDate.YearFromTime t <= 9999.

(** Every date of the records is such a text. *)
Definition fourDigitYears (records : list Notion.ProgressRecord) : Prop :=
  forall r s, r ∈ records -> Notion.date r = Some s -> fourDigitYearText s.

(** UTC midnight of the day of the clock, as [parseUTC] computes it. *)
Definition todayUTC (h : Host) : Z :=
  JsDate.Date_UTC (getUTCFullYear (now h)) (getUTCMonth (now h)) (getUTCDate (now h)).

(** The sum of a list of integers. *)
Definition sumZ (l : list Z) : Z := fold_right Z.add 0 l.

(** The results of the first [n] pages of a search, and the thrown value of
    the query that fails among the first [n], if one does. *)
Fixpoint firstResults (n : nat) (src : DebugRoute.SearchSource)
  : list DebugRoute.DatabaseObject :=
  match n, src with
  | S n', DebugRoute.LastResults results => results
  | S n', DebugRoute.MoreResults results rest => results ++ firstResults n' rest
  | _, _ => []
  end.

Fixpoint firstFailure (n : nat) (src : DebugRoute.SearchSource)
  : option DebugRoute.Thrown :=
  match n, src with
  | S n', DebugRoute.SearchFails e => Some e
  | S n', DebugRoute.MoreResults _ rest => firstFailure n' rest
  | _, _ => None
  end.

(** The numbers among percentage values, in their order. *)
Definition numbersOf (arr : list Dashboard.optNumber) : list Z :=
  flat_map (fun x => match x with Dashboard.Num n => [n] | _ => [] end) arr.

(** The mean of integers, and 0 for none. *)
Definition meanOrZero (l : list Z) : Q :=
  match l with
  | [] => 0%Q
  | _ => (inject_Z (sumZ l) / inject_Z (Z.of_nat (length l)))%Q
  end.

(* ===================================================================== *)
(** * Properties *)
(* ===================================================================== *)

(** ** The record mapper *)

Section Mapper.
Import JsString Notion.

Lemma progressFromStatus_cases (s : option string) :
  progressFromStatus s = 100 \/ progressFromStatus s = 0.
Proof.
  unfold progressFromStatus.
  destruct (String.eqb _ "completed"); [left | right]; reflexivity.
Qed.

(** C1. For every raw record, the row produced by [mapPage] has
    [overallPct = 100] if and only if [pythonPct = 100] and
    [llmPct = 100], and [overallPct = 0] in every other case. *)
Theorem C1_overallPct_iff_both_topics (h : Host) (page : Page) :
  let r := mapPage h page in
  (overallPct r = 100 <-> pythonPct r = 100 /\ llmPct r = 100)
  /\ ((overallPct r = 100 /\ pythonPct r = 100 /\ llmPct r = 100)
      \/ (overallPct r = 0 /\ ~ (pythonPct r = 100 /\ llmPct r = 100))).
Proof.
  cbn zeta. unfold mapPage. cbn [overallPct pythonPct llmPct].
  set (py := progressFromStatus _).
  set (llm := progressFromStatus _).
  destruct (Z.eqb_spec py 100) as [Hp | Hp];
    destruct (Z.eqb_spec llm 100) as [Hl | Hl]; cbn [andb].
  - split; [tauto | left; tauto].
  - split; [split; [discriminate | tauto] | right; tauto].
  - split; [split; [discriminate | tauto] | right; tauto].
  - split; [split; [discriminate | tauto] | right; tauto].
Qed.

(** C2. [deriveOverallStatus] gives a status for every pair of raw status
    strings, absent ones included, by the fixed order: both lowercased
    statuses "completed" give Done; otherwise either "in progress" gives
    InProgress; otherwise either "skipped" with neither "completed" gives
    Skipped; otherwise NotStarted.  ("completed", "in progress") gives
    InProgress and ("completed", "completed") gives Done. *)
Theorem C2_deriveOverallStatus_tie_break (py llm : option string) :
  let sPy := toLowerCase (default "" py) in
  let sLlm := toLowerCase (default "" llm) in
  let bothDone := sPy = "completed" /\ sLlm = "completed" in
  let anyInProg := sPy = "in progress" \/ sLlm = "in progress" in
  let anySkipped :=
    (sPy = "skipped" \/ sLlm = "skipped")
    /\ sPy <> "completed" /\ sLlm <> "completed" in
  ((bothDone /\ deriveOverallStatus py llm = Done)
   \/ (~ bothDone /\ anyInProg /\ deriveOverallStatus py llm = InProgress)
   \/ (~ bothDone /\ ~ anyInProg /\ anySkipped
       /\ deriveOverallStatus py llm = Skipped)
   \/ (~ bothDone /\ ~ anyInProg /\ ~ anySkipped
       /\ deriveOverallStatus py llm = NotStarted))
  /\ deriveOverallStatus (Some "completed") (Some "in progress") = InProgress
  /\ deriveOverallStatus (Some "completed") (Some "completed") = Done.
Proof.
  cbn zeta. split; [| split; reflexivity].
  unfold deriveOverallStatus.
  set (sPy := toLowerCase (default "" py)).
  set (sLlm := toLowerCase (default "" llm)).
  destruct (String.eqb_spec sPy "completed") as [Hpd | Hpd];
    destruct (String.eqb_spec sLlm "completed") as [Hld | Hld];
    destruct (String.eqb_spec sPy "in progress") as [Hpi | Hpi];
    destruct (String.eqb_spec sLlm "in progress") as [Hli | Hli];
    destruct (String.eqb_spec sPy "skipped") as [Hps | Hps];
    destruct (String.eqb_spec sLlm "skipped") as [Hls | Hls];
    cbn [andb orb negb];
    try (left; split; [split; assumption | reflexivity]);
    try (right; left; split; [tauto | split; [tauto | reflexivity]]);
    try (right; right; left;
         split; [tauto | split; [tauto | split; [tauto | reflexivity]]]);
    try (right; right; right;
         split; [tauto | split; [tauto | split; [tauto | reflexivity]]]).
Qed.

End Mapper.

(** ** The route *)

Section RouteProperties.
Import Notion Route Samples.

(** Every value of the [db] parameter passes the query schema. *)
Lemma QuerySchema_accepts (db : option string) :
  QuerySchema_safeParse (dbParam db) = Some db.
Proof. destruct db; reflexivity. Qed.

(** C10, as stated, fails: the override that is present and empty is not
    answered with the BAD_QUERY failure.  It passes the validation and
    replaces the configured database id; here the source does not know
    the empty id, and the answer is the SERVER_ERROR failure, while the
    same request without the parameter succeeds. *)
Lemma C10_empty_override_is_accepted :
  GET oneDatabaseWorld (Some "")
  = {| body := Failure "SERVER_ERROR" "Failed to fetch Notion data";
       httpStatus := 500 |}
  /\ body (GET oneDatabaseWorld (Some ""))
     <> Failure "BAD_QUERY" "Invalid query params"
  /\ GET oneDatabaseWorld None = {| body := Success []; httpStatus := 200 |}.
Proof. split; [reflexivity | split; [discriminate | reflexivity]]. Qed.

(** C10, amended. The override [db] is accepted whenever it is present,
    whatever its text, the empty one included, and is handed to the
    ingestion as it is; no request is answered with the BAD_QUERY failure.
    A failure of the ingestion gives
    [{success: false, error: {code: "SERVER_ERROR", message}}] and a
    success gives [{success: true, data}]. *)
Theorem C10_responses (w : World) (db : option string) :
  (forall message, body (GET w db) <> Failure "BAD_QUERY" message)
  /\ match getProgressData w db with
     | Returns data => GET w db = {| body := Success data; httpStatus := 200 |}
     | Throws _ =>
         GET w db = {| body := Failure "SERVER_ERROR" "Failed to fetch Notion data";
                       httpStatus := 500 |}
     end.
Proof.
  unfold GET. rewrite QuerySchema_accepts.
  destruct (getProgressData w db); cbn; split; try reflexivity;
    intros ?; discriminate.
Qed.

End RouteProperties.

(** ** Topic averages *)

Section TopicAverages.
Import Dashboard.

(** An [undefined] value is left out of the mean. *)
Lemma avgPct_undefined_excluded (arr : list optNumber) :
  avgPct (Undefined :: arr) = avgPct arr.
Proof. reflexivity. Qed.

(** A [null] value enters the mean as the number 0. *)
Lemma avgPct_null_is_zero (arr : list optNumber) :
  avgPct (Null :: arr) = avgPct (Num 0 :: arr).
Proof. reflexivity. Qed.

Lemma avgPct_no_values : avgPct [] = 0%Q /\ avgPct [Undefined; Undefined] = 0%Q.
Proof. split; reflexivity. Qed.


Lemma sumQ_integers (l : list Z) :
  (D3.sumQ (map inject_Z l) == inject_Z (sumZ l))%Q.
Proof.
  induction l as [| x l IH]; [reflexivity |].
  cbn [map D3.sumQ fold_right sumZ]. fold (D3.sumQ (map inject_Z l)). fold (sumZ l).
  rewrite IH, inject_Z_plus. reflexivity.
Qed.

Lemma finiteValues_no_null (arr : list optNumber) :
  Forall (fun x => x <> Null) arr -> finiteValues arr = numbersOf arr.
Proof.
  induction 1 as [| x arr Hx _ IH]; [reflexivity |].
  unfold finiteValues, numbersOf in *. cbn [omap list_omap flat_map].
  destruct x as [n | |]; cbn [Number_ app]; [f_equal; exact IH | contradiction | exact IH].
Qed.

(** The rows the route sends have a number in every percentage field. *)
Lemma ingested_fields_numbers (h : Host) (dateRange : string)
    (records : list Notion.ProgressRecord) (field : Item -> optNumber) :
  field = pythonPct \/ field = llmPct \/ field = overallPct ->
  let data := filtered h dateRange (map itemOfRecord records) in
  Forall (fun x => x <> Null) (map field data)
  /\ length (numbersOf (map field data)) = length data.
Proof.
  intros Hfield data.
  assert (Hnum : forall d, In d data -> exists n, field d = Num n).
  { intros d Hd. subst data. unfold filtered in Hd.
    assert (Hin : In d (map itemOfRecord records)).
    { destruct (map itemOfRecord records) as [| x l] eqn:E; [exact Hd |].
      destruct (rangeStart h dateRange); [| exact Hd].
      apply List.filter_In in Hd as [Hd _]. exact Hd. }
    apply in_map_iff in Hin as (rec & <- & _).
    destruct Hfield as [-> | [-> | ->]]; eexists; reflexivity. }
  clearbody data. induction data as [| d data IH]; [split; [constructor | reflexivity] |].
  destruct IH as [IH1 IH2]; [intros x Hx; apply Hnum; right; exact Hx |].
  destruct (Hnum d (or_introl eq_refl)) as [n Hn].
  split.
  - cbn [map]. constructor; [rewrite Hn; discriminate | exact IH1].
  - cbn [map]. unfold numbersOf in *. cbn [flat_map]. rewrite Hn.
    cbn [app length]. f_equal. exact IH2.
Qed.



End TopicAverages.

(** ** Cumulative burn-up *)

Section Burnup.
Import Dashboard.

Lemma seriesFrom_lower_bound (daily : list DayPoint) :
  forall (t d : nat) (i : nat) (p : BurnPoint),
    seriesFrom t d daily !! i = Some p ->
    (t <= cumTotal p)%nat /\ (d <= cumDone p)%nat.
Proof.
  induction daily as [| x rest IH]; intros t d i p Hp; [discriminate |].
  destruct i as [| i]; cbn in Hp.
  - injection Hp as <-. cbn. lia.
  - apply IH in Hp. lia.
Qed.

Lemma seriesFrom_monotone (daily : list DayPoint) :
  forall (t d : nat) (i : nat) (p q : BurnPoint),
    seriesFrom t d daily !! i = Some p ->
    seriesFrom t d daily !! S i = Some q ->
    (cumTotal p <= cumTotal q)%nat /\ (cumDone p <= cumDone q)%nat.
Proof.
  induction daily as [| x rest IH]; intros t d i p q Hp Hq; [discriminate |].
  destruct i as [| i]; cbn in Hp, Hq.
  - injection Hp as <-. cbn. apply seriesFrom_lower_bound in Hq. exact Hq.
  - exact (IH _ _ _ _ _ Hp Hq).
Qed.

(** C7. In the cumulative burn-up series of any sequence of rows, the
    running total and the running done count never decrease from one
    point to the next: at every index [i > 0] they are at least what they
    are at [i - 1]. *)
Theorem C7_burnup_monotone (h : Host) (data : list Item) (i : nat)
    (prev cur : BurnPoint) :
  (0 < i)%nat ->
  series h data !! (i - 1)%nat = Some prev ->
  series h data !! i = Some cur ->
  (cumTotal cur >= cumTotal prev)%nat /\ (cumDone cur >= cumDone prev)%nat.
Proof.
  intros Hi Hprev Hcur.
  destruct i as [| j]; [lia |].
  replace (S j - 1)%nat with j in Hprev by lia.
  destruct (seriesFrom_monotone _ _ _ _ _ _ Hprev Hcur). lia.
Qed.

Lemma C7_burnup_monotone_witness :
  (5 >= 3)%nat /\ (4 >= 2)%nat.
Proof.
  exact (C7_burnup_monotone Samples.strictHost Samples.marchRows 3
           {| burnDay := TV 1709510400000; cumTotal := 3; cumDone := 2 |}
           {| burnDay := TV 1709596800000; cumTotal := 5; cumDone := 4 |}
           ltac:(lia) ltac:(vm_compute; reflexivity) ltac:(vm_compute; reflexivity)).
Defined.

End Burnup.

(** ** Weekly velocity: the moving average *)

Section MovingAverage.
Import Dashboard.

(** An equation between the mean of a few counts and its closed form. *)
Ltac mean_eq :=
  rewrite ?firstn_cons, ?firstn_O; cbn;
  try change (Z.of_nat 1) with 1;
  try change (Z.of_nat 2) with 2;
  try change (Z.of_nat 3) with 3;
  unfold D3.sumQ, countQ, Qeq, Qdiv, Qplus, Qmult, Qinv, inject_Z;
  cbn; lia.

Lemma slice_one {A} (l : list A) (i : nat) (c : A) :
  l !! i = Some c ->
  JsArray.slice (Z.max 0 (Z.of_nat i - 2)) (Z.of_nat i + 1) l
  = match i with
    | O => [c]
    | S O => take 2 l
    | S (S j) => take 3 (drop j l)
    end.
Proof.
  intros Hc. unfold JsArray.slice.
  destruct i as [| [| j]].
  - destruct l; [discriminate |]. cbn in Hc. injection Hc as ->.
    reflexivity.
  - reflexivity.
  - replace (Z.max 0 (Z.of_nat (S (S j)) - 2)) with (Z.of_nat j) by lia.
    rewrite Nat2Z.id.
    replace (Z.to_nat (Z.of_nat (S (S j)) + 1 - Z.of_nat j)) with 3%nat by lia.
    reflexivity.
Qed.



End MovingAverage.

(** ** Doubles *)

Section Doubles.
Import JsNumber.
Local Open Scope Q_scope.

Lemma pow2_pos (e : Z) : 0 < pow2 e.
Proof. apply Qpower_0_lt. reflexivity. Qed.

Lemma pow2_plus (a b : Z) : pow2 (a + b) == pow2 a * pow2 b.
Proof. apply Qpower_plus. discriminate. Qed.

Lemma pow2_inject (n : Z) : (0 <= n)%Z -> pow2 n == inject_Z (2 ^ n).
Proof. intros Hn. symmetry. apply (Zpower_Qpower 2 n Hn). Qed.

(** The exponent of a positive number is not above the number. *)
Lemma exponentOf_le (q : Q) : 0 < q -> pow2 (exponentOf q) <= q.
Proof.
  intros Hq. unfold exponentOf. destruct q as [n d]. cbn [Qnum Qden].
  set (ln := Z.log2 n). set (ld := Z.log2 (Zpos d)).
  destruct (Qle_bool (pow2 (ln - ld)) (n # d)) eqn:E; [apply Qle_bool_iff; exact E |].
  assert (Hn : (0 < n)%Z).
  { unfold Qlt in Hq. cbn in Hq. lia. }
  assert (Hln : (2 ^ ln <= n)%Z) by (apply Z.log2_spec; exact Hn).
  assert (Hld : (Zpos d < 2 ^ (ld + 1))%Z).
  { pose proof (Z.log2_spec (Zpos d) ltac:(lia)) as H.
    replace (ld + 1)%Z with (Z.succ ld) by lia. apply H. }
  assert (H0n : (0 <= ln)%Z) by apply Z.log2_nonneg.
  assert (H0d : (0 <= ld)%Z) by apply Z.log2_nonneg.
  replace (ln - ld - 1)%Z with (ln + - (ld + 1))%Z by lia.
  rewrite pow2_plus. unfold pow2 at 2. rewrite Qpower_opp.
  fold (pow2 (ld + 1)). rewrite !pow2_inject by lia.
  apply Qle_shift_div_r.
  { change 0 with (inject_Z 0). rewrite <- Zlt_Qlt. lia. }
  unfold Qle, Qmult, inject_Z. cbn [Qnum Qden].
  assert (0 < 2 ^ (ld + 1))%Z by lia.
  nia.
Qed.

Lemma exponentOf_lt (q : Q) (b : Z) : 0 < q -> q < pow2 b -> (exponentOf q < b)%Z.
Proof.
  intros Hq Hb. apply (Qpower_lt_compat_l_inv 2); [| reflexivity].
  apply Qle_lt_trans with q; [apply exponentOf_le; exact Hq | exact Hb].
Qed.

Lemma roundTiesToEven_le (z : Q) (N : Z) :
  z <= inject_Z N -> (roundTiesToEven z <= N)%Z.
Proof.
  intros Hz. unfold roundTiesToEven.
  pose proof (Qfloor_resp_le _ _ Hz) as Hf. rewrite Qfloor_Z in Hf.
  destruct (Z.eq_dec (Qfloor z) N) as [E | Hne].
  - assert (Hlt : z - inject_Z (Qfloor z) < 1 # 2).
    { rewrite E. apply Qle_lt_trans with 0; [| reflexivity].
      apply (Qplus_le_l _ _ (inject_Z N)). ring_simplify. exact Hz. }
    rewrite (proj1 (Qlt_alt _ _) Hlt). lia.
  - destruct (_ ?= _); [destruct (Z.even _) | |]; lia.
Qed.

Lemma roundTiesToEven_nonneg (z : Q) : 0 <= z -> (0 <= roundTiesToEven z)%Z.
Proof.
  intros Hz. unfold roundTiesToEven.
  pose proof (Qfloor_resp_le _ _ Hz) as Hf. change (Qfloor 0) with 0%Z in Hf.
  destruct (_ ?= _); [destruct (Z.even _) | |]; lia.
Qed.

Lemma toDoublePos_nonneg (q : Q) : 0 < q -> 0 <= toDoublePos q.
Proof.
  intros Hq. unfold toDoublePos.
  apply Qmult_le_0_compat; [| apply Qlt_le_weak, pow2_pos].
  change 0 with (inject_Z 0). rewrite <- Zle_Qle.
  apply roundTiesToEven_nonneg.
  apply Qle_shift_div_l; [apply pow2_pos |]. rewrite Qmult_0_l.
  apply Qlt_le_weak, Hq.
Qed.

(** Rounding does not pass a bound that the significand can hold. *)
Lemma toDoublePos_le (q : Q) (M j : Z) :
  0 < q -> q <= inject_Z M * pow2 j -> (exponentOf q - 52 <= j)%Z ->
  toDoublePos q <= inject_Z M * pow2 j.
Proof.
  intros Hq Hle Hj. unfold toDoublePos.
  set (u := (exponentOf q - 52)%Z) in *.
  assert (Hb : inject_Z M * pow2 j == inject_Z (M * 2 ^ (j - u)) * pow2 u).
  { rewrite inject_Z_mult, <- pow2_inject by lia.
    rewrite <- Qmult_assoc, <- pow2_plus.
    replace (j - u + u)%Z with j by lia. reflexivity. }
  rewrite Hb in Hle |- *.
  apply Qmult_le_compat_r; [| apply Qlt_le_weak, pow2_pos].
  rewrite <- Zle_Qle. apply roundTiesToEven_le.
  apply Qle_shift_div_r; [apply pow2_pos | exact Hle].
Qed.

Lemma toDouble_zero (q : Q) : q == 0 -> toDouble q = 0.
Proof.
  intros Hq. unfold toDouble. rewrite (proj1 (Qeq_alt _ _) Hq). reflexivity.
Qed.

Lemma toDouble_pos (q : Q) : 0 < q -> toDouble q = toDoublePos q.
Proof.
  intros Hq. unfold toDouble. rewrite (proj1 (Qgt_alt _ _) Hq). reflexivity.
Qed.

(** Rounding keeps a number between 0 and a bound [M * 2^j] with
    [2^(j+53)] above the bound. *)
Lemma toDouble_between (q : Q) (M j : Z) :
  0 <= q -> q <= inject_Z M * pow2 j -> inject_Z M * pow2 j < pow2 (j + 53) ->
  0 <= toDouble q /\ toDouble q <= inject_Z M * pow2 j.
Proof.
  intros H0 Hle Hbig.
  destruct (Qlt_le_dec 0 q) as [Hpos | Hnpos].
  - rewrite (toDouble_pos q Hpos). split; [apply toDoublePos_nonneg, Hpos |].
    apply toDoublePos_le; [exact Hpos | exact Hle |].
    assert (exponentOf q < j + 53)%Z; [| lia].
    apply exponentOf_lt; [exact Hpos |].
    apply Qle_lt_trans with (inject_Z M * pow2 j); assumption.
  - rewrite (toDouble_zero q) by (apply Qle_antisym; assumption).
    split; [apply Qle_refl |]. apply Qle_trans with q; assumption.
Qed.

(** The quotient and the product are rounded before [Math.round]: 23 of
    40 is 57.49999999999999, which rounds to 57, where the exact 57.5
    would round to 58. *)
Lemma completionOf_in_doubles :
  Dashboard.completionOf 40 23 = 57%Z
  /\ Math_round (inject_Z 23 / inject_Z 40 * 100) = 58%Z
  /\ Dashboard.completionOf 10 2 = 20%Z.
Proof. repeat split; vm_compute; reflexivity. Qed.

(** The completion is a percentage. *)
Lemma completionOf_bounds (total done : nat) :
  (done <= total)%nat -> (0 <= Dashboard.completionOf total done <= 100)%Z.
Proof.
  intros Hle. unfold Dashboard.completionOf.
  destruct (Nat.eqb_spec total 0) as [-> | Hpos]; [lia |].
  unfold Math_round, mul, div, ofNat.
  set (q := inject_Z (Z.of_nat done) / inject_Z (Z.of_nat total)).
  assert (Ht : 0 < inject_Z (Z.of_nat total)).
  { change 0 with (inject_Z 0). rewrite <- Zlt_Qlt. lia. }
  assert (Hq : 0 <= q /\ q <= inject_Z 1 * pow2 0).
  { subst q. split.
    - apply Qle_shift_div_l; [exact Ht |].
      rewrite Qmult_0_l. change 0 with (inject_Z 0). rewrite <- Zle_Qle. lia.
    - apply Qle_shift_div_r; [exact Ht |].
      change (inject_Z 1 * pow2 0) with (1 * 1). rewrite !Qmult_1_l.
      rewrite <- Zle_Qle. lia. }
  destruct (toDouble_between q 1 0 (proj1 Hq) (proj2 Hq) ltac:(reflexivity))
    as [Hx0 Hx1].
  set (x := toDouble q) in *.
  assert (Hy : 0 <= x * 100 /\ x * 100 <= inject_Z 25 * pow2 2).
  { split.
    - apply Qmult_le_0_compat; [exact Hx0 | discriminate].
    - change (inject_Z 25 * pow2 2) with (inject_Z 1 * pow2 0 * 100).
      apply Qmult_le_compat_r; [exact Hx1 | discriminate]. }
  destruct (toDouble_between (x * 100) 25 2 (proj1 Hy) (proj2 Hy) ltac:(reflexivity))
    as [Hy0 Hy100].
  set (y := toDouble (x * 100)) in *.
  split.
  - change 0%Z with (Qfloor (0 + (1 # 2))).
    apply Qfloor_resp_le. apply Qplus_le_compat; [exact Hy0 | apply Qle_refl].
  - change 100%Z with (Qfloor (inject_Z 25 * pow2 2 + (1 # 2))).
    apply Qfloor_resp_le. apply Qplus_le_compat; [exact Hy100 | apply Qle_refl].
Qed.

End Doubles.

(** ** KPIs and buckets: rows without a date *)

Section UndatedRows.
Import JsString Dashboard Samples.

Lemma filter_length_le' {A} (f : A -> bool) (l : list A) :
  (length (List.filter f l) <= length l)%nat.
Proof.
  induction l as [| x l IH]; cbn; [lia |].
  destruct (f x); cbn; lia.
Qed.

(** A row that does not pass [f] may be dropped before filtering by [f]. *)
Lemma filter_drop_one {A} (f : A -> bool) (before after : list A) (r : A) :
  f r = false ->
  List.filter f (before ++ r :: after) = List.filter f (before ++ after).
Proof.
  intros Hr. rewrite !List.filter_app. cbn. rewrite Hr. reflexivity.
Qed.

Lemma filter_hasDate_done (before after : list Item) (r : Item) :
  hasDate r = false ->
  List.filter hasDate (List.filter isDoneDay (before ++ r :: after))
  = List.filter hasDate (List.filter isDoneDay (before ++ after)).
Proof.
  intros Hr. rewrite !List.filter_app. cbn.
  destruct (isDoneDay r); cbn; [rewrite Hr |]; reflexivity.
Qed.

Lemma doneDayKeys_undated (h : Host) (before after : list Item) (r : Item) :
  hasDate r = false ->
  doneDayKeys h (List.filter isDoneDay (before ++ r :: after))
  = doneDayKeys h (List.filter isDoneDay (before ++ after)).
Proof.
  intros Hr. unfold doneDayKeys. rewrite filter_hasDate_done by exact Hr.
  reflexivity.
Qed.

(** Under a date range with a lower bound, the filter keeps no row
    without a date. *)
Lemma filtered_drops_undated (h : Host) (dateRange : string) (start : Z)
    (data : list Item) (r : Item) :
  rangeStart h dateRange = Some start ->
  hasDate r = false ->
  ~ In r (filtered h dateRange data).
Proof.
  intros Hstart Hr Hin. unfold filtered in Hin.
  destruct data as [| x data]; [exact Hin |].
  rewrite Hstart in Hin. apply List.filter_In in Hin as [_ Hkeep].
  rewrite Hr in Hkeep. discriminate.
Qed.

(** The ranges that have a start. *)
Lemma rangeStart_none (h : Host) (dateRange : string) :
  rangeStart h dateRange = None
  <-> dateRange <> "4w" /\ dateRange <> "12w" /\ dateRange <> "ytd".
Proof.
  unfold rangeStart.
  destruct (String.eqb_spec dateRange "all") as [-> | _].
  - split; [intros _; repeat split; discriminate | reflexivity].
  - destruct (String.eqb_spec dateRange "4w"); [split; [discriminate | tauto] |].
    destruct (String.eqb_spec dateRange "12w"); [split; [discriminate | tauto] |].
    destruct (String.eqb_spec dateRange "ytd"); [split; [discriminate | tauto] |].
    tauto.
Qed.

Lemma filtered_unbounded (h : Host) (dateRange : string) (data : list Item) :
  rangeStart h dateRange = None -> filtered h dateRange data = data.
Proof. intros Hs. unfold filtered. rewrite Hs. destruct data; reflexivity. Qed.

Lemma filtered_bounded (h : Host) (dateRange : string) (start : Z)
    (data : list Item) :
  rangeStart h dateRange = Some start ->
  filtered h dateRange data
  = List.filter (fun d => if hasDate d then tvGe (dateOf h d) (TV start) else false)
                data.
Proof. intros Hs. unfold filtered. rewrite Hs. destruct data; reflexivity. Qed.

(** The KPIs with one more row without a date. *)
Lemma kpis_undated (h : Host) (before after : list Item) (r : Item) (k : KPIs) :
  hasDate r = false ->
  kpis h (before ++ after) = Some k ->
  kpis h (before ++ r :: after)
  = Some {| total := S (total k);
            done := if isDoneDay r then S (done k) else done k;
            open := if isDoneDay r then open k else S (open k);
            completion :=
              completionOf (S (total k))
                           (if isDoneDay r then S (done k) else done k);
            streak := streak k |}.
Proof.
  intros Hr Hk.
  unfold kpis in *. rewrite doneDayKeys_undated by exact Hr.
  destruct (streakOf _) as [s |]; [| discriminate].
  injection Hk as <-. cbn [total done open streak].
  pose proof (filter_length_le' isDoneDay (before ++ after)) as Hle.
  assert (Hlen : length (before ++ r :: after) = S (length (before ++ after))).
  { rewrite !length_app. cbn. lia. }
  assert (Hdone : length (List.filter isDoneDay (before ++ r :: after))
                  = if isDoneDay r
                    then S (length (List.filter isDoneDay (before ++ after)))
                    else length (List.filter isDoneDay (before ++ after))).
  { rewrite !List.filter_app. cbn. destruct (isDoneDay r);
      rewrite !length_app; cbn; lia. }
  rewrite Hlen, Hdone. f_equal. f_equal.
  destruct (isDoneDay r); lia.
Qed.

(** The ten sample rows under a range with a lower bound: the filter
    drops the row without a date, and the total is 9. *)
Lemma C8_range_drops_undated_row :
  length tenItems = 10%nat
  /\ length (List.filter (fun d => negb (hasDate d)) tenItems) = 1%nat
  /\ kpis strictHost (filtered strictHost "4w" tenItems)
     = Some {| total := 9; done := 2; open := 7; completion := 22; streak := 2 |}.
Proof. repeat split; vm_compute; reflexivity. Qed.

(** C8, amended. Under the date range "all" (and every range that is not
    "4w", "12w" or "ytd") the aggregates receive all the rows, and a row
    without a date is counted by the KPIs: put anywhere into the rows, it
    adds one to [total], one to [done] if it is done and one to [open] if
    not, and the completion is that of the new counts.  Under "4w", "12w"
    and "ytd" the range filter drops the rows without a date, and the
    KPIs are those of the other rows.  Under every range the row is in
    no week or day bucket: the weekly series, the daily buckets and the
    burn-up series are as without it.  The ten sample rows, with two rows
    completed in both topics and one row without a date, give total 10,
    done 2 and completion 20 under "all", while their burn-up ends at 9
    rows. *)
Theorem C8_undated_rows_counted_not_bucketed (h : Host) (dateRange : string)
    (before after : list Item) (r : Item) (k : KPIs) :
  hasDate r = false ->
  kpis h (filtered h dateRange (before ++ after)) = Some k ->
  (dateRange <> "4w" /\ dateRange <> "12w" /\ dateRange <> "ytd" ->
     filtered h dateRange (before ++ r :: after) = before ++ r :: after
     /\ kpis h (filtered h dateRange (before ++ r :: after))
        = Some {| total := S (total k);
                  done := if isDoneDay r then S (done k) else done k;
                  open := if isDoneDay r then open k else S (open k);
                  completion :=
                    completionOf (S (total k))
                                 (if isDoneDay r then S (done k) else done k);
                  streak := streak k |})
  /\ (dateRange = "4w" \/ dateRange = "12w" \/ dateRange = "ytd" ->
        ~ In r (filtered h dateRange (before ++ r :: after))
        /\ kpis h (filtered h dateRange (before ++ r :: after)) = Some k)
  /\ weekly h (filtered h dateRange (before ++ r :: after))
     = weekly h (filtered h dateRange (before ++ after))
  /\ daily h (filtered h dateRange (before ++ r :: after))
     = daily h (filtered h dateRange (before ++ after))
  /\ series h (filtered h dateRange (before ++ r :: after))
     = series h (filtered h dateRange (before ++ after))
  /\ kpis strictHost (filtered strictHost "all" tenItems)
     = Some {| total := 10; done := 2; open := 8; completion := 20; streak := 2 |}
  /\ last (series strictHost (filtered strictHost "all" tenItems))
     = Some {| burnDay := TV 1761609600000; cumTotal := 9; cumDone := 2 |}.
Proof.
  intros Hr Hk.
  destruct (rangeStart h dateRange) as [start |] eqn:Hstart.
  - (* a range with a lower bound *)
    assert (Hsame : filtered h dateRange (before ++ r :: after)
                    = filtered h dateRange (before ++ after)).
    { rewrite !(filtered_bounded h dateRange start) by exact Hstart.
      apply filter_drop_one. rewrite Hr. reflexivity. }
    split; [| split; [| split; [| split; [| split]]]].
    + intros Hno. apply (proj2 (rangeStart_none h dateRange)) in Hno. congruence.
    + intros _. split; [| rewrite Hsame; exact Hk].
      apply (filtered_drops_undated h dateRange start); assumption.
    + rewrite Hsame. reflexivity.
    + rewrite Hsame. reflexivity.
    + rewrite Hsame. reflexivity.
    + split; vm_compute; reflexivity.
  - (* the rows as they are *)
    rewrite !(filtered_unbounded h dateRange) in * by exact Hstart.
    assert (Hd : daily h (before ++ r :: after) = daily h (before ++ after)).
    { unfold daily. rewrite filter_drop_one by exact Hr. reflexivity. }
    split; [| split; [| split; [| split; [| split]]]].
    + intros _. split; [reflexivity |]. apply kpis_undated; assumption.
    + intros Hb. apply (proj1 (rangeStart_none h dateRange)) in Hstart.
      destruct Hstart as (H4 & H12 & Hy). destruct Hb as [E | [E | E]]; contradiction.
    + unfold weekly. rewrite filter_drop_one; [reflexivity |].
      rewrite Hr. reflexivity.
    + exact Hd.
    + unfold series. rewrite Hd. reflexivity.
    + split; vm_compute; reflexivity.
Qed.

Lemma C8_undated_rows_witness :
  kpis strictHost (filtered strictHost "all" tenItems)
  = Some {| total := 10; done := 2; open := 8; completion := 20; streak := 2 |}
  /\ weekly strictHost (filtered strictHost "all" tenItems)
     = [ {| week := TV 1760918400000; count := 2 |} ].
Proof.
  destruct (C8_undated_rows_counted_not_bucketed strictHost "all"
              (take 5 tenItems) (drop 6 tenItems)
              (itemOfRecord
                 (Notion.mapPage strictHost
                    (samplePage None "Not started" "Not started")))
              {| total := 9; done := 2; open := 7; completion := 22; streak := 2 |}
              eq_refl ltac:(vm_compute; reflexivity))
    as (Hall & _ & Hw & _).
  destruct (Hall ltac:(repeat split; discriminate)) as [_ Hkpis].
  split; [exact Hkpis |].
  transitivity (weekly strictHost
                  (filtered strictHost "all" (take 5 tenItems ++ drop 6 tenItems)));
    [exact Hw | vm_compute; reflexivity].
Defined.

End UndatedRows.

(** ** Sorting and grouping *)

Section SortProperties.
Import JsArray.

Lemma insert_perm {A} (cmp : A -> A -> timeValue) (x : A) (l : list A) :
  insert cmp x l ≡ₚ x :: l.
Proof.
  induction l as [| y l IH]; cbn; [reflexivity |].
  destruct (after cmp x y); [| reflexivity].
  rewrite IH. apply perm_swap.
Qed.

Lemma sort_perm {A} (cmp : A -> A -> timeValue) (l : list A) :
  sort cmp l ≡ₚ l.
Proof.
  induction l as [| y l IH]; [reflexivity |].
  change (sort cmp (y :: l)) with (insert cmp y (sort cmp l)).
  rewrite insert_perm. constructor. exact IH.
Qed.

Lemma tvLe_trans (a b c : timeValue) : tvLe a b -> tvLe b c -> tvLe a c.
Proof. destruct a, b, c; cbn; try tauto. lia. Qed.

Lemma insert_sorted (x : timeValue) (l : list timeValue) :
  finite x -> Forall finite l ->
  StronglySorted tvLe l -> StronglySorted tvLe (insert tvSub x l).
Proof.
  intros Hx Hl Hs. induction l as [| y l IH]; cbn.
  - repeat constructor.
  - apply Forall_cons in Hl as [Hy Hl].
    apply StronglySorted_inv in Hs as [Hs Hyl].
    unfold after.
    destruct x as [x |]; [| discriminate]. destruct y as [y |]; [| discriminate].
    cbn [tvSub]. destruct (Z.ltb_spec 0 (x - y)) as [Hgt | Hle].
    + constructor; [exact (IH Hl Hs) |].
      rewrite insert_perm. constructor; [cbn; lia | exact Hyl].
    + constructor; [constructor; assumption |].
      constructor; [cbn; lia |].
      eapply Forall_impl; [exact Hyl |].
      intros z Hz. apply (tvLe_trans _ (TV y)); [cbn; lia | exact Hz].
Qed.

Lemma sort_sorted (l : list timeValue) :
  Forall finite l -> StronglySorted tvLe (sort tvSub l).
Proof.
  induction l as [| y l IH]; intros Hl; [constructor |].
  change (sort tvSub (y :: l)) with (insert tvSub y (sort tvSub l)).
  apply Forall_cons in Hl as [Hy Hl].
  apply insert_sorted; [exact Hy | | exact (IH Hl)].
  rewrite sort_perm. exact Hl.
Qed.

(** The last element of a sorted list of finite keys is the greatest. *)
Lemma sorted_last_greatest (l : list timeValue) (m : timeValue) :
  Forall finite l -> StronglySorted tvLe l -> last l = Some m ->
  Forall (fun x => tvLe x m) l.
Proof.
  intros Hl Hs. revert m. induction l as [| y l IH]; intros m Hm; [constructor |].
  apply Forall_cons in Hl as [Hy Hl].
  apply StronglySorted_inv in Hs as [Hs Hyl].
  destruct l as [| z l'].
  - cbn in Hm. injection Hm as <-. constructor; [| constructor].
    destruct y; [cbn; lia | discriminate].
  - assert (Hm' : last (z :: l') = Some m) by exact Hm.
    specialize (IH Hl Hs m Hm').
    constructor; [| exact IH].
    apply Forall_cons in Hyl as [Hyz _].
    apply Forall_cons in IH as [Hzm _].
    exact (tvLe_trans _ _ _ Hyz Hzm).
Qed.

End SortProperties.

Section GroupProperties.
Context {A K : Type} `{EqDecision K}.

Lemma upsert_keys (k : K) (x : A) (groups : list (K * list A)) :
  map fst (D3.upsert k x groups)
  = if decide (k ∈ map fst groups) then map fst groups
    else map fst groups ++ [k].
Proof.
  induction groups as [| [k' xs] rest IH]; cbn.
  - destruct (decide (k ∈ [])) as [Hin | _]; [inversion Hin | reflexivity].
  - destruct (decide (k' = k)) as [-> | Hne]; cbn.
    + destruct (decide (k ∈ k :: map fst rest)) as [_ | Hnin];
        [reflexivity | exfalso; apply Hnin; left].
    + rewrite IH.
      destruct (decide (k ∈ map fst rest)) as [Hin | Hnin];
        destruct (decide (k ∈ k' :: map fst rest)) as [Hin' | Hnin'];
        try reflexivity.
      * exfalso. apply Hnin'. right. exact Hin.
      * exfalso. apply elem_of_cons in Hin' as [-> | Hin']; [apply Hne |]; tauto.
Qed.

Lemma group_keys_from (key : A -> K) (values : list A) :
  forall acc : list (K * list A),
    let ks := map fst (fold_left (fun g x => D3.upsert (key x) x g) values acc) in
    (forall k, k ∈ ks <-> k ∈ map fst acc \/ exists x, x ∈ values /\ key x = k)
    /\ (NoDup (map fst acc) -> NoDup ks).
Proof.
  induction values as [| v values IH]; intros acc; cbn zeta; cbn [fold_left].
  - split; [| tauto].
    intros k. split; [tauto |].
    intros [Hk | (x & Hx & _)]; [exact Hk | inversion Hx].
  - destruct (IH (D3.upsert (key v) v acc)) as [Hin Hnd]. split.
    + intros k. rewrite Hin, upsert_keys.
      destruct (decide (key v ∈ map fst acc)) as [Hv | Hv].
      * split.
        -- intros [Hk | (x & Hx & Hkx)]; [tauto |].
           right. exists x. split; [right; exact Hx | exact Hkx].
        -- intros [Hk | (x & Hx & Hkx)]; [tauto |].
           apply elem_of_cons in Hx as [-> | Hx];
             [left; rewrite <- Hkx; exact Hv | right; eauto].
      * rewrite elem_of_app, list_elem_of_singleton. split.
        -- intros [[Hk | ->] | (x & Hx & Hkx)]; [tauto | |].
           ++ right. exists v. split; [left | reflexivity].
           ++ right. exists x. split; [right; exact Hx | exact Hkx].
        -- intros [Hk | (x & Hx & Hkx)]; [tauto |].
           apply elem_of_cons in Hx as [-> | Hx]; [left; right; auto | right; eauto].
    + intros Hacc. apply Hnd. rewrite upsert_keys.
      destruct (decide (key v ∈ map fst acc)) as [Hv | Hv]; [exact Hacc |].
      apply NoDup_app. split; [exact Hacc |]. split.
      * intros k Hk Hk'. apply list_elem_of_singleton in Hk' as ->. tauto.
      * apply NoDup_singleton.
Qed.

(** The rollup keys are the keys of the values, each once. *)
Lemma rollup_keys_elem (key : A -> K) (values : list A) (k : K) :
  k ∈ D3.rollup_keys values key <-> exists x, x ∈ values /\ key x = k.
Proof.
  unfold D3.rollup_keys, D3.group.
  destruct (group_keys_from key values []) as [Hin _].
  rewrite Hin. cbn. split; [| tauto].
  intros [Hk | Hx]; [inversion Hk | exact Hx].
Qed.

Lemma rollup_keys_NoDup (key : A -> K) (values : list A) :
  NoDup (D3.rollup_keys values key).
Proof.
  unfold D3.rollup_keys, D3.group.
  destruct (group_keys_from key values []) as [_ Hnd].
  apply Hnd. constructor.
Qed.

End GroupProperties.

(** ** The streak *)

Section Streak.
Import JsDate Dashboard.

Lemma utcDayKey_midnight (q : Z) :
  utcDayKey (TV (q * msPerDay)) = TV (q * msPerDay).
Proof.
  unfold utcDayKey, D3.utcDay_floor, Day.
  rewrite Z.div_mul by (unfold msPerDay; lia). reflexivity.
Qed.

Lemma midnight_inj (a b : Z) : a * msPerDay = b * msPerDay -> a = b.
Proof. unfold msPerDay. lia. Qed.

(** The loop, from the midnight of day [q]: it leaves after [n] steps,
    the [n] days back from [q] being keys and the next one not.  The fuel
    is enough as soon as it exceeds the number of keys not yet met. *)
Lemma streakLoop_spec (keys : list timeValue) :
  forall (fuel : nat) (q : Z) (s : nat) (visited : list timeValue),
    NoDup visited ->
    (forall v, v ∈ visited ->
               v ∈ keys /\ exists u, v = TV (u * msPerDay) /\ q < u) ->
    (length keys < fuel + length visited)%nat ->
    exists n : nat,
      streakLoop fuel (list_to_set keys) (TV (q * msPerDay)) s = Some (s + n)%nat
      /\ (forall i, 0 <= i < Z.of_nat n -> TV ((q - i) * msPerDay) ∈ keys)
      /\ TV ((q - Z.of_nat n) * msPerDay) ∉ keys.
Proof.
  induction fuel as [| fuel IH]; intros q s visited Hnd Hvis Hlen.
  - exfalso.
    assert (Hsub : visited ⊆+ keys).
    { apply NoDup_submseteq; [exact Hnd |]. intros v Hv. apply Hvis, Hv. }
    apply submseteq_length in Hsub. lia.
  - cbn [streakLoop]. rewrite utcDayKey_midnight.
    case_bool_decide as Hin.
    + apply elem_of_list_to_set in Hin.
      assert (Hstep : D3.utcDay_offset (TV (q * msPerDay)) (-1)
                      = TV ((q - 1) * msPerDay)).
      { cbn. f_equal. unfold msPerDay. lia. }
      rewrite Hstep.
      destruct (IH (q - 1) (S s) (TV (q * msPerDay) :: visited))
        as (n & Hrun & Hdays & Hgap).
      * constructor; [| exact Hnd].
        intros Hv. apply Hvis in Hv as (_ & u & Hu & Hlt).
        injection Hu as Hu. apply midnight_inj in Hu. lia.
      * intros v Hv. apply elem_of_cons in Hv as [-> | Hv].
        -- split; [exact Hin |]. exists q. split; [reflexivity | lia].
        -- apply Hvis in Hv as (Hk & u & Hu & Hlt).
           split; [exact Hk |]. exists u. split; [exact Hu | lia].
      * cbn [length]. lia.
      * exists (S n). split; [rewrite Hrun; f_equal; lia |]. split.
        -- intros i Hi. destruct (Z.eq_dec i 0) as [-> | Hne].
           ++ rewrite Z.sub_0_r. exact Hin.
           ++ replace (q - i) with (q - 1 - (i - 1)) by lia.
              apply Hdays. lia.
        -- replace (q - Z.of_nat (S n)) with (q - 1 - Z.of_nat n) by lia.
           exact Hgap.
    + exists O. split; [f_equal; lia |]. split.
      * intros i Hi. lia.
      * rewrite Z.sub_0_r. intros Hk. apply Hin.
        apply elem_of_list_to_set. exact Hk.
Qed.

(** On an invalid date the loop does not leave, whatever the fuel: the
    key of the cursor is [NaN] at every step, and [NaN] is in the set. *)
Lemma streakLoop_invalid_date (fuel : nat) (s : nat) :
  streakLoop fuel (list_to_set [NaN]) NaN s = None.
Proof.
  revert s. induction fuel as [| fuel IH]; intros s; [reflexivity |].
  cbn [streakLoop utcDayKey D3.utcDay_floor D3.utcDay_offset].
  rewrite bool_decide_eq_true_2 by (apply elem_of_list_to_set; left).
  apply IH.
Qed.

(** A done row whose date has the form [YYYY-MM-DD] and names no calendar
    date: the date is invalid, and the KPIs are not produced. *)
Lemma kpis_invalid_date :
  parseUTC Samples.strictHost (Some "2024-13-45") = Some NaN
  /\ kpis Samples.strictHost [Samples.row (Some "2024-13-45") 100 100] = None.
Proof. split; vm_compute; reflexivity. Qed.

(** The number of days counted back from [D] is determined by the days. *)
Lemma run_length_unique (P : Z -> Prop) (D : Z) (n m : nat) :
  (forall i, 0 <= i < Z.of_nat n -> P (D - i * msPerDay)) ->
  ~ P (D - Z.of_nat n * msPerDay) ->
  (forall i, 0 <= i < Z.of_nat m -> P (D - i * msPerDay)) ->
  ~ P (D - Z.of_nat m * msPerDay) ->
  n = m.
Proof.
  intros Hn Hn' Hm Hm'.
  destruct (Nat.lt_trichotomy n m) as [Hlt | [Heq | Hgt]]; [| exact Heq |].
  - exfalso. apply Hn'. apply Hm. lia.
  - exfalso. apply Hm'. apply Hn. lia.
Qed.

Section Keys.
Variable h : Host.
Variable rows : list Item.
Hypothesis Hvalid : doneDatesValid h rows = true.

Let keys : list timeValue := doneDayKeys h (List.filter isDoneDay rows).

(** The keys of the streak are the midnights of the done days. *)
Lemma doneDayKeys_elem (k : timeValue) :
  k ∈ keys <-> exists D, k = TV D /\ doneOnDay h rows D.
Proof.
  unfold keys, doneDayKeys. rewrite sort_perm, rollup_keys_elem. split.
  - intros (r & Hr & Hk).
    apply list_elem_of_In, List.filter_In in Hr as [Hr Hdate].
    apply List.filter_In in Hr as [Hr Hdone].
    unfold doneDatesValid in Hvalid.
    rewrite forallb_forall in Hvalid. specialize (Hvalid r Hr).
    rewrite Hdate, Hdone in Hvalid. cbn in Hvalid.
    destruct (dateOf h r) as [t |] eqn:Ht; [| discriminate].
    cbn in Hk. exists (Day t * msPerDay). split; [symmetry; exact Hk |].
    exists r. rewrite list_elem_of_In, Ht. cbn. tauto.
  - intros (D & -> & r & Hr & Hdone & Hdate & Hk).
    exists r. split; [| exact Hk].
    apply list_elem_of_In, List.filter_In. split; [| exact Hdate].
    apply List.filter_In. split; [| exact Hdone].
    apply list_elem_of_In. exact Hr.
Qed.

Lemma doneDayKeys_finite : Forall finite keys.
Proof.
  apply Forall_forall. intros k Hk.
  apply doneDayKeys_elem in Hk as (D & -> & _). reflexivity.
Qed.

Lemma doneDayKeys_sorted : StronglySorted tvLe keys.
Proof.
  pose proof doneDayKeys_finite as Hf.
  unfold keys, doneDayKeys in *.
  apply sort_sorted. rewrite sort_perm in Hf. exact Hf.
Qed.

Lemma doneOnDay_midnight (D : Z) :
  doneOnDay h rows D -> exists q, D = q * msPerDay.
Proof.
  intros (r & _ & _ & _ & Hk).
  destruct (dateOf h r) as [t |]; [| discriminate].
  cbn in Hk. injection Hk as <-. eauto.
Qed.

(** The streak loop returns.  Either there is no done day and the
    streak is 0, or there is a latest done day and the streak is the
    length of the run of consecutive done days that ends there. *)
Lemma streak_cases :
  exists k : KPIs,
    kpis h rows = Some k
    /\ (((forall D, ~ doneOnDay h rows D) /\ streak k = O)
        \/ exists D,
             doneOnDay h rows D
             /\ (forall D', doneOnDay h rows D' -> D' <= D)
             /\ (0 < streak k)%nat
             /\ (forall i, 0 <= i < Z.of_nat (streak k) ->
                           doneOnDay h rows (D - i * msPerDay))
             /\ ~ doneOnDay h rows (D - Z.of_nat (streak k) * msPerDay)).
Proof.
  unfold kpis. fold keys. unfold streakOf, JsArray.lastOf.
  destruct (last keys) as [m |] eqn:Hlast.
  - pose proof (sorted_last_greatest keys m doneDayKeys_finite
                  doneDayKeys_sorted Hlast) as Hmax.
    pose proof (last_Some_elem_of _ _ Hlast) as Hm.
    apply doneDayKeys_elem in Hm as (M & -> & HM).
    destruct (doneOnDay_midnight M HM) as (q & ->).
    destruct (streakLoop_spec keys (S (length keys)) q O [])
      as (n & Hrun & Hdays & Hgap).
    { constructor. }
    { intros v Hv. inversion Hv. }
    { cbn. lia. }
    rewrite Hrun. eexists. split; [reflexivity |]. cbn [streak].
    right. exists (q * msPerDay).
    assert (Hkey : forall j, TV ((q - j) * msPerDay) ∈ keys
                             <-> doneOnDay h rows (q * msPerDay - j * msPerDay)).
    { intros j. rewrite doneDayKeys_elem.
      replace (q * msPerDay - j * msPerDay) with ((q - j) * msPerDay)
        by (unfold msPerDay; lia).
      split; [intros (D & HD' & Hd); injection HD' as <-; exact Hd | eauto]. }
    split; [exact HM |]. split; [| split; [| split]].
    + intros D HD.
      assert (Hk : TV D ∈ keys) by (apply doneDayKeys_elem; eauto).
      rewrite Forall_forall in Hmax. exact (Hmax _ Hk).
    + destruct n as [| n]; [| lia].
      exfalso. apply Hgap. apply Hkey.
      replace (q * msPerDay - Z.of_nat 0 * msPerDay) with (q * msPerDay) by lia.
      exact HM.
    + intros i Hi. apply Hkey, Hdays. lia.
    + intros Hd. apply Hgap, Hkey. exact Hd.
  - eexists. split; [reflexivity |]. cbn [streak].
    left. split; [| reflexivity].
    intros D HD.
    assert (Hk : TV D ∈ keys) by (apply doneDayKeys_elem; eauto).
    apply last_None in Hlast. rewrite Hlast in Hk. inversion Hk.
Qed.

End Keys.

(** The streak, in terms of the keys of the done rows. *)
Lemma streak_of_key_days (h : Host) (rows : list Item) :
  doneDatesValid h rows = true ->
  exists k : KPIs,
    kpis h rows = Some k
    /\ (List.filter isDoneDay rows = [] -> streak k = O)
    /\ ((forall D, ~ doneOnDay h rows D) -> streak k = O)
    /\ (forall D,
           doneOnDay h rows D ->
           (forall D', doneOnDay h rows D' -> D' <= D) ->
           (0 < streak k)%nat
           /\ (forall i, 0 <= i < Z.of_nat (streak k) ->
                         doneOnDay h rows (D - i * msPerDay))
           /\ ~ doneOnDay h rows (D - Z.of_nat (streak k) * msPerDay))
    /\ (forall (rows' : list Item) (k' : KPIs),
           doneDatesValid h rows' = true ->
           (forall D, doneOnDay h rows' D <-> doneOnDay h rows D) ->
           kpis h rows' = Some k' ->
           streak k' = streak k)
    /\ (forall D,
           (forall D', doneOnDay h rows D'
                       <-> D' = D \/ D' = D - msPerDay \/ D' = D - 3 * msPerDay) ->
           streak k = 2%nat).
Proof.
  intros Hvalid.
  destruct (streak_cases h rows Hvalid) as (k & Hk & Hcases).
  exists k. split; [exact Hk |].
  assert (Hnone : (forall D, ~ doneOnDay h rows D) -> streak k = O).
  { intros Hno. destruct Hcases as [[_ H0] | (D & HD & _)];
      [exact H0 | exfalso; exact (Hno _ HD)]. }
  assert (Hlatest : forall D,
             doneOnDay h rows D ->
             (forall D', doneOnDay h rows D' -> D' <= D) ->
             (0 < streak k)%nat
             /\ (forall i, 0 <= i < Z.of_nat (streak k) ->
                           doneOnDay h rows (D - i * msPerDay))
             /\ ~ doneOnDay h rows (D - Z.of_nat (streak k) * msPerDay)).
  { intros D HD Hmax.
    destruct Hcases as [[Hno _] | (L & HL & HLmax & Hrest)];
      [exfalso; exact (Hno _ HD) |].
    assert (D = L) as -> by (apply Z.le_antisymm; auto).
    exact Hrest. }
  split; [| split; [exact Hnone | split; [exact Hlatest | split]]].
  - intros Hempty. apply Hnone. intros D (r & Hr & Hdone & _).
    assert (Hin : In r (List.filter isDoneDay rows)).
    { apply List.filter_In. split; [apply list_elem_of_In; exact Hr | exact Hdone]. }
    rewrite Hempty in Hin. exact Hin.
  - intros rows' k' Hvalid' Hsame Hk'.
    destruct (streak_cases h rows' Hvalid') as (k2 & Hk2 & Hcases').
    rewrite Hk' in Hk2. injection Hk2 as <-.
    destruct Hcases' as [[Hno' H0'] | (L' & HL' & HLmax' & _ & Hrun' & Hgap')].
    + rewrite H0'. symmetry. apply Hnone. intros D HD. apply (Hno' D), Hsame, HD.
    + apply Hsame in HL'.
      destruct (Hlatest L' HL') as (_ & Hrun & Hgap).
      { intros D HD. apply HLmax', Hsame, HD. }
      apply (run_length_unique (doneOnDay h rows) L'); try assumption.
      * intros i Hi. apply Hsame, Hrun', Hi.
      * intros Hd. apply Hgap', Hsame, Hd.
  - intros D Hdays.
    assert (Hpos : 0 < msPerDay) by (unfold msPerDay; lia).
    destruct (Hlatest D) as (_ & Hrun & Hgap).
    { apply Hdays. tauto. }
    { intros D' HD'. apply Hdays in HD'. lia. }
    apply (run_length_unique (doneOnDay h rows) D); try assumption.
    + intros i Hi. apply Hdays.
      assert (i = 0 \/ i = 1) as [-> | ->] by lia; [left | right; left]; lia.
    + intros Hd. apply Hdays in Hd. lia.
Qed.

(** The day keys are the beginnings of the UTC days of the times. *)
Lemma doneOnDay_utc (h : Host) (rows : list Item) (D : Z) :
  doneOnDay h rows D <-> doneOnUtcDay h rows D.
Proof.
  unfold doneOnDay, doneOnUtcDay, utcDayKey, D3.utcDay_floor, Day. split.
  - intros (r & Hr & Hdone & Hdate & Hk).
    destruct (dateOf h r) as [t |] eqn:Ht; [| discriminate Hk].
    injection Hk as <-. exists r, t.
    split; [exact Hr |]. split; [exact Hdone |]. split; [exact Hdate |].
    split; [exact Ht |].
    unfold msPerDay. split; Z.div_mod_to_equations; lia.
  - intros (r & t & Hr & Hdone & Hdate & Ht & Hmod & Hin).
    exists r. repeat (split; [assumption |]). rewrite Ht. f_equal.
    unfold msPerDay in *. Z.div_mod_to_equations. lia.
Qed.

Lemma doneDayKeys_NoDup (h : Host) (doneRows : list Item) :
  NoDup (doneDayKeys h doneRows).
Proof.
  unfold doneDayKeys. rewrite sort_perm. apply rollup_keys_NoDup.
Qed.


(** The done days of the sample rows: 2024-03-05, on which two done rows
    have their times, the day before, and three days before. *)
Lemma marchTimes_done_days (D' : Z) :
  doneOnUtcDay Samples.strictHost Samples.marchTimes D'
  <-> D' = 1709596800000 \/ D' = 1709596800000 - msPerDay
      \/ D' = 1709596800000 - 3 * msPerDay.
Proof.
  split.
  - intros (r & t & Hr & Hdone & Hdate & Ht & Hmod & Hin).
    apply list_elem_of_In in Hr. cbn in Hr.
    destruct Hr as [<- | [<- | [<- | [<- | [<- | [<- | []]]]]]];
      vm_compute in Hdone, Hdate, Ht; try discriminate;
      injection Ht as <-; unfold msPerDay in *;
      Z.div_mod_to_equations; lia.
  - intros [-> | [-> | ->]].
    + exists (Samples.row (Some "2024-03-05T21:30:00Z") 100 100), 1709674200000.
      split; [apply list_elem_of_In; cbn; tauto |].
      repeat (split; [reflexivity |]). unfold msPerDay. lia.
    + exists (Samples.row (Some "2024-03-04T23:59:59Z") 0 100), 1709596799000.
      split; [apply list_elem_of_In; cbn; tauto |].
      repeat (split; [reflexivity |]). unfold msPerDay. lia.
    + exists (Samples.row (Some "2024-03-02T00:00:00Z") 100 100), 1709337600000.
      split; [apply list_elem_of_In; cbn; tauto |].
      repeat (split; [reflexivity |]). unfold msPerDay. lia.
Qed.



End Streak.

(** ** The calendar *)

Section Calendar.
Import JsString JsDate.

(** Goals and hypotheses on quotients and remainders by constants. *)
Ltac divmod := Z.div_mod_to_equations; lia.

(** The date of a day of the era is on that day. *)
Lemma era_day_date (doe : Z) :
  0 <= doe < 146097 ->
  exists yoe m d,
    civilOfEraDay doe = (yoe, m, d)
    /\ 0 <= yoe <= 399 /\ 1 <= m <= 12 /\ 1 <= d <= 31
    /\ dayOfEra yoe m d = doe.
Proof.
  intros H. unfold civilOfEraDay, dayOfEra.
  set (yoe := (doe - doe / 1460 + doe / 36524 - doe / 146096) / 365).
  set (doy := doe - (365 * yoe + yoe / 4 - yoe / 100)).
  set (mp := (5 * doy + 2) / 153).
  assert (Hy : 0 <= yoe <= 399 /\ 0 <= doy <= 365) by (subst doy yoe; divmod).
  assert (Hmp : 0 <= mp <= 11) by (subst mp; divmod).
  eexists _, _, _. split; [reflexivity |].
  split; [lia |].
  destruct (Z.ltb_spec mp 10) as [Hlt | Hge].
  - assert (Hm : (2 <? mp + 3) = true) by (apply Z.ltb_lt; lia).
    rewrite Hm. replace (mp + 3 - 3) with mp by lia.
    split; [lia |]. subst mp doy; split; divmod.
  - assert (Hm : (2 <? mp - 9) = false) by (apply Z.ltb_ge; lia).
    rewrite Hm. replace (mp - 9 + 9) with mp by lia.
    split; [lia |]. subst mp doy; split; divmod.
Qed.

(** The day of a date of the era is in the era, and its date is that
    date. *)
Lemma era_date_day (yoe m d : Z) :
  0 <= yoe <= 399 -> 1 <= m <= 12 ->
  1 <= d <= daysInMonth (yoe + marchShift m) m ->
  0 <= dayOfEra yoe m d <= 146096
  /\ civilOfEraDay (dayOfEra yoe m d) = (yoe, m, d).
Proof.
  intros Hy Hm Hd.
  unfold daysInMonth, isLeap, marchShift in Hd.
  assert (Hcases : m = 1 \/ m = 2 \/ m = 3 \/ m = 4 \/ m = 5 \/ m = 6 \/ m = 7
                   \/ m = 8 \/ m = 9 \/ m = 10 \/ m = 11 \/ m = 12) by lia.
  unfold dayOfEra.
  set (mp := if 2 <? m then m - 3 else m + 9).
  assert (Hdoy : exists doy,
             (153 * mp + 2) / 5 + d - 1 = doy
             /\ 0 <= doy <= 365
             /\ (doy = 365 -> yoe mod 4 = 3 /\ (yoe mod 100 <> 99 \/ yoe = 399))
             /\ (5 * doy + 2) / 153 = mp
             /\ doy - (153 * mp + 2) / 5 + 1 = d).
  { eexists. split; [reflexivity |]. subst mp.
    destruct Hcases
      as [-> | [-> | [-> | [-> | [-> | [-> | [-> | [-> | [-> | [-> | [-> | ->]]]]]]]]]]];
      cbn in Hd |- *;
      try (repeat split; divmod).
    destruct (Z.eqb_spec ((yoe + 1) mod 4) 0);
      destruct (Z.eqb_spec ((yoe + 1) mod 100) 0);
      destruct (Z.eqb_spec ((yoe + 1) mod 400) 0); cbn in Hd;
      repeat split; divmod. }
  destruct Hdoy as (doy & Hdoy & Hrange & Hleap & Hmp & Hdd).
  replace (yoe * 365 + yoe / 4 - yoe / 100 + (153 * mp + 2) / 5 + d - 1)
    with (yoe * 365 + yoe / 4 - yoe / 100 + doy) by lia.
  set (doe := yoe * 365 + yoe / 4 - yoe / 100 + doy).
  assert (Hdoe : 0 <= doe <= 146096
                 /\ (doe - doe / 1460 + doe / 36524 - doe / 146096) / 365 = yoe).
  { subst doe. repeat split; divmod. }
  destruct Hdoe as [Hdoe Hyoe]. split; [exact Hdoe |].
  unfold civilOfEraDay. rewrite Hyoe.
  replace (doe - (365 * yoe + yoe / 4 - yoe / 100)) with doy by (subst doe; lia).
  rewrite Hmp. subst mp.
  f_equal; [f_equal |].
  - destruct (Z.ltb_spec 2 m); destruct (Z.ltb_spec (m - 3) 10);
      destruct (Z.ltb_spec (m + 9) 10); lia.
  - rewrite <- Hdd. reflexivity.
Qed.

Lemma isLeap_period (a k : Z) : isLeap (a + k * 400) = isLeap a.
Proof.
  unfold isLeap.
  replace ((a + k * 400) mod 4) with (a mod 4) by divmod.
  replace ((a + k * 400) mod 100) with (a mod 100) by divmod.
  replace ((a + k * 400) mod 400) with (a mod 400) by divmod.
  reflexivity.
Qed.

(** A day number is the day number of its calendar date. *)
Lemma daysFromCivil_civilFromDays (n : Z) :
  exists y m d,
    civilFromDays n = (y, m, d)
    /\ 1 <= m <= 12 /\ 1 <= d <= 31
    /\ daysFromCivil y m d = n
    /\ (0 <= n -> 1600 <= y).
Proof.
  unfold civilFromDays.
  set (z := n + 719468).
  assert (Hdoe : 0 <= z mod 146097 < 146097) by (apply Z.mod_pos_bound; lia).
  destruct (era_day_date _ Hdoe) as (yoe & m & d & Hc & Hyoe & Hm & Hd & Hday).
  rewrite Hc. eexists _, _, _. split; [reflexivity |].
  split; [exact Hm |]. split; [exact Hd |].
  set (era := z / 146097).
  assert (Hz : z = era * 146097 + z mod 146097) by (subst era; divmod).
  split.
  - unfold daysFromCivil.
    replace (if m <=? 2
             then yoe + era * 400 + (if m <=? 2 then 1 else 0) - 1
             else yoe + era * 400 + (if m <=? 2 then 1 else 0))
      with (yoe + era * 400) by (destruct (m <=? 2); lia).
    replace ((yoe + era * 400) / 400) with era by divmod.
    replace ((yoe + era * 400) mod 400) with yoe by divmod.
    rewrite Hday. subst z. lia.
  - intros Hn.
    assert (4 <= era) by (subst era z; divmod).
    destruct (m <=? 2); lia.
Qed.

(** The calendar date of the day number of a date is that date. *)
Lemma civilFromDays_daysFromCivil (y m d : Z) :
  1 <= m <= 12 -> 1 <= d <= daysInMonth y m ->
  civilFromDays (daysFromCivil y m d) = (y, m, d).
Proof.
  intros Hm Hd. unfold daysFromCivil.
  set (y' := if m <=? 2 then y - 1 else y).
  assert (Hy : y = y' mod 400 + marchShift m + (y' / 400) * 400).
  { subst y'. unfold marchShift. destruct (m <=? 2); divmod. }
  assert (Hyoe : 0 <= y' mod 400 <= 399) by divmod.
  assert (Hdim : daysInMonth y m = daysInMonth (y' mod 400 + marchShift m) m).
  { unfold daysInMonth. rewrite Hy at 1. rewrite isLeap_period. reflexivity. }
  rewrite Hdim in Hd.
  destruct (era_date_day _ _ _ Hyoe Hm Hd) as [Hdoe Hc].
  unfold civilFromDays.
  set (doe := dayOfEra (y' mod 400) m d) in *.
  replace (y' / 400 * 146097 + doe - 719468 + 719468)
    with (doe + (y' / 400) * 146097) by lia.
  replace ((doe + (y' / 400) * 146097) mod 146097) with doe by divmod.
  replace ((doe + (y' / 400) * 146097) / 146097) with (y' / 400) by divmod.
  rewrite Hc. unfold marchShift in Hy.
  replace (y' mod 400 + y' / 400 * 400 + (if m <=? 2 then 1 else 0)) with y by lia.
  reflexivity.
Qed.

Lemma Day_midnight (n : Z) : Day (n * msPerDay) = n.
Proof. unfold Day. apply Z.div_mul. unfold msPerDay. lia. Qed.

Lemma MakeDay_civil (y m d : Z) :
  1 <= m <= 12 -> MakeDay y (m - 1) d = daysFromCivil y m d.
Proof.
  intros Hm. unfold MakeDay.
  replace ((m - 1) / 12) with 0 by divmod.
  replace ((m - 1) mod 12 + 1) with m by divmod.
  rewrite Z.add_0_r. unfold daysFromCivil, dayOfEra. lia.
Qed.

(** [Date.UTC] of the UTC year, month and day of a time not before the
    epoch is the midnight of its day. *)
Lemma Date_UTC_today (t : Z) :
  0 <= t ->
  Date_UTC (getUTCFullYear t) (getUTCMonth t) (getUTCDate t) = utcMidnight t.
Proof.
  intros Ht.
  unfold getUTCFullYear, getUTCMonth, getUTCDate,
    YearFromTime, MonthFromTime, DateFromTime, utcMidnight.
  destruct (daysFromCivil_civilFromDays (Day t)) as (y & m & d & Hc & Hm & Hd & Hn & Hy).
  rewrite Hc. unfold Date_UTC.
  assert (0 <= Day t) by (unfold Day, msPerDay; divmod).
  replace ((0 <=? y) && (y <=? 99)) with false
    by (symmetry; apply andb_false_iff; right; apply Z.leb_gt; lia).
  rewrite MakeDay_civil by exact Hm. rewrite Hn.
  unfold MakeDate. lia.
Qed.

(** The UTC calendar fields of the midnight of a date. *)
Lemma midnight_fields (y m d : Z) :
  1 <= m <= 12 -> 1 <= d <= daysInMonth y m ->
  let t := daysFromCivil y m d * msPerDay in
  TimeWithinDay t = 0
  /\ getUTCFullYear t = y /\ getUTCMonth t = m - 1 /\ getUTCDate t = d.
Proof.
  intros Hm Hd t. subst t.
  unfold getUTCFullYear, getUTCMonth, getUTCDate,
    YearFromTime, MonthFromTime, DateFromTime, TimeWithinDay.
  rewrite Day_midnight, civilFromDays_daysFromCivil by assumption.
  split; [apply Z_mod_mult | repeat split; lia].
Qed.

End Calendar.

(** ** The date normaliser *)

Section DateNormaliser.
Import JsString JsDate Dashboard Samples.

Lemma digitChar_spec (n : Z) :
  isDigit (digitChar n) = true /\ digitVal (digitChar n) = n mod 10.
Proof.
  unfold digitChar.
  assert (H : 0 <= n mod 10 < 10) by (Z.div_mod_to_equations; lia).
  remember (n mod 10) as r eqn:Hr. clear Hr.
  assert (Hc : r = 0 \/ r = 1 \/ r = 2 \/ r = 3 \/ r = 4 \/ r = 5 \/ r = 6
               \/ r = 7 \/ r = 8 \/ r = 9) by lia.
  destruct Hc as [-> | [-> | [-> | [-> | [-> | [-> | [-> | [-> | [-> | ->]]]]]]]]];
    split; reflexivity.
Qed.

Lemma num4_digits (y : Z) :
  0 <= y <= 9999 ->
  num4 (digitChar (y / 1000)) (digitChar (y / 100)) (digitChar (y / 10)) (digitChar y)
  = y.
Proof.
  intros Hy. unfold num4, num3, num2.
  rewrite !(proj2 (digitChar_spec _)). Z.div_mod_to_equations; lia.
Qed.

Lemma num2_digits (m : Z) :
  0 <= m <= 99 -> num2 (digitChar (m / 10)) (digitChar m) = m.
Proof.
  intros Hm. unfold num2.
  rewrite !(proj2 (digitChar_spec _)). Z.div_mod_to_equations; lia.
Qed.

(** A text of ten characters, digits around two dashes, whose fields are a
    date: it matches the pattern, and with the suffix [T00:00:00Z] it is
    in the Date Time String Format. *)
Lemma parseIso_chars (y1 y2 y3 y4 m1 m2 d1 d2 : ascii) :
  isDigit y1 = true -> isDigit y2 = true -> isDigit y3 = true -> isDigit y4 = true ->
  isDigit m1 = true -> isDigit m2 = true -> isDigit d1 = true -> isDigit d2 = true ->
  1 <= num2 m1 m2 <= 12 ->
  1 <= num2 d1 d2 <= daysInMonth (num4 y1 y2 y3 y4) (num2 m1 m2) ->
  let s := String y1 (String y2 (String y3 (String y4 (String "-" (String m1
             (String m2 (String "-" (String d1 (String d2 ""))))))))) in
  isoDayPattern s = true
  /\ parseIsoDateTime (s +:+ "T00:00:00Z")
     = Some (MakeDate (MakeDay (num4 y1 y2 y3 y4) (num2 m1 m2 - 1) (num2 d1 d2)) 0).
Proof.
  intros Hy1 Hy2 Hy3 Hy4 Hm1 Hm2 Hd1 Hd2 Hm Hd s. subst s.
  split.
  - unfold isoDayPattern.
    rewrite Hy1, Hy2, Hy3, Hy4, Hm1, Hm2, Hd1, Hd2. reflexivity.
  - replace (String y1 (String y2 (String y3 (String y4 (String "-" (String m1
               (String m2 (String "-" (String d1 (String d2 "")))))))))
             +:+ "T00:00:00Z")
      with (String y1 (String y2 (String y3 (String y4 (String "-" (String m1
              (String m2 (String "-" (String d1 (String d2 "T00:00:00Z"))))))))))
      by reflexivity.
    unfold parseIsoDateTime. cbv beta iota.
    rewrite Hy1, Hy2, Hy3, Hy4, Hm1, Hm2, Hd1, Hd2.
    replace (isChar "-" "-") with true by reflexivity.
    replace (isChar "T" "T") with true by reflexivity.
    replace (parseIsoTime "00:00:00Z") with (Some 0) by reflexivity.
    cbn [andb].
    destruct Hm as [Hm1' Hm2'], Hd as [Hd1' Hd2'].
    apply Z.leb_le in Hm1', Hm2', Hd1', Hd2'.
    rewrite Hm1', Hm2', Hd1', Hd2'. reflexivity.
Qed.

Lemma parseUTC_isoDayText (h : Host) (y m d : Z) :
  0 <= y <= 9999 -> 1 <= m <= 12 -> 1 <= d <= daysInMonth y m ->
  parseUTC h (Some (isoDayText y m d)) = Some (TV (daysFromCivil y m d * msPerDay)).
Proof.
  intros Hy Hm Hd.
  assert (Hd31 : d <= 31).
  { unfold daysInMonth in Hd.
    destruct (m =? 2); [destruct (isLeap y) |];
      [| | destruct ((m =? 4) || (m =? 6) || (m =? 9) || (m =? 11))]; lia. }
  pose proof (num4_digits y Hy) as Ey.
  pose proof (num2_digits m ltac:(lia)) as Em.
  pose proof (num2_digits d ltac:(lia)) as Ed.
  destruct (parseIso_chars
              (digitChar (y / 1000)) (digitChar (y / 100)) (digitChar (y / 10))
              (digitChar y) (digitChar (m / 10)) (digitChar m)
              (digitChar (d / 10)) (digitChar d)) as [Hpat Hparse];
    try apply digitChar_spec.
  { rewrite Em. exact Hm. }
  { rewrite Ey, Em, Ed. exact Hd. }
  rewrite Ey, Em, Ed in Hparse.
  unfold parseUTC.
  change (isoDayText y m d)
    with (String (digitChar (y / 1000)) (String (digitChar (y / 100))
           (String (digitChar (y / 10)) (String (digitChar y) (String "-"
             (String (digitChar (m / 10)) (String (digitChar m) (String "-"
               (String (digitChar (d / 10)) (String (digitChar d) "")))))))))).
  cbn [truthy String.eqb negb]. rewrite Hpat.
  unfold Date_parse. rewrite Hparse.
  rewrite MakeDay_civil by exact Hm. unfold MakeDate.
  rewrite Z.add_0_r. reflexivity.
Qed.

Lemma isoDayText_pattern (y m d : Z) : isoDayPattern (isoDayText y m d) = true.
Proof.
  unfold isoDayText, pad4, pad3, pad2.
  cbv [String.append isoDayPattern]. cbv beta iota.
  rewrite !(proj1 (digitChar_spec _)). reflexivity.
Qed.

Lemma digit_char_of_val (c : ascii) :
  isDigit c = true -> 0 <= digitVal c <= 9 /\ ofCode (48 + digitVal c) = c.
Proof.
  destruct c as [b0 b1 b2 b3 b4 b5 b6 b7].
  destruct b0, b1, b2, b3, b4, b5, b6, b7; intros H;
    try discriminate H; vm_compute; intuition congruence.
Qed.

Lemma isChar_eq (c : ascii) (lit : string) :
  isChar c lit = true -> String c EmptyString = lit.
Proof. unfold isChar. apply String.eqb_eq. Qed.

(** The texts that match the pattern are the texts [isoDayText] of a
    four-digit year and two two-digit fields. *)
Lemma isoDayPattern_texts (s : string) :
  isoDayPattern s = true ->
  exists y m d,
    0 <= y <= 9999 /\ 0 <= m <= 99 /\ 0 <= d <= 99 /\ s = isoDayText y m d.
Proof.
  intros H. unfold isoDayPattern in H.
  destruct s as [| y1 [| y2 [| y3 [| y4 [| c1 [| m1 [| m2 [| c2 [| d1 [| d2 [| ? ?]]]]]]]]]]];
    try discriminate H.
  rewrite !andb_true_iff in H.
  destruct H as (((((((((Hy1 & Hy2) & Hy3) & Hy4) & Hc1) & Hm1) & Hm2) & Hc2) & Hd1) & Hd2).
  apply isChar_eq in Hc1, Hc2. injection Hc1 as ->. injection Hc2 as ->.
  apply digit_char_of_val in Hy1 as [Ry1 Ey1], Hy2 as [Ry2 Ey2], Hy3 as [Ry3 Ey3],
      Hy4 as [Ry4 Ey4], Hm1 as [Rm1 Em1], Hm2 as [Rm2 Em2], Hd1 as [Rd1 Ed1],
      Hd2 as [Rd2 Ed2].
  exists (num4 y1 y2 y3 y4), (num2 m1 m2), (num2 d1 d2).
  unfold num4, num3, num2.
  set (y := 10 * (10 * (10 * digitVal y1 + digitVal y2) + digitVal y3) + digitVal y4).
  set (m := 10 * digitVal m1 + digitVal m2).
  set (d := 10 * digitVal d1 + digitVal d2).
  split; [subst y; lia |]. split; [subst m; lia |]. split; [subst d; lia |].
  unfold isoDayText, pad4, pad3, pad2, digitChar.
  replace ((y / 1000) mod 10) with (digitVal y1) by (subst y; Z.div_mod_to_equations; lia).
  replace ((y / 100) mod 10) with (digitVal y2) by (subst y; Z.div_mod_to_equations; lia).
  replace ((y / 10) mod 10) with (digitVal y3) by (subst y; Z.div_mod_to_equations; lia).
  replace (y mod 10) with (digitVal y4) by (subst y; Z.div_mod_to_equations; lia).
  replace ((m / 10) mod 10) with (digitVal m1) by (subst m; Z.div_mod_to_equations; lia).
  replace (m mod 10) with (digitVal m2) by (subst m; Z.div_mod_to_equations; lia).
  replace ((d / 10) mod 10) with (digitVal d1) by (subst d; Z.div_mod_to_equations; lia).
  replace (d mod 10) with (digitVal d2) by (subst d; Z.div_mod_to_equations; lia).
  rewrite Ey1, Ey2, Ey3, Ey4, Em1, Em2, Ed1, Ed2. reflexivity.
Qed.

(** C4. For a text of the form [YYYY-MM-DD] that names a calendar date
    (the text matches the pattern, and the texts that match it are of
    this form, see [isoDayPattern_texts]), [parseUTC] returns UTC midnight
    of that date, whatever the host (its clock, its engine's own date
    formats, its time zone): the result is at 00:00:00.000 UTC and its
    UTC year, month and day are those of the text.  For "2024-03-05" it
    is the time value 1709596800000. *)
Theorem C4_iso_day_is_utc_midnight (y m d : Z) :
  0 <= y <= 9999 -> 1 <= m <= 12 -> 1 <= d <= daysInMonth y m ->
  exists t : Z,
    isoDayPattern (isoDayText y m d) = true
    /\ (forall h : Host, parseUTC h (Some (isoDayText y m d)) = Some (TV t))
    /\ TimeWithinDay t = 0
    /\ getUTCFullYear t = y /\ getUTCMonth t = m - 1 /\ getUTCDate t = d
    /\ isoDayText 2024 3 5 = "2024-03-05"
    /\ (forall h : Host, parseUTC h (Some "2024-03-05") = Some (TV 1709596800000)).
Proof.
  intros Hy Hm Hd.
  exists (daysFromCivil y m d * msPerDay).
  split; [apply isoDayText_pattern |].
  split; [intros h; apply parseUTC_isoDayText; assumption |].
  destruct (midnight_fields y m d Hm Hd) as (H0 & HY & HM & HD).
  split; [exact H0 |]. split; [exact HY |]. split; [exact HM |].
  split; [exact HD |]. split; [reflexivity |]. intros h. reflexivity.
Qed.

Lemma C4_iso_day_witness :
  exists t : Z,
    (forall h : Host, parseUTC h (Some "2024-03-05") = Some (TV t))
    /\ TimeWithinDay t = 0
    /\ getUTCFullYear t = 2024 /\ getUTCMonth t = 2 /\ getUTCDate t = 5.
Proof.
  destruct (C4_iso_day_is_utc_midnight 2024 3 5
              ltac:(lia) ltac:(lia) ltac:(change (1 <= 5 <= 31); lia))
    as (t & _ & Hp & H0 & HY & HM & HD & _).
  exists t. repeat split; assumption.
Defined.

(** C3, as stated, fails: on the empty string [parseUTC] returns no date
    ([null]), not UTC midnight of the current date. *)
Lemma C3_empty_text_gives_no_date :
  parseUTC strictHost (Some "") = None
  /\ parseUTC strictHost (Some "")
     <> Some (TV (utcMidnight (now strictHost))).
Proof. split; [reflexivity | discriminate]. Qed.

Lemma parseUTC_some (h : Host) (s : string) :
  s <> "" -> exists d, parseUTC h (Some s) = Some d.
Proof.
  intros Hs. unfold parseUTC, truthy.
  apply String.eqb_neq in Hs. rewrite Hs. cbn [negb].
  destruct (isoDayPattern s); [eauto |].
  destruct (match Date_parse h s with TV t => 2015 <? getUTCFullYear t | NaN => false end);
    [eauto |].
  destruct (monthDayPattern s) as [[mon day] |]; eauto.
Qed.

(** C3, amended. [parseUTC] never fails: on the empty string it returns no
    date ([null]), and on every other text it returns a date.  On text
    that nothing reads as a date (not [YYYY-MM-DD], rejected by
    [Date.parse], not of the year-less month-and-day form) it returns UTC
    midnight of the current date, the clock of the host being at or after
    the epoch. *)
Theorem C3_normalizer_on_garbage (h : Host) (s : string) :
  s <> "" -> unparseable h s -> 0 <= now h ->
  parseUTC h (Some s) = Some (TV (utcMidnight (now h)))
  /\ parseUTC h (Some "") = None
  /\ (forall s', s' <> "" -> exists d, parseUTC h (Some s') = Some d).
Proof.
  intros Hs (Hiso & Hnative & Hmd) Hnow.
  split; [| split; [reflexivity | intros s'; apply parseUTC_some]].
  unfold parseUTC, truthy.
  apply String.eqb_neq in Hs. rewrite Hs. cbn [negb].
  rewrite Hiso, Hnative, Hmd.
  rewrite Date_UTC_today by exact Hnow. reflexivity.
Qed.

Lemma C3_normalizer_witness :
  parseUTC strictHost (Some "garbage") = Some (TV 1762041600000).
Proof.
  exact (proj1 (C3_normalizer_on_garbage strictHost "garbage"
                  ltac:(discriminate)
                  ltac:(repeat split; vm_compute; reflexivity)
                  ltac:(change (0 <= 1762088400000); lia))).
Defined.

End DateNormaliser.

(* ===================================================================== *)
(** * Further properties *)
(* ===================================================================== *)

(** ** Groups and sorted keys *)

Section GroupContents.
Context {A K : Type} `{EqDecision K}.

Lemma groupOf_upsert (k k0 : K) (x : A) (groups : list (K * list A)) :
  groupOf k0 (D3.upsert k x groups)
  = if decide (k = k0) then groupOf k0 groups ++ [x] else groupOf k0 groups.
Proof.
  induction groups as [| [k' xs] rest IH]; cbn.
  - destruct (decide (k = k0)); reflexivity.
  - destruct (decide (k' = k)) as [-> | Hne]; cbn.
    + destruct (decide (k = k0)); reflexivity.
    + rewrite IH. destruct (decide (k' = k0)) as [-> | Hne0]; [| reflexivity].
      destruct (decide (k = k0)) as [-> | _]; [tauto | reflexivity].
Qed.

Lemma groupOf_fold (key : A -> K) (k : K) (values : list A) :
  forall acc : list (K * list A),
    groupOf k (fold_left (fun g x => D3.upsert (key x) x g) values acc)
    = groupOf k acc ++ withKey key k values.
Proof.
  induction values as [| v values IH]; intros acc; cbn [fold_left].
  - unfold withKey. cbn. rewrite app_nil_r. reflexivity.
  - rewrite IH, groupOf_upsert. unfold withKey. cbn [List.filter].
    destruct (decide (key v = k)) as [Hk | Hk].
    + rewrite bool_decide_eq_true_2 by exact Hk. rewrite <- app_assoc. reflexivity.
    + rewrite bool_decide_eq_false_2 by exact Hk. reflexivity.
Qed.

Lemma groupOf_elem (k : K) (xs : list A) (groups : list (K * list A)) :
  NoDup (map fst groups) -> (k, xs) ∈ groups -> groupOf k groups = xs.
Proof.
  induction groups as [| [k' ys] rest IH]; intros Hnd Hin; [inversion Hin |].
  cbn in Hnd. apply NoDup_cons in Hnd as [Hk' Hnd]. cbn.
  apply elem_of_cons in Hin as [Heq | Hin].
  - injection Heq as <- <-. destruct (decide (k = k)); [reflexivity | tauto].
  - destruct (decide (k' = k)) as [-> | _]; [| exact (IH Hnd Hin)].
    exfalso. apply Hk'. apply list_elem_of_fmap. exists (k, xs). split; [reflexivity | exact Hin].
Qed.

(** A group holds the values of its key, in their order. *)
Lemma group_elem (key : A -> K) (values : list A) (k : K) (xs : list A) :
  (k, xs) ∈ D3.group values key -> xs = withKey key k values.
Proof.
  intros Hin.
  pose proof (rollup_keys_NoDup key values) as Hnd.
  unfold D3.rollup_keys in Hnd.
  rewrite <- (groupOf_elem k xs _ Hnd Hin).
  unfold D3.group. rewrite groupOf_fold. reflexivity.
Qed.

Lemma withKey_nonempty (key : A -> K) (values : list A) (x : A) :
  x ∈ values -> withKey key (key x) values <> [].
Proof.
  intros Hx Hnil.
  assert (Hin : In x (withKey key (key x) values)).
  { apply List.filter_In. split; [apply list_elem_of_In; exact Hx |].
    apply bool_decide_eq_true_2. reflexivity. }
  rewrite Hnil in Hin. exact Hin.
Qed.

(** The entries of a rollup: one for each key of the values, with the
    reduction of the values of that key. *)
Lemma rollups_elem {V} (key : A -> K) (reduce : list A -> V) (values : list A)
    (k : K) (v : V) :
  (k, v) ∈ D3.rollups values reduce key
  <-> (exists x, x ∈ values /\ key x = k)
      /\ v = reduce (withKey key k values).
Proof.
  unfold D3.rollups. rewrite list_elem_of_fmap. split.
  - intros ([k' xs] & Heq & Hin). cbn in Heq. injection Heq as -> ->.
    split.
    + apply rollup_keys_elem. unfold D3.rollup_keys.
      apply list_elem_of_fmap. exists (k', xs). split; [reflexivity | exact Hin].
    + f_equal. exact (group_elem _ _ _ _ Hin).
  - intros [Hk ->].
    apply rollup_keys_elem in Hk. unfold D3.rollup_keys in Hk.
    apply list_elem_of_fmap in Hk as ([k' xs] & Hk' & Hin). cbn in Hk'. subst k'.
    exists (k, xs). split; [| exact Hin].
    cbn. f_equal. f_equal. symmetry. exact (group_elem _ _ _ _ Hin).
Qed.

Lemma rollups_keys {V} (key : A -> K) (reduce : list A -> V) (values : list A) :
  map fst (D3.rollups values reduce key) = D3.rollup_keys values key.
Proof.
  unfold D3.rollups, D3.rollup_keys. rewrite map_map. reflexivity.
Qed.

Lemma upsert_sizes (k : K) (x : A) (groups : list (K * list A)) :
  sumNat (map (fun g => length (snd g)) (D3.upsert k x groups))
  = S (sumNat (map (fun g => length (snd g)) groups)).
Proof.
  unfold sumNat.
  induction groups as [| [k' xs] rest IH]; cbn; [reflexivity |].
  destruct (decide (k' = k)); cbn.
  - rewrite length_app. cbn. lia.
  - rewrite IH. lia.
Qed.

(** The groups share out the values: their sizes add up to the number of
    values. *)
Lemma group_sizes (key : A -> K) (values : list A) :
  sumNat (map (fun g => length (snd g)) (D3.group values key)) = length values.
Proof.
  unfold D3.group.
  assert (Hgen : forall acc,
             sumNat (map (fun g => length (snd g))
                         (fold_left (fun g x => D3.upsert (key x) x g) values acc))
             = (sumNat (map (fun g => length (snd g)) acc) + length values)%nat).
  { induction values as [| v values IH]; intros acc; cbn [fold_left length].
    - lia.
    - rewrite IH, upsert_sizes. lia. }
  rewrite Hgen. reflexivity.
Qed.

End GroupContents.

Section SortedKeys.
Import JsArray.

Lemma sumNat_perm (l l' : list nat) : l ≡ₚ l' -> sumNat l = sumNat l'.
Proof.
  unfold sumNat. induction 1; cbn; lia.
Qed.

(** Sorting records by a key sorts their keys. *)
Lemma sort_by_key {A} (key : A -> timeValue) (l : list A) :
  map key (sort (fun a b => tvSub (key a) (key b)) l) = sort tvSub (map key l).
Proof.
  induction l as [| x l IH]; [reflexivity |].
  change (sort (fun a b => tvSub (key a) (key b)) (x :: l))
    with (insert (fun a b => tvSub (key a) (key b)) x
            (sort (fun a b => tvSub (key a) (key b)) l)).
  change (sort tvSub (map key (x :: l)))
    with (insert tvSub (key x) (sort tvSub (map key l))).
  rewrite <- IH.
  generalize (sort (fun a b => tvSub (key a) (key b)) l). intros s.
  induction s as [| y s IHs]; [reflexivity |].
  cbn. unfold after.
  destruct (tvSub (key x) (key y)) as [v |]; [destruct (0 <? v) |]; cbn;
    rewrite ?IHs; reflexivity.
Qed.

(** Sorted distinct finite keys are strictly ascending. *)
Lemma sorted_strict (l : list timeValue) :
  StronglySorted tvLe l -> NoDup l -> StronglySorted tvLtP l.
Proof.
  induction 1 as [| x l Hs IH Hx]; intros Hnd; [constructor |].
  apply NoDup_cons in Hnd as [Hnin Hnd].
  constructor; [exact (IH Hnd) |].
  apply Forall_forall. intros y Hy.
  rewrite Forall_forall in Hx. specialize (Hx y Hy).
  destruct x as [a |], y as [b |]; cbn in *; try tauto.
  assert (a <> b) by (intros ->; tauto). lia.
Qed.

Lemma sort_strict (l : list timeValue) :
  Forall finite l -> NoDup l -> StronglySorted tvLtP (sort tvSub l).
Proof.
  intros Hf Hnd. apply sorted_strict.
  - apply sort_sorted. exact Hf.
  - rewrite sort_perm. exact Hnd.
Qed.

End SortedKeys.

(** ** Weekly velocity, burn-up and status breakdown: what the buckets hold *)

Section Buckets.
Import JsDate Dashboard DashboardViews.

Lemma filter_filter {A} (f g : A -> bool) (l : list A) :
  List.filter g (List.filter f l) = List.filter (fun x => f x && g x) l.
Proof.
  induction l as [| x l IH]; [reflexivity |].
  cbn. destruct (f x); cbn; [destruct (g x) |]; rewrite IH; reflexivity.
Qed.

Lemma filter_length_perm {A} (f : A -> bool) (l l' : list A) :
  l ≡ₚ l' -> length (List.filter f l) = length (List.filter f l').
Proof.
  induction 1 as [| x l l' _ IH | x y l | l l' l'' _ IH1 _ IH2]; cbn.
  - reflexivity.
  - destruct (f x); cbn; rewrite IH; reflexivity.
  - destruct (f x), (f y); reflexivity.
  - rewrite IH1. exact IH2.
Qed.

Lemma group_counts {A K} `{EqDecision K} (f : A -> bool) (key : A -> K)
    (values : list A) :
  sumNat (map (fun g : K * list A => length (List.filter f (snd g))) (D3.group values key))
  = length (List.filter f values).
Proof.
  unfold D3.group.
  assert (Hstep : forall k x groups,
             sumNat (map (fun g : K * list A => length (List.filter f (snd g)))
                         (D3.upsert k x groups))
             = (sumNat (map (fun g : K * list A => length (List.filter f (snd g))) groups)
                + length (List.filter f [x]))%nat).
  { intros k x groups. unfold sumNat.
    induction groups as [| [k' xs] rest IH]; cbn [D3.upsert map foldr snd].
    - cbn. lia.
    - destruct (decide (k' = k)); cbn [map foldr snd].
      + rewrite List.filter_app, length_app. lia.
      + rewrite IH. lia. }
  assert (Hgen : forall acc,
             sumNat (map (fun g : K * list A => length (List.filter f (snd g)))
                         (fold_left (fun g x => D3.upsert (key x) x g) values acc))
             = (sumNat (map (fun g : K * list A => length (List.filter f (snd g))) acc)
                + length (List.filter f values))%nat).
  { induction values as [| v values IH]; intros acc; cbn [fold_left].
    - cbn. lia.
    - rewrite IH, Hstep. cbn. destruct (f v); cbn; lia. }
  rewrite Hgen. reflexivity.
Qed.

(** What one point of the weekly series counts. *)
Lemma weekly_point_count (h : Host) (data : list Item) (p : WeekPoint) :
  p ∈ weekly h data ->
  (0 < count p)%nat
  /\ count p
     = length (List.filter
                 (fun r => hasDate r && isDoneDay r
                           && bool_decide (utcWeekKey (dateOf h r) = week p))
                 data).
Proof.
  unfold weekly.
  set (vals := List.filter (fun r => hasDate r && isDoneDay r) data).
  set (key := fun d => utcWeekKey (dateOf h d)).
  set (cmp := fun a b => tvSub (week a) (week b)).
  set (points := map (fun kv => {| week := fst kv; count := snd kv |})
                     (D3.rollups vals (fun v => length v) key)).
  intros Hp. rewrite (sort_perm cmp points) in Hp.
  subst points. apply list_elem_of_fmap in Hp as ([k n] & -> & Hkn).
  apply rollups_elem in Hkn as [(x & Hx & Hk) ->]. cbn [count week fst snd].
  split.
  + pose proof (withKey_nonempty key vals x Hx) as Hne. rewrite Hk in Hne.
    match goal with
    | |- (0 < length ?l)%nat =>
        destruct l eqn:E;
          [exfalso; apply Hne; first [exact E | reflexivity] | cbn; lia]
    end.
  + unfold withKey. subst vals. rewrite filter_filter. reflexivity.
Qed.

(** X1. The weekly velocity shares out the done rows that have a date:
    the counts of its points add up to the number of these rows, no week
    occurs twice, and the count of a point is the number of these rows
    whose date falls in its week, which is never 0. *)
Theorem weekly_shares_out_done_rows (h : Host) (data : list Item) :
  sumNat (map count (weekly h data))
  = length (List.filter (fun r => hasDate r && isDoneDay r) data)
  /\ NoDup (map week (weekly h data))
  /\ (forall p, p ∈ weekly h data ->
        (0 < count p)%nat
        /\ count p
           = length (List.filter
                       (fun r => hasDate r && isDoneDay r
                                 && bool_decide (utcWeekKey (dateOf h r) = week p))
                       data)).
Proof.
  unfold weekly.
  set (vals := List.filter (fun r => hasDate r && isDoneDay r) data).
  set (key := fun d => utcWeekKey (dateOf h d)).
  set (cmp := fun a b => tvSub (week a) (week b)).
  set (points := map (fun kv => {| week := fst kv; count := snd kv |})
                     (D3.rollups vals (fun v => length v) key)).
  split; [| split].
  - rewrite (sumNat_perm _ (map count points))
      by (apply Permutation_map, sort_perm).
    subst points. unfold D3.rollups. rewrite !map_map. cbn.
    exact (group_sizes key vals).
  - rewrite (sort_perm cmp points). subst points. rewrite map_map. cbn.
    change (map (fun x : timeValue * nat => fst x)
                (D3.rollups vals (fun v => length v) key))
      with (map fst (D3.rollups vals (fun v => length v) key)).
    rewrite rollups_keys. apply rollup_keys_NoDup.
  - intros p Hp. exact (weekly_point_count h data p Hp).
Qed.

Lemma utcMonday_floor_monday (t : Z) :
  exists w, D3.utcMonday_floor (TV t) = TV w /\ mondayMidnight w
            /\ w <= t < w + 7 * msPerDay.
Proof.
  eexists. split; [reflexivity |]. unfold mondayMidnight, TimeWithinDay, WeekDay.
  rewrite Day_midnight. unfold Day, msPerDay.
  repeat split; Z.div_mod_to_equations; lia.
Qed.

(** A time is in the week of a Monday midnight exactly when it is floored
    to it. *)
Lemma utcMonday_floor_iff (w t : Z) :
  mondayMidnight w ->
  (D3.utcMonday_floor (TV t) = TV w <-> w <= t < w + 7 * msPerDay).
Proof.
  intros [Hmid Hmon]. unfold TimeWithinDay, WeekDay, Day in *.
  cbn [D3.utcMonday_floor]. unfold WeekDay, Day, msPerDay in *. split.
  - intros Heq. injection Heq as Heq. Z.div_mod_to_equations; lia.
  - intros Ht. f_equal. Z.div_mod_to_equations; lia.
Qed.

Lemma doneDatesValid_key (h : Host) (data : list Item) (r : Item) :
  doneDatesValid h data = true ->
  In r (List.filter (fun r => hasDate r && isDoneDay r) data) ->
  exists t, dateOf h r = TV t.
Proof.
  intros Hv Hr. apply List.filter_In in Hr as [Hr Hsel].
  unfold doneDatesValid in Hv. rewrite forallb_forall in Hv.
  specialize (Hv r Hr). rewrite Hsel in Hv. cbn in Hv.
  destruct (dateOf h r) as [t |]; [eauto | discriminate].
Qed.

(** X2. When every done row with a date has a valid one, the points of the
    weekly velocity are in strictly ascending order of their weeks, and
    every week is a Monday at 00:00 UTC. *)
Theorem weekly_ascending_mondays (h : Host) (data : list Item) :
  doneDatesValid h data = true ->
  StronglySorted tvLtP (map week (weekly h data))
  /\ (forall p, p ∈ weekly h data ->
        exists w, week p = TV w /\ mondayMidnight w).
Proof.
  intros Hv. unfold weekly.
  set (vals := List.filter (fun r => hasDate r && isDoneDay r) data).
  set (key := fun d => utcWeekKey (dateOf h d)).
  set (points := map (fun kv => {| week := fst kv; count := snd kv |})
                     (D3.rollups vals (fun v => length v) key)).
  assert (Hkeys : map week points = D3.rollup_keys vals key).
  { subst points. rewrite map_map. cbn. apply rollups_keys. }
  assert (Hmonday : forall k, k ∈ D3.rollup_keys vals key ->
                              exists w, k = TV w /\ mondayMidnight w).
  { intros k Hk. apply rollup_keys_elem in Hk as (r & Hr & <-).
    apply list_elem_of_In in Hr.
    destruct (doneDatesValid_key h data r Hv Hr) as [t Ht].
    subst key. cbn. rewrite Ht. unfold utcWeekKey.
    destruct (utcMonday_floor_monday t) as (w & Hw & Hm & _). eauto. }
  unfold Date in *. split.
  - rewrite (sort_by_key week points), Hkeys.
    apply sort_strict; [| apply rollup_keys_NoDup].
    apply Forall_forall. intros k Hk.
    destruct (Hmonday k Hk) as (w & -> & _). reflexivity.
  - intros p Hp. apply Hmonday. rewrite <- Hkeys.
    rewrite sort_perm in Hp. apply list_elem_of_fmap. eauto.
Qed.

Lemma weekly_ascending_mondays_witness :
  StronglySorted tvLtP
    (map week (weekly Samples.strictHost Samples.marchRows)).
Proof.
  exact (proj1 (weekly_ascending_mondays Samples.strictHost Samples.marchRows
                  ltac:(vm_compute; reflexivity))).
Defined.

End Buckets.

(** ** Burn-up totals, status breakdown, KPI bounds and week details *)

Section Views.
Import JsDate Dashboard DashboardViews.

Lemma seriesFrom_last (daily : list DayPoint) :
  forall (t d : nat) (p : BurnPoint),
    last (seriesFrom t d daily) = Some p ->
    cumTotal p = (t + sumNat (map added daily))%nat
    /\ cumDone p = (d + sumNat (map doneThatDay daily))%nat.
Proof.
  unfold sumNat.
  induction daily as [| x rest IH]; intros t d p Hp; [discriminate |].
  cbn [seriesFrom] in Hp. destruct rest as [| y rest'].
  - cbn in Hp. injection Hp as <-. cbn. lia.
  - change (last (seriesFrom (t + added x) (d + doneThatDay x) (y :: rest')) = Some p)
      in Hp.
    apply IH in Hp. destruct Hp as [-> ->]. cbn.
    rewrite !Nat.add_assoc. split; reflexivity.
Qed.

Lemma seriesFrom_done_le_total (daily : list DayPoint) :
  Forall (fun x => (doneThatDay x <= added x)%nat) daily ->
  forall (t d : nat) (p : BurnPoint),
    (d <= t)%nat -> p ∈ seriesFrom t d daily -> (cumDone p <= cumTotal p)%nat.
Proof.
  induction 1 as [| x rest Hx _ IH]; intros t d p Hdt Hp; [inversion Hp |].
  cbn [seriesFrom] in Hp. apply elem_of_cons in Hp as [-> | Hp].
  - cbn. lia.
  - eapply IH; [| exact Hp]. lia.
Qed.

(** X3. In the cumulative burn-up no point has more done than total; the
    last point holds the number of rows with a date and the number of done
    rows with a date; and the series is empty exactly when no row has a
    date. *)
Theorem burnup_totals (h : Host) (data : list Item) :
  (forall p, p ∈ series h data -> (cumDone p <= cumTotal p)%nat)
  /\ (forall p, last (series h data) = Some p ->
        cumTotal p = length (List.filter hasDate data)
        /\ cumDone p = length (List.filter (fun r => hasDate r && isDoneDay r) data))
  /\ (series h data = [] <-> List.filter hasDate data = []).
Proof.
  unfold series, daily.
  set (vals := List.filter hasDate data).
  set (key := fun d => utcDayKey (dateOf h d)).
  set (red := fun v : list Item => (length v, length (List.filter isDoneDay v))).
  set (cmp := fun a b => tvSub (day a) (day b)).
  set (points := map (fun kv => {| day := fst kv; added := fst (snd kv);
                                   doneThatDay := snd (snd kv) |})
                     (D3.rollups vals red key)).
  assert (Hadded : sumNat (map added (JsArray.sort cmp points)) = length vals).
  { rewrite (sumNat_perm _ (map added points)) by (apply Permutation_map, sort_perm).
    subst points. unfold D3.rollups. rewrite !map_map. cbn.
    exact (group_sizes key vals). }
  assert (Hdone : sumNat (map doneThatDay (JsArray.sort cmp points))
                  = length (List.filter isDoneDay vals)).
  { rewrite (sumNat_perm _ (map doneThatDay points))
      by (apply Permutation_map, sort_perm).
    subst points. unfold D3.rollups. rewrite !map_map. cbn.
    exact (group_counts isDoneDay key vals). }
  split; [| split].
  - intros p Hp. apply (seriesFrom_done_le_total _) with (t := O) (d := O) in Hp;
      [exact Hp | | lia].
    apply Forall_forall. intros x Hx. rewrite sort_perm in Hx.
    subst points. apply list_elem_of_fmap in Hx as ([k [a b]] & -> & Hk).
    apply rollups_elem in Hk as [_ Heq]. subst red. cbn in Heq.
    injection Heq as -> ->. cbn. apply filter_length_le'.
  - intros p Hp. apply seriesFrom_last in Hp as [Ht Hd].
    rewrite Hadded in Ht. rewrite Hdone in Hd. cbn in Ht, Hd.
    split; [exact Ht |]. rewrite Hd. subst vals. rewrite filter_filter. reflexivity.
  - split.
    + intros Hnil.
      destruct (JsArray.sort cmp points) as [| x rest] eqn:Hs; [| discriminate Hnil].
      cbn in Hadded.
      destruct vals; [reflexivity | discriminate Hadded].
    + intros Hnil. subst points vals. rewrite Hnil. reflexivity.
Qed.

(** X4. The slices of the status donut share out all the rows: their
    counts add up to the number of rows, no label occurs twice, and a
    label has a slice exactly when some row has it (a row without a status
    has the label "Unknown"), with the number of these rows as count. *)
Theorem statuses_share_out_rows (data : list Item) :
  sumNat (map snd (statuses data)) = length data
  /\ NoDup (map fst (statuses data))
  /\ (forall label n,
        (label, n) ∈ statuses data
        <-> (0 < n)%nat
            /\ n = length (List.filter
                            (fun d => bool_decide (default "Unknown" (status d) = label))
                            data)).
Proof.
  unfold statuses.
  set (key := fun d : Item => default "Unknown" (status d)).
  split; [| split].
  - unfold D3.rollups. rewrite map_map. cbn. exact (group_sizes key data).
  - rewrite rollups_keys. apply rollup_keys_NoDup.
  - intros label n. rewrite rollups_elem. fold (withKey key label data). split.
    + intros [(x & Hx & Hk) ->]. split; [| reflexivity].
      pose proof (withKey_nonempty key data x Hx) as Hne. rewrite Hk in Hne.
      cbv beta.
      match goal with
      | |- (0 < length ?l)%nat =>
          destruct l eqn:E;
            [exfalso; apply Hne; first [exact E | reflexivity] | cbn; lia]
      end.
    + intros [Hpos ->]. split; [| reflexivity].
      cbv beta in Hpos.
      assert (Hex : exists x, In x (withKey key label data)).
      { match type of Hpos with
        | (0 < length ?l)%nat =>
            change (exists x, In x l);
            destruct l as [| x rest]; [cbn in Hpos; lia | exists x; left; reflexivity]
        end. }
      destruct Hex as [x Hin].
      apply List.filter_In in Hin as [Hin Hk].
      exists x. split; [apply list_elem_of_In; exact Hin |].
      apply bool_decide_eq_true_1 in Hk. exact Hk.
Qed.

(** *** KPI bounds *)

Lemma streakLoop_bound (doneSet : gset timeValue) (fuel : nat) :
  forall (cursor : Date) (s r : nat),
    streakLoop fuel doneSet cursor s = Some r -> (s <= r < s + fuel)%nat.
Proof.
  induction fuel as [| fuel IH]; intros cursor s r Hr; [discriminate |].
  cbn [streakLoop] in Hr.
  destruct (bool_decide _).
  - apply IH in Hr. lia.
  - injection Hr as <-. lia.
Qed.

Lemma rollup_keys_length {A K} `{EqDecision K} (key : A -> K) (values : list A) :
  (length (D3.rollup_keys values key) <= length values)%nat.
Proof.
  unfold D3.rollup_keys, D3.group.
  assert (Hgen : forall acc,
             (length (map fst (fold_left (fun g x => D3.upsert (key x) x g) values acc))
              <= length (map fst acc) + length values)%nat).
  { induction values as [| v values IH]; intros acc; cbn [fold_left length]; [lia |].
    specialize (IH (D3.upsert (key v) v acc)). rewrite upsert_keys in IH.
    destruct (decide (key v ∈ map fst acc)); [lia |].
    rewrite length_app in IH. cbn in IH. lia. }
  specialize (Hgen []). cbn in Hgen. exact Hgen.
Qed.

(** X5. The KPIs, when they are produced: the total is the number of rows,
    done and open add up to it, the completion is a percentage between 0
    and 100, and the streak is at most the number of done rows. *)
Theorem kpis_bounds (h : Host) (rows : list Item) (k : KPIs) :
  kpis h rows = Some k ->
  total k = length rows
  /\ (done k <= total k)%nat
  /\ (open k + done k = total k)%nat
  /\ 0 <= completion k <= 100
  /\ (streak k <= done k)%nat.
Proof.
  unfold kpis. intros Hk.
  destruct (streakOf _) as [s |] eqn:Hs; [| discriminate].
  injection Hk as <-. cbn [total done open completion streak].
  pose proof (filter_length_le' isDoneDay rows) as Hle.
  split; [reflexivity |]. split; [exact Hle |]. split; [lia |].
  split; [apply completionOf_bounds; exact Hle |].
  unfold streakOf, JsArray.lastOf in Hs.
  assert (Hlen : (length (doneDayKeys h (List.filter isDoneDay rows))
                  <= length (List.filter isDoneDay rows))%nat).
  { unfold doneDayKeys. rewrite sort_perm.
    etransitivity; [apply rollup_keys_length | apply filter_length_le']. }
  destruct (last _) as [m |].
  - apply streakLoop_bound in Hs. lia.
  - injection Hs as <-. lia.
Qed.

Lemma kpis_bounds_witness :
  (2 <= 5)%nat /\ 0 <= 83 <= 100.
Proof.
  destruct (kpis_bounds Samples.strictHost Samples.marchRows
              {| total := 6; done := 5; open := 1; completion := 83; streak := 2 |}
              ltac:(vm_compute; reflexivity))
    as (_ & _ & _ & Hc & Hs).
  split; [exact Hs | exact Hc].
Defined.

End Views.

(** ** Week details *)

Section WeekDetails.
Import JsString JsDate Dashboard DashboardViews.

(** The test of [handleSelectWeek] on a row, for the week of a valid
    date: the row has a date, and that date is floored to the same
    Monday. *)
Lemma in_week_iff (h : Host) (t0 : Z) (r : Item) :
  (if negb (hasDate r) then false
   else match parseUTC h (date r) with
        | None => false
        | Some dt =>
            tvGe dt (D3.utcMonday_floor (TV t0))
            && tvLt dt (utcMonday_offset (D3.utcMonday_floor (TV t0)) 1)
        end) = true
  <-> hasDate r = true /\ utcWeekKey (dateOf h r) = utcWeekKey (TV t0).
Proof.
  destruct (utcMonday_floor_monday t0) as (w & Hw & Hmon & _).
  unfold utcWeekKey. rewrite Hw. cbn [utcMonday_offset].
  destruct (hasDate r) eqn:Hd; cbn [negb]; [| split; [discriminate | tauto]].
  assert (Hsome : exists dt, parseUTC h (date r) = Some dt).
  { unfold hasDate, truthyOpt in Hd. destruct (date r) as [s |]; [| discriminate].
    apply parseUTC_some. intros ->. discriminate Hd. }
  destruct Hsome as [dt Hdt]. unfold dateOf. rewrite Hdt. cbn [default].
  destruct dt as [t |]; cbn [tvGe tvLt].
  - rewrite (utcMonday_floor_iff w t Hmon).
    rewrite andb_true_iff, Z.leb_le, Z.ltb_lt. intuition lia.
  - split; [discriminate | intros [_ Hk]; discriminate Hk].
Qed.

(** X6. The week details of a valid date: the rows of the dialog are the
    rows that have a date whose week (Monday-based, UTC) is the week of
    that date, as many as there are among the rows, in ascending order of
    their dates.  For an invalid date the dialog has no rows. *)
Theorem handleSelectWeek_rows (h : Host) (rows : list Item) (t0 : Z) :
  (forall r, r ∈ handleSelectWeek h rows (TV t0)
             <-> r ∈ rows /\ hasDate r = true
                 /\ utcWeekKey (dateOf h r) = utcWeekKey (TV t0))
  /\ StronglySorted tvLe (map (dateOf h) (handleSelectWeek h rows (TV t0)))
  /\ length (handleSelectWeek h rows (TV t0))
     = length (List.filter
                 (fun r => hasDate r
                           && bool_decide (utcWeekKey (dateOf h r) = utcWeekKey (TV t0)))
                 rows)
  /\ handleSelectWeek h rows NaN = [].
Proof.
  assert (Hmem : forall r, r ∈ handleSelectWeek h rows (TV t0)
             <-> r ∈ rows /\ hasDate r = true
                 /\ utcWeekKey (dateOf h r) = utcWeekKey (TV t0)).
  { intros r. unfold handleSelectWeek. rewrite sort_perm.
    rewrite list_elem_of_In, List.filter_In, in_week_iff, <- list_elem_of_In.
    reflexivity. }
  split; [exact Hmem |]. split; [| split].
  - unfold handleSelectWeek at 1. unfold Date in *.
    rewrite (sort_by_key (dateOf h)). apply sort_sorted.
    apply Forall_forall. intros k Hk.
    apply list_elem_of_fmap in Hk as (r & -> & Hr).
    apply list_elem_of_In, List.filter_In in Hr as [_ Hsel].
    apply in_week_iff in Hsel as [_ Hkey].
    destruct (dateOf h r); [reflexivity | discriminate Hkey].
  - unfold handleSelectWeek. rewrite (Permutation_length (sort_perm _ _)).
    f_equal. apply List.filter_ext. intros r.
    apply eq_true_iff_eq. rewrite in_week_iff, andb_true_iff, bool_decide_eq_true.
    reflexivity.
  - clear Hmem. unfold handleSelectWeek. cbn [D3.utcMonday_floor utcMonday_offset].
    induction rows as [| r rows IH]; [reflexivity |].
    cbn [List.filter].
    replace (if negb (hasDate r) then false
             else match parseUTC h (date r) with
                  | Some dt => tvGe dt NaN && tvLt dt NaN
                  | None => false
                  end) with false; [exact IH |].
    destruct (negb (hasDate r)); [reflexivity |].
    destruct (parseUTC h (date r)) as [[t |] |]; reflexivity.
Qed.

(** X7. The week details of a point of the weekly velocity hold as many
    done rows as the point counts. *)
Theorem week_details_match_velocity (h : Host) (rows : list Item)
    (p : WeekPoint) (w : Z) :
  p ∈ weekly h rows -> week p = TV w ->
  count p = length (List.filter isDoneDay (handleSelectWeek h rows (TV w))).
Proof.
  intros Hp Hw.
  destruct (weekly_point_count h rows p Hp) as [Hpos Hlen].
  rewrite Hlen. rewrite Hw in Hlen |- *.
  assert (Hmon : utcWeekKey (TV w) = TV w).
  { rewrite Hlen in Hpos. clear Hlen.
    destruct (List.filter _ rows) as [| r rest] eqn:Hf; [cbn in Hpos; lia |].
    assert (Hin : In r (r :: rest)) by (left; reflexivity).
    rewrite <- Hf in Hin. apply List.filter_In in Hin as [_ Hsel].
    rewrite !andb_true_iff, bool_decide_eq_true in Hsel.
    destruct Hsel as [_ Hkey].
    destruct (dateOf h r) as [t |]; [| discriminate Hkey].
    destruct (utcMonday_floor_monday t) as (w' & Hw' & Hm & _).
    unfold utcWeekKey in *. rewrite Hw' in Hkey. injection Hkey as ->.
    apply (utcMonday_floor_iff w w Hm). unfold msPerDay. lia. }
  unfold handleSelectWeek.
  rewrite (filter_length_perm isDoneDay _ _ (sort_perm _ _)).
  rewrite filter_filter. f_equal. apply List.filter_ext. intros r.
  apply eq_true_iff_eq.
  rewrite !andb_true_iff, in_week_iff, bool_decide_eq_true, Hmon. tauto.
Qed.

Lemma week_details_match_velocity_witness :
  (3 = length (List.filter isDoneDay
                 (handleSelectWeek Samples.strictHost Samples.marchRows
                    (TV 1709510400000))))%nat.
Proof.
  exact (week_details_match_velocity Samples.strictHost Samples.marchRows
           {| week := TV 1709510400000; count := 3 |} 1709510400000
           ltac:(apply list_elem_of_In; vm_compute; tauto) eq_refl).
Defined.

End WeekDetails.

(** ** Ingestion *)

Section Ingestion.
Import JsString Notion.

(** The loop over the pages returns the rows of all the pages after the
    ones it starts with, unless a query fails. *)
Lemma fetchAll_rows (src : Source) :
  forall rows : list Page,
    fetchAll src rows
    = match sourceFailure src with
      | Some msg => Throws msg
      | None => Returns (rows ++ sourceRows src)
      end.
Proof.
  induction src as [msg | results | results rest IH]; intros rows; cbn.
  - reflexivity.
  - reflexivity.
  - rewrite IH. destruct (sourceFailure rest); [reflexivity |].
    rewrite <- app_assoc. reflexivity.
Qed.

Lemma nonEmptyString_some (v : option string) (s : string) :
  nonEmptyString v = Some s <-> v = Some s /\ s <> "".
Proof.
  unfold nonEmptyString. destruct v as [[| c s'] |]; cbn.
  - split; [discriminate | intros [E Hne]; injection E as <-; contradiction].
  - replace (1 <=? Z.of_nat (S (String.length s'))) with true
      by (symmetry; apply Z.leb_le; lia).
    split.
    + intros E. injection E as <-. split; [reflexivity | discriminate].
    + intros [E _]. exact E.
  - split; [discriminate | intros [E _]; discriminate E].
Qed.

Lemma parseEnv_returns (w : World) (key db : string) :
  parseEnv w = Returns (key, db)
  <-> nonEmptyString (env_NOTION_API_KEY w) = Some key
      /\ nonEmptyString (env_NOTION_DATABASE_ID w) = Some db.
Proof.
  unfold parseEnv.
  destruct (nonEmptyString (env_NOTION_API_KEY w)) as [k |],
    (nonEmptyString (env_NOTION_DATABASE_ID w)) as [d |]; split;
    try discriminate; try (intros [E1 E2]; discriminate).
  - intros E. injection E as <- <-. split; reflexivity.
  - intros [E1 E2]. injection E1 as <-. injection E2 as <-. reflexivity.
Qed.

(** X8. The ingestion is all or nothing.  It returns rows exactly when both
    environment variables are non-empty and no query of the run fails, and
    then it returns one row for each page of every page of results, in
    their order, none left out.  When a query fails, its error is thrown
    and the rows fetched before are dropped.  When a variable is missing
    or empty, the error of [parseEnv] is thrown, also when the database is
    given by the override. *)
Theorem getProgressData_all_or_nothing (w : World) (override : option string) :
  (forall data,
      getProgressData w override = Returns data
      <-> exists key db,
            env_NOTION_API_KEY w = Some key /\ key <> ""
            /\ env_NOTION_DATABASE_ID w = Some db /\ db <> ""
            /\ sourceFailure (notion w key (default db override)) = None
            /\ data = map (mapPage (server w))
                          (sourceRows (notion w key (default db override))))
  /\ (forall key db msg,
        env_NOTION_API_KEY w = Some key -> key <> ""
        -> env_NOTION_DATABASE_ID w = Some db -> db <> ""
        -> sourceFailure (notion w key (default db override)) = Some msg
        -> getProgressData w override = Throws msg)
  /\ (nonEmptyString (env_NOTION_API_KEY w) = None
      \/ nonEmptyString (env_NOTION_DATABASE_ID w) = None
      -> exists msg, getProgressData w override = Throws msg
                     /\ parseEnv w = Throws msg).
Proof.
  split; [| split].
  - intros data. unfold getProgressData. split.
    + destruct (parseEnv w) as [[key db] | msg] eqn:Henv; [| discriminate].
      apply parseEnv_returns in Henv as [Hk Hd].
      apply nonEmptyString_some in Hk as [Hk Hk'], Hd as [Hd Hd'].
      rewrite fetchAll_rows.
      destruct (sourceFailure _) eqn:Hf; [discriminate |].
      intros E. injection E as <-.
      exists key, db. repeat (split; [assumption |]). reflexivity.
    + intros (key & db & Hk & Hk' & Hd & Hd' & Hf & ->).
      assert (Henv : parseEnv w = Returns (key, db)).
      { apply parseEnv_returns. split; apply nonEmptyString_some; tauto. }
      rewrite Henv, fetchAll_rows, Hf. reflexivity.
  - intros key db msg Hk Hk' Hd Hd' Hf. unfold getProgressData.
    assert (Henv : parseEnv w = Returns (key, db)).
    { apply parseEnv_returns. split; apply nonEmptyString_some; tauto. }
    rewrite Henv, fetchAll_rows, Hf. reflexivity.
  - unfold getProgressData, parseEnv.
    destruct (nonEmptyString (env_NOTION_API_KEY w)),
      (nonEmptyString (env_NOTION_DATABASE_ID w));
      intros [H | H]; try discriminate H; eexists; split; reflexivity.
Qed.

End Ingestion.

(** ** The record mapper *)

Section Mapper.
Import JsString Notion.

Lemma isWhiteSpace_lowerChar (c : ascii) :
  isWhiteSpace (lowerChar c) = isWhiteSpace c.
Proof.
  destruct c as [b0 b1 b2 b3 b4 b5 b6 b7].
  destruct b0, b1, b2, b3, b4, b5, b6, b7; reflexivity.
Qed.

Lemma trimStart_toLowerCase (s : string) :
  trimStart (toLowerCase s) = toLowerCase (trimStart s).
Proof.
  induction s as [| c s IH]; [reflexivity |].
  cbn [toLowerCase trimStart]. rewrite isWhiteSpace_lowerChar.
  destruct (isWhiteSpace c); [exact IH | reflexivity].
Qed.

Lemma trimEnd_toLowerCase (s : string) :
  trimEnd (toLowerCase s) = toLowerCase (trimEnd s).
Proof.
  induction s as [| c s IH]; [reflexivity |].
  cbn [toLowerCase trimEnd]. rewrite IH, isWhiteSpace_lowerChar.
  destruct (trimEnd s); cbn [toLowerCase]; [| reflexivity].
  destruct (isWhiteSpace c); reflexivity.
Qed.

(** Trimming and lowercasing commute. *)
Lemma trim_toLowerCase (s : string) :
  toLowerCase (trim s) = trim (toLowerCase s).
Proof.
  unfold trim. rewrite trimStart_toLowerCase, trimEnd_toLowerCase. reflexivity.
Qed.

(** A status counts as completed up to case and surrounding white space. *)
Lemma progressFromStatus_100 (status : option string) :
  progressFromStatus status = 100
  <-> trim (toLowerCase (default "" status)) = "completed".
Proof.
  unfold progressFromStatus. rewrite trim_toLowerCase.
  destruct (String.eqb_spec (trim (toLowerCase (default "" status))) "completed");
    split; intros H; try reflexivity; try assumption; [discriminate | contradiction].
Qed.

Lemma deriveOverallStatus_Done (py llm : option string) :
  deriveOverallStatus py llm = Done
  <-> toLowerCase (default "" py) = "completed"
      /\ toLowerCase (default "" llm) = "completed".
Proof.
  unfold deriveOverallStatus.
  destruct (String.eqb_spec (toLowerCase (default "" py)) "completed") as [Ep | Ep];
    destruct (String.eqb_spec (toLowerCase (default "" llm)) "completed") as [El | El];
    cbn [andb negb]; rewrite ?andb_false_r.
  - tauto.
  - split; [| tauto].
    destruct (_ || _); [discriminate | discriminate].
  - split; [| tauto].
    destruct (_ || _); [discriminate | discriminate].
  - split; [| tauto].
    destruct (_ || _); [discriminate |]. destruct (_ || _); discriminate.
Qed.

(** X9. Status and progress of a mapped row.  A row with the status Done
    has 100 in both topics and overall.  A row with 100 overall has the
    status Done or Not Started (the percentages trim the raw statuses, the
    derived status does not).  The dashboard counts the row as a done day
    exactly when one of the two topics is at 100.  Each topic percentage
    is 0 or 100. *)
Theorem mapPage_status_and_progress (h : Host) (page : Page) :
  let r := mapPage h page in
  (status r = Done ->
     pythonPct r = 100 /\ llmPct r = 100 /\ overallPct r = 100)
  /\ (overallPct r = 100 -> status r = Done \/ status r = NotStarted)
  /\ (Dashboard.isDoneDay (Dashboard.itemOfRecord r) = true
      <-> pythonPct r = 100 \/ llmPct r = 100)
  /\ (pythonPct r = 0 \/ pythonPct r = 100)
  /\ (llmPct r = 0 \/ llmPct r = 100).
Proof.
  cbn zeta. unfold mapPage.
  cbn [status pythonPct llmPct overallPct Dashboard.itemOfRecord
       Dashboard.isDoneDay Dashboard.overallPct Dashboard.pythonPct
       Dashboard.llmPct Dashboard.orZero].
  set (py := asPlainText _). set (llm := asPlainText _).
  assert (Hpy : progressFromStatus py = 0 \/ progressFromStatus py = 100)
    by (unfold progressFromStatus; destruct (String.eqb _ _); tauto).
  assert (Hllm : progressFromStatus llm = 0 \/ progressFromStatus llm = 100)
    by (unfold progressFromStatus; destruct (String.eqb _ _); tauto).
  split; [| split; [| split; [| split]]].
  - intros Hdone. apply deriveOverallStatus_Done in Hdone as [Ep El].
    assert (Hp : progressFromStatus py = 100)
      by (apply progressFromStatus_100; rewrite Ep; reflexivity).
    assert (Hl : progressFromStatus llm = 100)
      by (apply progressFromStatus_100; rewrite El; reflexivity).
    rewrite Hp, Hl. repeat split.
  - intros H100.
    assert (Hboth : progressFromStatus py = 100 /\ progressFromStatus llm = 100).
    { destruct (Z.eqb_spec (progressFromStatus py) 100);
        destruct (Z.eqb_spec (progressFromStatus llm) 100);
        cbn [andb] in H100; try discriminate H100. tauto. }
    destruct Hboth as [Hp Hl].
    apply progressFromStatus_100 in Hp, Hl.
    unfold deriveOverallStatus.
    set (sPy := toLowerCase (default "" py)) in *.
    set (sLlm := toLowerCase (default "" llm)) in *.
    assert (Hno : forall x, trim x = "completed" ->
                    String.eqb x "in progress" = false
                    /\ String.eqb x "skipped" = false).
    { intros x Hx. split; apply String.eqb_neq; intros ->; discriminate Hx. }
    destruct (Hno sPy Hp) as [-> ->], (Hno sLlm Hl) as [-> ->].
    cbn [orb andb].
    destruct (String.eqb sPy "completed" && String.eqb sLlm "completed");
      [left | right]; reflexivity.
  - destruct Hpy as [-> | ->], Hllm as [-> | ->]; cbn; split; intros H;
      try reflexivity; try discriminate H; try tauto; destruct H; discriminate.
  - exact Hpy.
  - exact Hllm.
Qed.

(** X10. A row is read from the properties "Day", "Python Status",
    "LLM Status", "Python Topic" and "LLM Topic", and from "Date" only
    when there is no "Day": two pages that agree on these give the same
    row. *)
Theorem mapPage_reads_named_properties (h : Host)
    (p q : gmap string PropertyValue) :
  p !! "Day" = q !! "Day" ->
  (p !! "Day" = None -> p !! "Date" = q !! "Date") ->
  p !! "Python Status" = q !! "Python Status" ->
  p !! "LLM Status" = q !! "LLM Status" ->
  p !! "Python Topic" = q !! "Python Topic" ->
  p !! "LLM Topic" = q !! "LLM Topic" ->
  mapPage h {| properties := Some p |} = mapPage h {| properties := Some q |}.
Proof.
  intros Hday Hdate Hps Hls Hpt Hlt. unfold mapPage.
  change (default ∅ (properties {| properties := Some p |})) with p.
  change (default ∅ (properties {| properties := Some q |})) with q.
  unfold FIELD_pythonStatus, FIELD_llmStatus, FIELD_pythonTopic, FIELD_llmTopic.
  rewrite Hps, Hls, Hpt, Hlt.
  assert (Hd : getFirstExistingProp p FIELD_dateCandidates
               = getFirstExistingProp q FIELD_dateCandidates).
  { unfold FIELD_dateCandidates. cbn [getFirstExistingProp].
    rewrite <- Hday. destruct (p !! "Day") as [v |] eqn:E; [reflexivity |].
    rewrite (Hdate eq_refl). reflexivity. }
  rewrite Hd. reflexivity.
Qed.

Lemma mapPage_reads_named_properties_witness :
  mapPage Samples.strictHost
    {| properties :=
         Some (<["Notes" := PNumber (Some {| printed := "7" |})]>
                 (<["Date" := PDate (Some {| start := "2020-01-01" |})]>
                    (default ∅ (properties
                       (Samples.samplePage (Some "2025-10-20") "Completed" "Skipped"))))) |}
  = mapPage Samples.strictHost
      (Samples.samplePage (Some "2025-10-20") "Completed" "Skipped").
Proof.
  apply (mapPage_reads_named_properties Samples.strictHost);
    first [ reflexivity | intros H; vm_compute in H; discriminate H ].
Defined.

End Mapper.

(** ** Dates from the mapper to the dashboard *)

Section MapperDates.
Import JsString JsDate Dashboard.

Ltac divmod := Z.div_mod_to_equations; lia.

Lemma era_day_month_length (doe : Z) :
  0 <= doe < 146097 ->
  forall yoe m d, civilOfEraDay doe = (yoe, m, d) ->
  d <= daysInMonth (yoe + marchShift m) m.
Proof.
  intros H yoe0 m0 d0. unfold civilOfEraDay.
  set (yoe := (doe - doe / 1460 + doe / 36524 - doe / 146096) / 365).
  set (doy := doe - (365 * yoe + yoe / 4 - yoe / 100)).
  set (mp := (5 * doy + 2) / 153).
  set (m := if mp <? 10 then mp + 3 else mp - 9).
  intros E. injection E as <- <- <-.
  assert (Hy : 0 <= yoe <= 399 /\ 0 <= doy <= 365) by (subst doy yoe; divmod).
  assert (Hleap : doy = 365 -> yoe mod 4 = 3 /\ (yoe mod 100 <> 99 \/ yoe = 399))
    by (subst doy yoe; divmod).
  assert (Hd : 153 * mp <= 5 * doy + 2 < 153 * mp + 153) by (subst mp; divmod).
  assert (Hm : 1 <= m <= 12 /\ mp = (if 2 <? m then m - 3 else m + 9)).
  { subst m. destruct (Z.ltb_spec mp 10);
      [destruct (Z.ltb_spec 2 (mp + 3)) | destruct (Z.ltb_spec 2 (mp - 9))]; lia. }
  clearbody m mp doy yoe. destruct Hm as [Hm ->].
  assert (Hcases : m = 1 \/ m = 2 \/ m = 3 \/ m = 4 \/ m = 5 \/ m = 6 \/ m = 7
                   \/ m = 8 \/ m = 9 \/ m = 10 \/ m = 11 \/ m = 12) by lia.
  unfold daysInMonth, marchShift, isLeap.
  destruct Hcases
    as [-> | [-> | [-> | [-> | [-> | [-> | [-> | [-> | [-> | [-> | [-> | ->]]]]]]]]]]];
    cbn in Hd |- *; try divmod.
  destruct (Z.eqb_spec ((yoe + 1) mod 4) 0);
    destruct (Z.eqb_spec ((yoe + 1) mod 100) 0);
    destruct (Z.eqb_spec ((yoe + 1) mod 400) 0); cbn; divmod.
Qed.

(** The calendar date of a day number is a date of the calendar. *)
Lemma civilFromDays_valid (n : Z) :
  exists y m d,
    civilFromDays n = (y, m, d)
    /\ 1 <= m <= 12 /\ 1 <= d <= daysInMonth y m
    /\ daysFromCivil y m d = n.
Proof.
  destruct (daysFromCivil_civilFromDays n) as (y & m & d & Hc & Hm & Hd & Hn & _).
  exists y, m, d. split; [exact Hc |]. split; [exact Hm |].
  split; [| exact Hn]. split; [lia |].
  unfold civilFromDays in Hc.
  assert (Hdoe : 0 <= (n + 719468) mod 146097 < 146097)
    by (apply Z.mod_pos_bound; lia).
  destruct (civilOfEraDay ((n + 719468) mod 146097)) as [[yoe m'] d'] eqn:E.
  injection Hc as Hy -> ->.
  pose proof (era_day_month_length _ Hdoe _ _ _ E) as Hlen.
  unfold daysInMonth in *. rewrite <- Hy.
  replace (yoe + (n + 719468) / 146097 * 400 + (if m <=? 2 then 1 else 0))
    with (yoe + marchShift m + (n + 719468) / 146097 * 400)
    by (unfold marchShift; lia).
  rewrite isLeap_period. exact Hlen.
Qed.

Lemma num3_digits (n : Z) :
  0 <= n <= 999 ->
  num3 (digitChar (n / 100)) (digitChar (n / 10)) (digitChar n) = n.
Proof.
  intros Hn. unfold num3, num2.
  rewrite !(proj2 (digitChar_spec _)). divmod.
Qed.

(** The text of a date and a time of day in the Date Time String Format
    is read as that date and time. *)
Lemma parseIsoDateTime_fields (y m d hh mi ss ms : Z) :
  0 <= y <= 9999 -> 1 <= m <= 12 -> 1 <= d <= daysInMonth y m ->
  0 <= hh <= 23 -> 0 <= mi <= 59 -> 0 <= ss <= 59 -> 0 <= ms <= 999 ->
  parseIsoDateTime
    (pad4 y +:+ "-" +:+ pad2 m +:+ "-" +:+ pad2 d +:+ "T"
     +:+ pad2 hh +:+ ":" +:+ pad2 mi +:+ ":" +:+ pad2 ss +:+ "." +:+ pad3 ms +:+ "Z")
  = Some (MakeDate (MakeDay y (m - 1) d) (MakeTime hh mi ss ms)).
Proof.
  intros Hy Hm Hd Hhh Hmi Hss Hms.
  assert (Hd31 : d <= 31).
  { unfold daysInMonth in Hd.
    destruct (m =? 2); [destruct (isLeap y) |];
      [| | destruct ((m =? 4) || (m =? 6) || (m =? 9) || (m =? 11))]; lia. }
  unfold pad4, pad3, pad2. cbv [String.append].
  unfold parseIsoDateTime, parseIsoTime, parseIsoZone. cbv beta iota.
  rewrite !(proj1 (digitChar_spec _)).
  replace (isChar "-" "-") with true by reflexivity.
  replace (isChar "T" "T") with true by reflexivity.
  replace (isChar ":" ":") with true by reflexivity.
  replace (isChar "." ".") with true by reflexivity.
  replace (isChar "Z" "Z") with true by reflexivity.
  rewrite (num4_digits y Hy), (num2_digits m), (num2_digits d), (num2_digits hh),
    (num2_digits mi), (num2_digits ss), (num3_digits ms Hms) by lia.
  cbn [andb].
  replace (1 <=? m) with true by (symmetry; apply Z.leb_le; lia).
  replace (m <=? 12) with true by (symmetry; apply Z.leb_le; lia).
  replace (1 <=? d) with true by (symmetry; apply Z.leb_le; lia).
  replace (d <=? daysInMonth y m) with true by (symmetry; apply Z.leb_le; lia).
  replace (hh <=? 23) with true by (symmetry; apply Z.leb_le; lia).
  replace (mi <=? 59) with true by (symmetry; apply Z.leb_le; lia).
  replace (ss <=? 59) with true by (symmetry; apply Z.leb_le; lia).
  cbn [andb]. rewrite Z.sub_0_r. reflexivity.
Qed.

(** [toISOString] of a time of a year of four digits. *)
Lemma toISOString_four_digits (t : Z) :
  0 <= YearFromTime t <= 9999 ->
  exists y m d hh mi ss ms,
    toISOString t
    = pad4 y +:+ "-" +:+ pad2 m +:+ "-" +:+ pad2 d +:+ "T"
      +:+ pad2 hh +:+ ":" +:+ pad2 mi +:+ ":" +:+ pad2 ss +:+ "." +:+ pad3 ms +:+ "Z"
    /\ parseIsoDateTime (toISOString t) = Some t.
Proof.
  intros Hy. unfold YearFromTime in Hy. unfold toISOString.
  destruct (civilFromDays_valid (Day t)) as (y & m & d & Hc & Hm & Hd & Hn).
  rewrite Hc in Hy |- *.
  replace ((0 <=? y) && (y <=? 9999)) with true
    by (symmetry; apply andb_true_iff; split; apply Z.leb_le; lia).
  set (tm := TimeWithinDay t).
  assert (Htm : 0 <= tm < 86400000)
    by (subst tm; unfold TimeWithinDay, msPerDay; divmod).
  eexists y, m, d, _, _, _, _. split; [reflexivity |].
  rewrite parseIsoDateTime_fields; try assumption; try divmod.
  f_equal. rewrite MakeDay_civil by exact Hm. rewrite Hn.
  unfold MakeDate, MakeTime.
  replace ((tm / 3600000 * 60 + tm / 60000 mod 60) * 60 + tm / 1000 mod 60)
    with (tm / 1000) by divmod.
  replace (tm / 1000 * 1000 + tm mod 1000) with tm by divmod.
  subst tm. unfold Day, TimeWithinDay, msPerDay. divmod.
Qed.

Lemma isDigit_not_alpha (c : ascii) : isDigit c = true -> isAlpha c = false.
Proof.
  unfold isDigit, isAlpha, between. intros H.
  apply andb_true_iff in H as [H1 H2]. apply Z.leb_le in H1, H2.
  apply orb_false_iff. split; apply andb_false_iff; left; apply Z.leb_gt; lia.
Qed.

(** The dashboard's reading of a text [toISOString] printed. *)
Lemma parseUTC_toISOString (h : Host) (t : Z) :
  0 <= YearFromTime t <= 9999 ->
  parseUTC h (Some (toISOString t))
  = Some (TV (if 2015 <? YearFromTime t then t
              else Date_UTC (getUTCFullYear (now h)) (getUTCMonth (now h))
                            (getUTCDate (now h)))).
Proof.
  intros Hy.
  destruct (toISOString_four_digits t Hy)
    as (y & m & d & hh & mi & ss & ms & Htext & Hparse).
  unfold parseUTC, Date_parse. rewrite Hparse. unfold getUTCFullYear at 1.
  rewrite Htext. unfold pad4, pad3, pad2. cbv [String.append].
  cbn [truthy String.eqb negb].
  unfold isoDayPattern. cbv beta iota.
  destruct (2015 <? YearFromTime t); [reflexivity |].
  unfold monthDayPattern, monthDayCore, threeLetters. cbv beta iota.
  rewrite (isDigit_not_alpha _ (proj1 (digitChar_spec (y / 1000)))).
  reflexivity.
Qed.

(** X11. A date from the mapper, on the dashboard.  A non-empty raw text
    that the server reads as a time [t] of a year from 0 to 9999 is sent
    as [toISOString] of [t]; normalising that text again changes nothing;
    and the dashboard reads it as [t] itself when the year is after 2015,
    and as today's UTC midnight otherwise. *)
Theorem toISODate_on_dashboard (hs hb : Host) (s : string) (t : Z) :
  s <> "" -> Date_parse hs s = TV t -> 0 <= YearFromTime t <= 9999 ->
  Notion.toISODate hs (Some s) = Some (toISOString t)
  /\ Notion.toISODate hs (Notion.toISODate hs (Some s))
     = Notion.toISODate hs (Some s)
  /\ parseUTC hb (Notion.toISODate hs (Some s))
     = Some (TV (if 2015 <? YearFromTime t then t else todayUTC hb)).
Proof.
  intros Hs Hparse Hy.
  assert (Hiso : Notion.toISODate hs (Some s) = Some (toISOString t)).
  { unfold Notion.toISODate.
    replace (truthy s) with true
      by (symmetry; apply negb_true_iff, String.eqb_neq; exact Hs).
    cbn [negb]. rewrite Hparse. reflexivity. }
  destruct (toISOString_four_digits t Hy)
    as (y & m & d & hh & mi & ss & ms & Htext & Hback).
  split; [exact Hiso |]. split.
  - rewrite Hiso. unfold Notion.toISODate, Date_parse. rewrite Hback.
    replace (truthy (toISOString t)) with true; [reflexivity |].
    rewrite Htext. reflexivity.
  - rewrite Hiso. apply parseUTC_toISOString. exact Hy.
Qed.

Lemma toISODate_on_dashboard_witness :
  Notion.toISODate Samples.strictHost (Some "2015-12-31T23:30:00-01:00")
  = Some "2016-01-01T00:30:00.000Z"
  /\ parseUTC Samples.strictHost (Some "2016-01-01T00:30:00.000Z")
     = Some (TV 1451608200000).
Proof.
  destruct (toISODate_on_dashboard Samples.strictHost Samples.strictHost
              "2015-12-31T23:30:00-01:00" 1451608200000
              ltac:(discriminate) ltac:(reflexivity)
              ltac:(split; apply Z.leb_le; reflexivity))
    as (Hiso & _ & Hdash).
  split; [exact Hiso |]. rewrite Hiso in Hdash. exact Hdash.
Defined.

Lemma filtered_subset (h : Host) (dateRange : string) (data : list Item) (r : Item) :
  r ∈ filtered h dateRange data -> r ∈ data.
Proof.
  unfold filtered. destruct data as [| d data]; [tauto |].
  destruct (rangeStart h dateRange); [| tauto].
  rewrite !list_elem_of_In, List.filter_In. tauto.
Qed.



End MapperDates.

(** ** The date-range filter *)

Section RangeFilter.
Import JsString Dashboard.

Lemma filter_sublist {A} (f : A -> bool) (l : list A) :
  List.filter f l `sublist_of` l.
Proof.
  induction l as [| x l IH]; [constructor |].
  cbn. destruct (f x); [apply sublist_skip | apply sublist_cons]; exact IH.
Qed.

Lemma filter_idem {A} (f : A -> bool) (l : list A) :
  List.filter f (List.filter f l) = List.filter f l.
Proof.
  rewrite filter_filter. apply List.filter_ext. intros x. apply andb_diag.
Qed.

Lemma filtered_sublist (h : Host) (dateRange : string) (data : list Item) :
  filtered h dateRange data `sublist_of` data.
Proof.
  unfold filtered. destruct data as [| d data]; [reflexivity |].
  destruct (rangeStart h dateRange); [apply filter_sublist | reflexivity].
Qed.

(** X13. The date-range filter keeps rows in their order and drops the
    others; filtering twice is filtering once; a range other than "4w",
    "12w" and "ytd" keeps every row; and a row without a date is kept by
    such a range only. *)
Theorem filtered_rows (h : Host) (dateRange : string) (data : list Item) :
  filtered h dateRange data `sublist_of` data
  /\ filtered h dateRange (filtered h dateRange data) = filtered h dateRange data
  /\ (dateRange <> "4w" /\ dateRange <> "12w" /\ dateRange <> "ytd"
      -> filtered h dateRange data = data)
  /\ (forall r, r ∈ filtered h dateRange data
                -> hasDate r = false
                -> dateRange <> "4w" /\ dateRange <> "12w" /\ dateRange <> "ytd").
Proof.
  split; [apply filtered_sublist |]. split; [| split].
  - unfold filtered. destruct data as [| d data]; [reflexivity |].
    destruct (rangeStart h dateRange) as [start |]; [| reflexivity].
    destruct (List.filter _ (d :: data)) eqn:Hf; [reflexivity |].
    rewrite <- Hf. apply filter_idem.
  - intros Hno. apply (proj2 (rangeStart_none h dateRange)) in Hno.
    unfold filtered. rewrite Hno. destruct data; reflexivity.
  - intros r Hr Hnodate. apply (proj1 (rangeStart_none h dateRange)).
    unfold filtered in Hr. destruct data as [| d data]; [inversion Hr |].
    destruct (rangeStart h dateRange) as [start |]; [| reflexivity].
    apply list_elem_of_In, List.filter_In in Hr as [_ Hkeep].
    rewrite Hnodate in Hkeep. discriminate Hkeep.
Qed.

(** X14. When the week twelve weeks back is not after the week four weeks
    back, the rows of the last 4 weeks are among the rows of the last 12
    weeks, in the same order, and are the rows of the last 4 weeks of
    these. *)
Theorem filtered_nested_ranges (h : Host) (data : list Item) :
  timeWeek_offset h (timeWeek_floor h (now h)) (-12)
  <= timeWeek_offset h (timeWeek_floor h (now h)) (-4) ->
  filtered h "4w" (filtered h "12w" data) = filtered h "4w" data
  /\ filtered h "4w" data `sublist_of` filtered h "12w" data.
Proof.
  intros Hle.
  assert (Hsame : filtered h "4w" (filtered h "12w" data) = filtered h "4w" data).
  { unfold filtered.
    change (rangeStart h "4w")
      with (Some (timeWeek_offset h (timeWeek_floor h (now h)) (-4))).
    change (rangeStart h "12w")
      with (Some (timeWeek_offset h (timeWeek_floor h (now h)) (-12))).
    set (s4 := timeWeek_offset h (timeWeek_floor h (now h)) (-4)) in *.
    set (s12 := timeWeek_offset h (timeWeek_floor h (now h)) (-12)) in *.
    assert (Hfilter :
              List.filter (fun d => if hasDate d then tvGe (dateOf h d) (TV s4) else false)
                (List.filter
                   (fun d => if hasDate d then tvGe (dateOf h d) (TV s12) else false)
                   data)
              = List.filter
                  (fun d => if hasDate d then tvGe (dateOf h d) (TV s4) else false)
                  data).
    { rewrite filter_filter. apply List.filter_ext. intros r.
      destruct (hasDate r); [| reflexivity].
      destruct (dateOf h r) as [t |]; [| reflexivity]. cbn [tvGe].
      destruct (Z.leb_spec s4 t); [| apply andb_false_r].
      replace (s12 <=? t) with true by (symmetry; apply Z.leb_le; lia).
      reflexivity. }
    destruct data as [| d data]; [reflexivity |].
    destruct (List.filter _ (d :: data)) eqn:Hf; exact Hfilter. }
  split; [exact Hsame |].
  rewrite <- Hsame. apply filtered_sublist.
Qed.

Lemma filtered_nested_ranges_witness :
  filtered Samples.strictHost "4w" (filtered Samples.strictHost "12w" Samples.tenItems)
  = filtered Samples.strictHost "4w" Samples.tenItems.
Proof.
  exact (proj1 (filtered_nested_ranges Samples.strictHost Samples.tenItems
                  ltac:(apply Z.leb_le; reflexivity))).
Defined.

End RangeFilter.

(** ** Topic averages, further *)

Section TopicBounds.
Import Dashboard.

Lemma sumQ_inject_Z (l : list Z) :
  (D3.sumQ (map inject_Z l) == inject_Z (sumZ l))%Q.
Proof.
  induction l as [| x l IH]; [reflexivity |].
  cbn [map D3.sumQ fold_right sumZ]. fold (D3.sumQ (map inject_Z l)). fold (sumZ l).
  rewrite IH, inject_Z_plus. reflexivity.
Qed.

(** The mean of integers, when there is one. *)
Lemma avgPct_mean (arr : list optNumber) :
  finiteValues arr <> [] ->
  (avgPct arr == inject_Z (sumZ (finiteValues arr))
                 / inject_Z (Z.of_nat (length (finiteValues arr))))%Q.
Proof.
  intros Hne. unfold avgPct.
  destruct (finiteValues arr) as [| v vals] eqn:E; [contradiction |].
  unfold D3.mean. cbn [map default from_option id].
  change (inject_Z v :: map inject_Z vals) with (map inject_Z (v :: vals)).
  rewrite length_map. rewrite sumQ_inject_Z. reflexivity.
Qed.

Lemma sumZ_between (lo hi : Z) (l : list Z) :
  Forall (fun v => lo <= v <= hi) l ->
  lo * Z.of_nat (length l) <= sumZ l <= hi * Z.of_nat (length l).
Proof.
  induction 1 as [| x l Hx _ IH]; [cbn; lia |].
  cbn [sumZ fold_right length]. fold (sumZ l). lia.
Qed.

Lemma sumZ_le (f g : Item -> Z) (data : list Item) :
  (forall d, d ∈ data -> f d <= g d) ->
  sumZ (map f data) <= sumZ (map g data).
Proof.
  induction data as [| d data IH]; intros H; [reflexivity |].
  cbn [map sumZ fold_right]. fold (sumZ (map f data)). fold (sumZ (map g data)).
  assert (f d <= g d) by (apply H; left).
  assert (sumZ (map f data) <= sumZ (map g data))
    by (apply IH; intros x Hx; apply H; right; exact Hx).
  lia.
Qed.

(** X15. The average of percentages that has a value to average lies
    between any two bounds of the values it averages ([null] counting as
    0, [undefined] left out). *)
Theorem avgPct_between (lo hi : Z) (arr : list optNumber) :
  finiteValues arr <> [] ->
  Forall (fun v => lo <= v <= hi) (finiteValues arr) ->
  (inject_Z lo <= avgPct arr /\ avgPct arr <= inject_Z hi)%Q.
Proof.
  intros Hne Hall. rewrite (avgPct_mean arr Hne).
  pose proof (sumZ_between lo hi _ Hall) as [Hlo Hhi].
  assert (Hpos : (0 < inject_Z (Z.of_nat (length (finiteValues arr))))%Q).
  { destruct (finiteValues arr); [contradiction |].
    unfold Qlt. cbn. lia. }
  split.
  - apply Qle_shift_div_l; [exact Hpos |].
    rewrite <- inject_Z_mult, <- Zle_Qle. exact Hlo.
  - apply Qle_shift_div_r; [exact Hpos |].
    rewrite <- inject_Z_mult, <- Zle_Qle. exact Hhi.
Qed.

Lemma avgPct_between_witness :
  (inject_Z 0 <= avgPct [Num 100; Null; Undefined; Num 40]
   /\ avgPct [Num 100; Null; Undefined; Num 40] <= inject_Z 100)%Q.
Proof.
  apply (avgPct_between 0 100 [Num 100; Null; Undefined; Num 40]).
  - discriminate.
  - repeat constructor; lia.
Defined.

Lemma finiteValues_numbers (f : Item -> optNumber) (g : Item -> Z) (data : list Item) :
  (forall d, d ∈ data -> f d = Num (g d)) ->
  finiteValues (map f data) = map g data.
Proof.
  induction data as [| d data IH]; intros H; [reflexivity |].
  cbn [map]. unfold finiteValues in *. cbn [omap list_omap].
  rewrite (H d) by left. cbn [Number_]. f_equal.
  apply IH. intros x Hx. apply H. right. exact Hx.
Qed.

Lemma avgPct_le (f1 f2 : Item -> optNumber) (g1 g2 : Item -> Z) (data : list Item) :
  (forall d, d ∈ data -> f1 d = Num (g1 d) /\ f2 d = Num (g2 d) /\ g1 d <= g2 d) ->
  (avgPct (map f1 data) <= avgPct (map f2 data))%Q.
Proof.
  intros H.
  destruct data as [| d0 data0] eqn:Hdata; [apply Qle_refl |]. rewrite <- Hdata in *.
  assert (E1 : finiteValues (map f1 data) = map g1 data)
    by (apply finiteValues_numbers; intros d Hd; apply (H d Hd)).
  assert (E2 : finiteValues (map f2 data) = map g2 data)
    by (apply finiteValues_numbers; intros d Hd; apply (H d Hd)).
  rewrite (avgPct_mean (map f1 data)), (avgPct_mean (map f2 data)).
  - rewrite E1, E2, !length_map. unfold Qdiv.
    apply Qmult_le_compat_r.
    + rewrite <- Zle_Qle. apply sumZ_le. intros d Hd. apply (H d Hd).
    + apply Qinv_le_0_compat. rewrite Hdata. unfold Qle. cbn. lia.
  - rewrite E2, Hdata. discriminate.
  - rewrite E1, Hdata. discriminate.
Qed.

(** X16. The topic bars of the rows of the mapper, under any date range:
    the three averages lie between 0 and 100, and the overall average is
    at most the Python average and at most the LLM average. *)
Theorem topic_bars_of_ingested_rows (hs hb : Host) (pages : list Notion.Page)
    (dateRange : string) :
  let data := filtered hb dateRange
                (map itemOfRecord (map (Notion.mapPage hs) pages)) in
  let python := avgPct (map pythonPct data) in
  let llm := avgPct (map llmPct data) in
  let overall := avgPct (map overallPct data) in
  (0 <= overall /\ overall <= python /\ overall <= llm
   /\ python <= 100 /\ llm <= 100)%Q.
Proof.
  intros data python llm overall.
  assert (Hrow : forall d, d ∈ data ->
            exists py ll ov,
              pythonPct d = Num py /\ llmPct d = Num ll /\ overallPct d = Num ov
              /\ 0 <= ov /\ ov <= py /\ ov <= ll /\ py <= 100 /\ ll <= 100).
  { intros d Hd. subst data. apply filtered_subset in Hd.
    apply list_elem_of_fmap in Hd as (r & -> & Hr).
    apply list_elem_of_fmap in Hr as (page & -> & _).
    eexists _, _, _. split; [reflexivity |]. split; [reflexivity |].
    split; [reflexivity |].
    unfold Notion.mapPage.
    cbn [Notion.pythonPct Notion.llmPct Notion.overallPct].
    set (py := Notion.progressFromStatus _).
    set (ll := Notion.progressFromStatus _).
    assert (py = 0 \/ py = 100)
      by (subst py; unfold Notion.progressFromStatus; destruct (String.eqb _ _); tauto).
    assert (ll = 0 \/ ll = 100)
      by (subst ll; unfold Notion.progressFromStatus; destruct (String.eqb _ _); tauto).
    destruct (Z.eqb_spec py 100), (Z.eqb_spec ll 100); cbn [andb]; lia. }
  assert (Hzero : (avgPct (map (fun _ : Item => Num 0) data) == 0)%Q).
  { destruct data as [| d0 rest] eqn:Hdata; [reflexivity |]. rewrite <- Hdata.
    assert (Hne : finiteValues (map (fun _ : Item => Num 0) data) <> [])
      by (rewrite Hdata; discriminate).
    rewrite (avgPct_mean _ Hne).
    rewrite (finiteValues_numbers _ (fun _ => 0) data) by reflexivity.
    assert (Hs : sumZ (map (fun _ : Item => 0) data) = 0)
      by (clear; induction data as [| x l IH]; [reflexivity | exact IH]).
    rewrite Hs. unfold Qdiv. apply Qmult_0_l. }
  assert (Hhundred : (avgPct (map (fun _ : Item => Num 100) data) <= 100)%Q).
  { destruct data as [| d0 rest] eqn:Hdata; [vm_compute; discriminate |].
    rewrite <- Hdata.
    assert (Hne : finiteValues (map (fun _ : Item => Num 100) data) <> [])
      by (rewrite Hdata; discriminate).
    rewrite (avgPct_mean _ Hne).
    rewrite (finiteValues_numbers _ (fun _ => 100) data) by reflexivity.
    apply Qle_shift_div_r; [rewrite Hdata; unfold Qlt; cbn; lia |].
    change 100%Q with (inject_Z 100).
    rewrite <- inject_Z_mult, <- Zle_Qle.
    apply (sumZ_between 0 100). apply Forall_forall. intros v Hv.
    apply list_elem_of_fmap in Hv as (x & -> & _). lia. }
  subst python llm overall.
  split; [| split; [| split; [| split]]].
  - rewrite <- Hzero.
    apply (avgPct_le _ _ (fun _ => 0) (fun d => orZero (overallPct d))).
    intros d Hd. destruct (Hrow d Hd) as (py & ll & ov & _ & _ & -> & ?).
    cbn [orZero]. split; [reflexivity |]. split; [reflexivity | lia].
  - apply (avgPct_le _ _ (fun d => orZero (overallPct d))
             (fun d => orZero (pythonPct d))).
    intros d Hd. destruct (Hrow d Hd) as (py & ll & ov & -> & _ & -> & ?).
    cbn [orZero]. split; [reflexivity |]. split; [reflexivity | lia].
  - apply (avgPct_le _ _ (fun d => orZero (overallPct d))
             (fun d => orZero (llmPct d))).
    intros d Hd. destruct (Hrow d Hd) as (py & ll & ov & _ & -> & -> & ?).
    cbn [orZero]. split; [reflexivity |]. split; [reflexivity | lia].
  - eapply Qle_trans; [| exact Hhundred].
    apply (avgPct_le _ _ (fun d => orZero (pythonPct d)) (fun _ => 100)).
    intros d Hd. destruct (Hrow d Hd) as (py & ll & ov & -> & _ & _ & ?).
    cbn [orZero]. split; [reflexivity |]. split; [reflexivity | lia].
  - eapply Qle_trans; [| exact Hhundred].
    apply (avgPct_le _ _ (fun d => orZero (llmPct d)) (fun _ => 100)).
    intros d Hd. destruct (Hrow d Hd) as (py & ll & ov & _ & -> & _ & ?).
    cbn [orZero]. split; [reflexivity |]. split; [reflexivity | lia].
Qed.

End TopicBounds.

(** ** The topic timeline *)

Section Timeline.
Import JsString Dashboard DashboardViews.

Lemma timelineRows_elem (h : Host) (data : list Item) (r : TimelineRow) :
  r ∈ timelineRows h data
  <-> exists d, d ∈ data /\ hasDate d = true
                /\ r = {| rowDate := dateOf h d; rowPython := pythonTopic d;
                          rowLlm := llmTopic d |}.
Proof.
  unfold timelineRows. rewrite list_elem_of_omap. split.
  - intros (d & Hd & Hr). exists d. split; [exact Hd |].
    unfold hasDate, truthyOpt, dateOf.
    unfold parseUTC in *. destruct (date d) as [s |]; [| discriminate Hr].
    destruct (truthy s); cbn [negb] in *; [| discriminate Hr].
    split; [reflexivity |].
    match type of Hr with
    | match ?x with _ => _ end = _ => destruct x as [dt |]; [| discriminate Hr]
    end.
    injection Hr as <-. reflexivity.
  - intros (d & Hd & Hdate & ->). exists d. split; [exact Hd |].
    assert (Hsome : exists dt, parseUTC h (date d) = Some dt).
    { unfold hasDate, truthyOpt in Hdate.
      destruct (date d) as [s |]; [| discriminate].
      apply parseUTC_some. intros ->. discriminate Hdate. }
    destruct Hsome as [dt Hdt]. unfold dateOf. rewrite Hdt. reflexivity.
Qed.

Lemma truthyOpt_value (o : option string) (v : string) :
  truthyOpt o = true /\ default "" o = v <-> o = Some v /\ v <> "".
Proof.
  unfold truthyOpt, truthy. destruct o as [s |]; cbn.
  - rewrite negb_true_iff, String.eqb_neq. split.
    + intros [Hs <-]. tauto.
    + intros [E Hv]. injection E as ->. tauto.
  - split; [intros [H _]; discriminate | intros [H _]; discriminate].
Qed.

Lemma meltedAll_elem (h : Host) (data : list Item) (p : TimelinePoint) :
  p ∈ meltedAll h data
  <-> exists d, d ∈ data /\ hasDate d = true /\ pointDate p = dateOf h d
                /\ ((topic p = "Python" /\ pythonTopic d = Some (value p))
                    \/ (topic p = "LLM" /\ llmTopic d = Some (value p)))
                /\ value p <> "".
Proof.
  unfold meltedAll. cbn zeta. rewrite elem_of_app, !list_elem_of_fmap. split.
  - intros [(r & -> & Hr) | (r & -> & Hr)];
      apply list_elem_of_In, List.filter_In in Hr as [Hr Htopic];
      apply list_elem_of_In, timelineRows_elem in Hr as (d & Hd & Hdate & ->);
      cbn in Htopic |- *; exists d;
      (split; [exact Hd |]); (split; [exact Hdate |]); (split; [reflexivity |]).
    + destruct (proj1 (truthyOpt_value (pythonTopic d) _) (conj Htopic eq_refl)).
      split; [left; split; [reflexivity | assumption] | assumption].
    + destruct (proj1 (truthyOpt_value (llmTopic d) _) (conj Htopic eq_refl)).
      split; [right; split; [reflexivity | assumption] | assumption].
  - intros (d & Hd & Hdate & Hpd & Hcases & Hv).
    set (r := {| rowDate := dateOf h d; rowPython := pythonTopic d;
                 rowLlm := llmTopic d |}).
    assert (Hr : r ∈ timelineRows h data) by (apply timelineRows_elem; eauto).
    destruct p as [pd pt pv]. cbn in *. subst pd.
    destruct Hcases as [[-> Ht] | [-> Ht]]; [left | right]; exists r.
    + destruct (proj2 (truthyOpt_value (pythonTopic d) pv) (conj Ht Hv)) as [Htr Hdef].
      split; [cbn; rewrite Hdef; reflexivity |].
      apply list_elem_of_In, List.filter_In. split; [apply list_elem_of_In, Hr | exact Htr].
    + destruct (proj2 (truthyOpt_value (llmTopic d) pv) (conj Ht Hv)) as [Htr Hdef].
      split; [cbn; rewrite Hdef; reflexivity |].
      apply list_elem_of_In, List.filter_In. split; [apply list_elem_of_In, Hr | exact Htr].
Qed.

(** X17. The points of the topic timeline: a point is drawn for a row that
    has a date and a non-empty topic text, at the date of the row and with
    that text; a Python point under the focus "both" or "python", an LLM
    point under every focus but "python". *)
Theorem timeline_points (h : Host) (data : list Item) (topicFocus : string)
    (p : TimelinePoint) :
  p ∈ melted h data topicFocus
  <-> exists d, d ∈ data /\ hasDate d = true /\ pointDate p = dateOf h d
                /\ ((topic p = "Python" /\ pythonTopic d = Some (value p)
                     /\ (topicFocus = "both" \/ topicFocus = "python"))
                    \/ (topic p = "LLM" /\ llmTopic d = Some (value p)
                        /\ topicFocus <> "python"))
                /\ value p <> "".
Proof.
  unfold melted. cbn zeta. rewrite sort_perm.
  destruct (String.eqb_spec topicFocus "both") as [-> | Hnb].
  - rewrite meltedAll_elem. split; intros (d & Hd & Hdate & Hpd & Hc & Hv);
      exists d; repeat (split; [assumption |]); (split; [| exact Hv]).
    + destruct Hc as [[? ?] | [? ?]]; [left | right]; repeat split; auto; discriminate.
    + destruct Hc as [(? & ? & _) | (? & ? & _)]; [left | right]; split; assumption.
  - destruct (String.eqb_spec topicFocus "python") as [-> | Hnp];
      rewrite list_elem_of_In, List.filter_In, <- list_elem_of_In, meltedAll_elem,
        String.eqb_eq.
    + split.
      * intros [(d & Hd & Hdate & Hpd & Hc & Hv) Htopic]. exists d.
        repeat (split; [assumption |]). split; [| exact Hv].
        destruct Hc as [[? ?] | [Hl ?]]; [left; tauto |].
        rewrite Htopic in Hl. discriminate Hl.
      * intros (d & Hd & Hdate & Hpd & Hc & Hv).
        destruct Hc as [(Ht & Hval & _) | (_ & _ & Hne)]; [| contradiction].
        split; [| exact Ht]. exists d. tauto.
    + split.
      * intros [(d & Hd & Hdate & Hpd & Hc & Hv) Htopic]. exists d.
        repeat (split; [assumption |]). split; [| exact Hv].
        destruct Hc as [[Hl ?] | [? ?]]; [| right; tauto].
        rewrite Htopic in Hl. discriminate Hl.
      * intros (d & Hd & Hdate & Hpd & Hc & Hv).
        destruct Hc as [(_ & _ & [E | E]) | (Ht & Hval & _)]; try contradiction.
        split; [| exact Ht]. exists d. tauto.
Qed.

(** X18. The points and the axis of the topic timeline.  Under the focus
    "both" and under the focus "llm" the topic of every point is a topic
    of the axis.  Under the focus "python" the axis has the one topic
    "PYTHON", every point has the topic "Python", and so no point has a
    topic of the axis. *)
Theorem timeline_axis (h : Host) (data : list Item) :
  (timelineTopics "both" = Some ["Python"; "LLM"]
   /\ forall p, p ∈ melted h data "both" -> topic p ∈ ["Python"; "LLM"])
  /\ (timelineTopics "llm" = Some ["LLM"]
      /\ forall p, p ∈ melted h data "llm" -> topic p ∈ ["LLM"])
  /\ (timelineTopics "python" = Some ["PYTHON"]
      /\ forall p, p ∈ melted h data "python" ->
                   topic p = "Python" /\ topic p ∉ ["PYTHON"]).
Proof.
  split; [| split]; (split; [reflexivity |]); intros p Hp;
    unfold melted in Hp; cbn zeta in Hp; rewrite sort_perm in Hp.
  - change (String.eqb "both" "both") with true in Hp. cbv iota in Hp.
    apply meltedAll_elem in Hp as (d & _ & _ & _ & [[-> _] | [-> _]] & _).
    + left.
    + right. left.
  - change (String.eqb "llm" "both") with false in Hp.
    change (String.eqb "llm" "python") with false in Hp. cbv iota in Hp.
    apply list_elem_of_In, List.filter_In in Hp as [_ Ht].
    apply String.eqb_eq in Ht. rewrite Ht. left.
  - change (String.eqb "python" "both") with false in Hp.
    change (String.eqb "python" "python") with true in Hp. cbv iota in Hp.
    apply list_elem_of_In, List.filter_In in Hp as [_ Ht].
    apply String.eqb_eq in Ht. rewrite Ht. split; [reflexivity |].
    intros Hin. apply list_elem_of_In in Hin. cbn in Hin.
    destruct Hin as [E | []]. discriminate E.
Qed.

End Timeline.

(** ** The debug route *)

Section DebugRouteProperties.
Import JsString DebugRoute.
Context {User Database : Type}.

Lemma searchLoop_results (i : nat) :
  forall (src : SearchSource) (acc : list DatabaseObject),
    searchLoop i src acc
    = match firstFailure i src with
      | Some e => Fails e
      | None => Answers (acc ++ firstResults i src)
      end.
Proof.
  induction i as [| i IH]; intros src acc.
  - cbn. rewrite app_nil_r. reflexivity.
  - destruct src as [e | results | results rest]; cbn; try reflexivity.
    rewrite IH. destruct (firstFailure i rest); [reflexivity |].
    rewrite <- app_assoc. reflexivity.
Qed.

(** X19. The debug route answers with 400 exactly when the API key is
    missing or empty.  With a key it looks at no more than five pages of
    search results: when one of these queries fails the answer is 500 with
    the text of the error; otherwise it is 200, with one entry for each
    database of these pages, whatever [users.me] and the probe of the
    database answer; and the probe is left out exactly when the database
    id is missing or empty. *)
Theorem debug_GET_responses (w : World User Database) :
  let r := GET w in
  (httpStatus r = 400 \/ httpStatus r = 500 \/ httpStatus r = 200)
  /\ (httpStatus r = 400
      <-> env_NOTION_API_KEY w = None \/ env_NOTION_API_KEY w = Some "")
  /\ (forall token,
        env_NOTION_API_KEY w = Some token -> token <> "" ->
        match firstFailure 5 (search w token) with
        | Some e => r = {| body := Crashed (errString e); httpStatus := 500 |}
        | None =>
            httpStatus r = 200
            /\ exists user probe,
                 body r
                 = Report user
                     (map (fun d => (id d, titleOf d))
                          (firstResults 5 (search w token)))
                     (env_NOTION_DATABASE_ID w) probe
                 /\ (probe = NoProbe
                     <-> env_NOTION_DATABASE_ID w = None
                         \/ env_NOTION_DATABASE_ID w = Some "")
        end).
Proof.
  cbn zeta. unfold GET.
  destruct (env_NOTION_API_KEY w) as [token |] eqn:Htoken.
  2:{ cbn. split; [tauto |]. split; [tauto |]. intros token H. discriminate H. }
  destruct (String.eqb_spec token "") as [-> | Hne].
  { cbn. split; [tauto |]. split; [tauto |]. intros token H Hne.
    injection H as <-. contradiction. }
  replace (truthy token) with true
    by (symmetry; apply negb_true_iff, String.eqb_neq; exact Hne).
  cbn [negb]. rewrite searchLoop_results. cbn [app].
  destruct (firstFailure 5 (search w token)) as [e |] eqn:Hfail; cbn [httpStatus body].
  - split; [tauto |]. split.
    + split; [discriminate |]. intros [H | H]; [discriminate H |].
      injection H as ->. contradiction.
    + intros token' H _. injection H as <-. rewrite Hfail. reflexivity.
  - split; [tauto |]. split.
    + split; [discriminate |]. intros [H | H]; [discriminate H |].
      injection H as ->. contradiction.
    + intros token' H _. injection H as <-. rewrite Hfail.
      split; [reflexivity |]. eexists _, _. split; [reflexivity |].
      destruct (env_NOTION_DATABASE_ID w) as [db |]; [| tauto].
      destruct (String.eqb_spec db "") as [-> | Hdb].
      * cbn [truthy String.eqb negb]. tauto.
      * replace (truthy db) with true
          by (symmetry; apply negb_true_iff, String.eqb_neq; exact Hdb).
        destruct (databases_retrieve w token db); split;
          try discriminate; intros [H | H]; try discriminate H;
          injection H as ->; contradiction.
Qed.

End DebugRouteProperties.
